(** * EvezArt/codex: the HandshakeOS-E capture pipeline and the EVEZ observations log

    A shallow embedding of [src/handshakeos_e/cli.py] (the interactive
    reasoning-capture tool) and of the observations log of
    [src/evez-core/evez]: [db.py] with [schema.py] (schema versioning),
    [commands/observations.py] (adding, listing, updating and deleting
    observations), [commands/init.py], [commands/about.py] and the
    dispatch of [cli.py]; followed by the properties of the specification
    that concern them and by further properties of the code.

    Conventions of the embedding.
    - A Python [str] is a [string]; its characters stand for the code points
      below 256.  [str.strip], [str.lower] and [int] are written out for
      that range.
    - A Python [float] is an IEEE-754 binary64 value, [spec_float] with
      precision 53 and exponent bound 1024.
    - An exception is a value of [exn]; a computation that may raise returns
      a [result].
    - The interpreter's text conversions [float(str)], [repr(float)],
      [json.loads] and [json.dumps] are parameters of the development
      (section variables); [Module Ref] gives executable instances used to
      run concrete sessions.
    - The console and the store are a [world]: the lines still to be read,
      the events so far, the database file, the open transaction and the
      foreign-key switch.  The store follows [sqlite3] with its default
      transaction control: a transaction opens before the first [INSERT],
      [executescript] commits what is pending and runs the table
      definitions on their own, [commit] writes the transaction to the
      file and [close] drops it.
    - The command line of the log runs in a [Tool.process]: the database
      file, the clock, the lines still to be read and the console so far.
      A command is given by its parsed options.
    - Left out: logging, the creation of the database directory, and
      faults of the store other than a missing table, a broken foreign key,
      an integer beyond 64 bits and the exhaustion of row identifiers; the
      parsing of the command line ([argparse]) and the resolution of the
      database path; [src/ops-stack/examples], which only calls a library
      that is not part of the repository. *)

From Stdlib Require Import ZArith List String Ascii Bool Lia DecimalString.
From Stdlib Require Import Floats.SpecFloat.
From Stdlib Require Import Sorting.Permutation Sorting.Sorted.
Import ListNotations.
Open Scope string_scope.
Open Scope Z_scope.
Set Warnings "-register-all".

(** ** The Python run time *)

Module Py.

(** Exceptions the two programs can meet.  [JSONDecodeError] is a subclass
    of [ValueError]; the others are unrelated to it. *)
Inductive exn : Type :=
| EOFError
| ValueError (msg : string)
| TypeError (msg : string)
| JSONDecodeError (msg : string)
| OverflowError (msg : string)
| RecursionError
| IndexError
| RuntimeError (msg : string)
| OperationalError (msg : string)
| IntegrityError (msg : string).

Inductive result (A : Type) : Type :=
| Ok (a : A)
| Raise (e : exn).
Arguments Ok {A} a.
Arguments Raise {A} e.

(** Sequencing: the second computation runs when the first did not raise. *)
Definition and_then {A B : Type} (r : result A) (k : A -> result B) : result B :=
  match r with
  | Ok a => k a
  | Raise e => Raise e
  end.

(** [except ValueError as exc]: the clause matches [ValueError] and its
    subclass, and [str(exc)] is the message. *)
Definition as_ValueError (e : exn) : option string :=
  match e with
  | ValueError m => Some m
  | JSONDecodeError m => Some m
  | _ => None
  end.

(** [except json.JSONDecodeError] *)
Definition is_JSONDecodeError (e : exn) : bool :=
  match e with
  | JSONDecodeError _ => true
  | _ => false
  end.

(** *** Strings *)

Definition code (c : ascii) : nat := nat_of_ascii c.

(** [str.isspace] on one character: TAB..CR, FS..US, SPACE, NEL, NBSP. *)
Definition is_space (c : ascii) : bool :=
  let n := code c in
  ((9 <=? n) && (n <=? 13) || (28 <=? n) && (n <=? 32)
   || (n =? 133) || (n =? 160))%nat.

(** The string without the characters of the class [sp] at its left end,
    at its right end, at both ends. *)
Fixpoint lstrip_of (sp : ascii -> bool) (s : string) : string :=
  match s with
  | EmptyString => EmptyString
  | String c s' => if sp c then lstrip_of sp s' else s
  end.

Fixpoint rstrip_of (sp : ascii -> bool) (s : string) : string :=
  match s with
  | EmptyString => EmptyString
  | String c s' =>
      match rstrip_of sp s' with
      | EmptyString => if sp c then EmptyString else String c EmptyString
      | r => String c r
      end
  end.

(** [s.lstrip()], [s.rstrip()], [s.strip()] *)
Definition lstrip (s : string) : string := lstrip_of is_space s.
Definition rstrip (s : string) : string := rstrip_of is_space s.
Definition strip (s : string) : string := lstrip (rstrip s).

(** [str.lower] on one character: A-Z and the capital letters of Latin-1
    (U+00C0..U+00DE but the multiplication sign U+00D7). *)
Definition lower_char (c : ascii) : ascii :=
  let n := code c in
  if ((65 <=? n) && (n <=? 90)
      || (192 <=? n) && (n <=? 222) && negb (n =? 215))%nat
  then ascii_of_nat (n + 32) else c.

Fixpoint lower (s : string) : string :=
  match s with
  | EmptyString => EmptyString
  | String c s' => String (lower_char c) (lower s')
  end.

(** [s.split(sep)] for a one-character separator. *)
Fixpoint split (sep : ascii) (s : string) : list string :=
  match s with
  | EmptyString => [EmptyString]
  | String c s' =>
      if Ascii.eqb c sep then EmptyString :: split sep s'
      else match split sep s' with
           | h :: t => String c h :: t
           | [] => [String c EmptyString]
           end
  end.

Definition startswith (s p : string) : bool := prefix p s.

(** Truth value of a string: [not s] holds of the empty string only. *)
Definition nonempty (s : string) : bool :=
  match s with EmptyString => false | _ => true end.

(** [x in l] for a list of strings *)
Definition str_in (x : string) (l : list string) : bool :=
  existsb (String.eqb x) l.

(** [str(n)] and [f"{n}"] for an [int] *)
Definition str_of_int (n : Z) : string := NilZero.string_of_int (Z.to_int n).

(** *** [int(str)] *)

Definition digit_value (c : ascii) : option Z :=
  let n := code c in
  if ((48 <=? n) && (n <=? 57))%nat then Some (Z.of_nat (n - 48)) else None.

(** A digit part: decimal digits, single underscores allowed between two
    digits.  [prev] tells whether the previous character was a digit;
    the result is the value and the number of digits. *)
Fixpoint digitpart (acc : Z) (ndigits : nat) (prev : bool) (s : string)
  : option (Z * nat) :=
  match s with
  | EmptyString => if prev then Some (acc, ndigits) else None
  | String c s' =>
      match digit_value c with
      | Some d => digitpart (10 * acc + d) (S ndigits) true s'
      | None =>
          if Ascii.eqb c "_" && prev then digitpart acc ndigits false s'
          else None
      end
  end.

(** The white space [int] and [float] skip around a number: TAB..CR and
    SPACE, and NEL and NBSP, which they first turn into spaces (FS..US are
    not skipped). *)
Definition is_number_space (c : ascii) : bool :=
  let n := code c in
  ((9 <=? n) && (n <=? 13) || (n =? 32) || (n =? 133) || (n =? 160))%nat.

Definition strip_number (s : string) : string :=
  lstrip_of is_number_space (rstrip_of is_number_space s).

(** [int(s)] in base 10: surrounding white space, an optional sign, a digit
    part.  [max_str_digits] is [sys.get_int_max_str_digits()]: 0 for no
    limit, otherwise longer digit strings raise [ValueError].  [None] stands
    for the [ValueError]. *)
Definition py_int (max_str_digits : nat) (s : string) : option Z :=
  let body := strip_number s in
  let '(neg, digits) :=
    match body with
    | String "-" r => (true, r)
    | String "+" r => (false, r)
    | _ => (false, body)
    end in
  match digitpart 0 0 false digits with
  | Some (v, n) =>
      if (negb (max_str_digits =? 0) && (max_str_digits <? n))%nat then None
      else Some (if neg then - v else v)
  | None => None
  end.

(** *** Floats *)

Definition float : Type := spec_float.
Definition prec : Z := 53.
Definition emax : Z := 1024.

(** [a <= b] on floats; false when either side is a NaN. *)
Definition float_le (a b : float) : bool := SFleb a b.

(** [float(n)] for an [int]: the nearest binary64 value, ties to even;
    [OverflowError] when that is out of range. *)
Definition float_of_int (n : Z) : result float :=
  match binary_normalize prec emax n 0 false with
  | S754_infinity _ => Raise (OverflowError "int too large to convert to float")
  | f => Ok f
  end.

Definition float_zero : float := S754_zero false.
Definition float_one : float := S754_finite false 4503599627370496 (-52).

(** *** Values decoded from JSON

    What [json.loads] builds: [None], [bool], [int], [float], [str], [list]
    and [dict] (string keys, in insertion order). *)
Inductive json : Type :=
| JNull
| JBool (b : bool)
| JInt (n : Z)
| JFloat (f : float)
| JStr (s : string)
| JList (l : list json)
| JDict (d : list (string * json)).

(** [d.get(key)]: the value under [key], [None] when the key is absent. *)
Fixpoint dict_get (key : string) (d : list (string * json)) : json :=
  match d with
  | [] => JNull
  | (k, v) :: d' => if String.eqb k key then v else dict_get key d'
  end.

(** [l[i]] for a list: negative indices count from the end. *)
Definition list_index {A : Type} (l : list A) (i : Z) : result A :=
  let n := Z.of_nat (List.length l) in
  let j := if i <? 0 then i + n else i in
  if (0 <=? j) && (j <? n) then
    match nth_error l (Z.to_nat j) with
    | Some x => Ok x
    | None => Raise IndexError
    end
  else Raise IndexError.

End Py.

(** ** The store of the capture tool: six SQLite tables

    [handshakeos_e/cli.py] keeps its records in six tables whose primary key
    is [INTEGER PRIMARY KEY AUTOINCREMENT]; lines 143-199 declare them. *)

Module Store.
Import Py.

Record intent_row : Type := {
  i_goal : string;
  i_constraints : string;
  i_success_signal : string;
  i_confidence : float }.

Record observation_row : Type := {
  o_intent_id : Z;
  o_description : string;
  o_domain_signature : string }.

Record hypothesis_row : Type := {
  h_observation_id : Z;
  h_model_type : string;
  h_probability : float;
  h_falsifiers : string;
  h_domain_signature : string }.

Record test_row : Type := {
  t_hypothesis_id : Z;
  t_description : string;
  t_result : string;
  t_evidence : string }.

Record outcome_row : Type := {
  c_observation_id : Z;
  c_hypothesis_id : Z;
  c_summary : string;
  c_evidence_refs : string }.

Record pattern_seed_row : Type := {
  p_outcome_id : Z;
  p_trigger : string;
  p_invariant : string;
  p_counterexample : string;
  p_best_response : string;
  p_domain_signature : string;
  p_evidence_refs : string }.

(** A table: its rows by rowid, in insertion order, and its entry in
    [sqlite_sequence] (the largest rowid the table ever held; 0 when it has
    none). *)
Record table (R : Type) : Type := {
  sequence : Z;
  rows : list (Z * R) }.
Arguments sequence {R} t.
Arguments rows {R} t.

Definition empty_table {R : Type} : table R := {| sequence := 0; rows := [] |}.

(** A database file: each of the six tables is absent ([None]) or present. *)
Record db : Type := {
  intents : option (table intent_row);
  observations : option (table observation_row);
  hypotheses : option (table hypothesis_row);
  tests : option (table test_row);
  outcomes : option (table outcome_row);
  pattern_seeds : option (table pattern_seed_row) }.

(** A file that does not exist yet, or holds no table. *)
Definition empty_db : db :=
  {| intents := None; observations := None; hypotheses := None;
     tests := None; outcomes := None; pattern_seeds := None |}.

Inductive any_row : Type :=
| IntentRow (r : intent_row)
| ObservationRow (r : observation_row)
| HypothesisRow (r : hypothesis_row)
| TestRow (r : test_row)
| OutcomeRow (r : outcome_row)
| PatternSeedRow (r : pattern_seed_row).

Definition rowid_max : Z := 9223372036854775807.

Definition max_rowid {R : Type} (l : list (Z * R)) : Z :=
  fold_right (fun p m => Z.max (fst p) m) 0 l.

(** AUTOINCREMENT: one more than the largest rowid the table ever held;
    SQLITE_FULL once the largest possible rowid has been used. *)
Definition allocate {R : Type} (t : table R) : result Z :=
  let m := Z.max (sequence t) (max_rowid (rows t)) in
  if rowid_max <=? m then Raise (OperationalError "database or disk is full")
  else Ok (m + 1).

Definition table_insert {R : Type} (t : option (table R)) (name : string) (r : R)
  : result (Z * table R) :=
  match t with
  | None => Raise (OperationalError ("no such table: " ++ name))
  | Some t =>
      match allocate t with
      | Ok id => Ok (id, {| sequence := id; rows := rows t ++ [(id, r)] |})
      | Raise e => Raise e
      end
  end.

Definition has_rowid {R : Type} (t : table R) (id : Z) : bool :=
  existsb (fun p => fst p =? id) (rows t).

(** [FOREIGN KEY (..) REFERENCES parent(id)], checked when [enforce] (the
    connection has [PRAGMA foreign_keys = ON]). *)
Definition references {R : Type} (enforce : bool) (parent : option (table R))
    (name : string) (id : Z) : result unit :=
  if enforce then
    match parent with
    | None => Raise (OperationalError ("no such table: main." ++ name))
    | Some t =>
        if has_rowid t id then Ok tt
        else Raise (IntegrityError "FOREIGN KEY constraint failed")
    end
  else Ok tt.

(** One [INSERT INTO <table> (...) VALUES (...)]: the new rowid and the
    database after it. *)
Definition insert_row (enforce : bool) (d : db) (r : any_row) : result (Z * db) :=
  match r with
  | IntentRow x =>
      and_then (table_insert (intents d) "intents" x) (fun '(id, t) =>
      Ok (id, {| intents := Some t; observations := observations d;
                 hypotheses := hypotheses d; tests := tests d;
                 outcomes := outcomes d; pattern_seeds := pattern_seeds d |}))
  | ObservationRow x =>
      and_then (table_insert (observations d) "observations" x) (fun '(id, t) =>
      and_then (references enforce (intents d) "intents" (o_intent_id x)) (fun _ =>
      Ok (id, {| intents := intents d; observations := Some t;
                 hypotheses := hypotheses d; tests := tests d;
                 outcomes := outcomes d; pattern_seeds := pattern_seeds d |})))
  | HypothesisRow x =>
      and_then (table_insert (hypotheses d) "hypotheses" x) (fun '(id, t) =>
      and_then (references enforce (observations d) "observations"
                  (h_observation_id x)) (fun _ =>
      Ok (id, {| intents := intents d; observations := observations d;
                 hypotheses := Some t; tests := tests d;
                 outcomes := outcomes d; pattern_seeds := pattern_seeds d |})))
  | TestRow x =>
      and_then (table_insert (tests d) "tests" x) (fun '(id, t) =>
      and_then (references enforce (hypotheses d) "hypotheses"
                  (t_hypothesis_id x)) (fun _ =>
      Ok (id, {| intents := intents d; observations := observations d;
                 hypotheses := hypotheses d; tests := Some t;
                 outcomes := outcomes d; pattern_seeds := pattern_seeds d |})))
  | OutcomeRow x =>
      and_then (table_insert (outcomes d) "outcomes" x) (fun '(id, t) =>
      and_then (references enforce (observations d) "observations"
                  (c_observation_id x)) (fun _ =>
      and_then (references enforce (hypotheses d) "hypotheses"
                  (c_hypothesis_id x)) (fun _ =>
      Ok (id, {| intents := intents d; observations := observations d;
                 hypotheses := hypotheses d; tests := tests d;
                 outcomes := Some t; pattern_seeds := pattern_seeds d |}))))
  | PatternSeedRow x =>
      and_then (table_insert (pattern_seeds d) "pattern_seeds" x) (fun '(id, t) =>
      and_then (references enforce (outcomes d) "outcomes" (p_outcome_id x)) (fun _ =>
      Ok (id, {| intents := intents d; observations := observations d;
                 hypotheses := hypotheses d; tests := tests d;
                 outcomes := outcomes d; pattern_seeds := Some t |})))
  end.

(** [CREATE TABLE IF NOT EXISTS]: an absent table is created empty, a
    present one is left alone. *)
Definition create_if_not_exists {R : Type} (t : option (table R)) : option (table R) :=
  match t with
  | None => Some empty_table
  | Some t => Some t
  end.

(** The script of lines 146-198: the six [CREATE TABLE IF NOT EXISTS]. *)
Definition create_tables (d : db) : db :=
  {| intents := create_if_not_exists (intents d);
     observations := create_if_not_exists (observations d);
     hypotheses := create_if_not_exists (hypotheses d);
     tests := create_if_not_exists (tests d);
     outcomes := create_if_not_exists (outcomes d);
     pattern_seeds := create_if_not_exists (pattern_seeds d) |}.

End Store.

(** ** The process: console, connection and effects *)

Module Proc.
Import Py Store.

(** What the process does at the console: [input(p)] writes the prompt [p]
    and reads a line; [print(s)] writes the line [s]. *)
Inductive console_event : Type :=
| Prompt (text : string)
| Read (line : string)
| Print (text : string).

(** What it does to the store (statements that succeeded). *)
Inductive store_event : Type :=
| PragmaForeignKeys
| CreateTables
| Insert (r : any_row) (rowid : Z)
| Commit
| Close.

Inductive event : Type :=
| Console (e : console_event)
| Store (e : store_event).

(** The world of one process: the lines still to come on standard input,
    what has happened so far (oldest first), the database file, and the one
    connection to it: its pending transaction (the uncommitted view of the
    file, [None] when no transaction is open) and its foreign-key switch. *)
Record world : Type := {
  stdin : list string;
  trace : list event;
  disk : db;
  txn : option db;
  foreign_keys : bool }.

Definition M (A : Type) : Type := world -> result A * world.

Definition ret {A : Type} (a : A) : M A := fun w => (Ok a, w).

Definition bind {A B : Type} (m : M A) (k : A -> M B) : M B :=
  fun w =>
    match m w with
    | (Ok a, w') => k a w'
    | (Raise e, w') => (Raise e, w')
    end.

Definition emit (evs : list event) (w : world) : world :=
  {| stdin := stdin w; trace := trace w ++ evs; disk := disk w;
     txn := txn w; foreign_keys := foreign_keys w |}.

(** A computation that only uses the console, as a function of the pending
    input lines: its result, the lines left, the console events. *)
Definition console_fun (A : Type) : Type :=
  list string -> result A * list string * list console_event.

Definition console {A : Type} (f : console_fun A) : M A :=
  fun w =>
    let '(r, rest, evs) := f (stdin w) in
    (r, {| stdin := rest; trace := trace w ++ map Console evs; disk := disk w;
           txn := txn w; foreign_keys := foreign_keys w |}).

Definition print (s : string) : M unit :=
  fun w => (Ok tt, emit [Console (Print s)] w).

(** The body of a [while True:] loop around [input]: it returns, or prints a
    message and goes round again, or lets an exception out. *)
Inductive step (A : Type) : Type :=
| Return (a : A)
| Again (msg : string)
| Throw (e : exn).
Arguments Return {A} a.
Arguments Again {A} msg.
Arguments Throw {A} e.

(** [while True: line = input(prompt); <body line>].  [input] raises
    [EOFError] when standard input is exhausted. *)
Fixpoint retry {A : Type} (prompt : string) (body : string -> step A)
    (lines : list string) : result A * list string * list console_event :=
  match lines with
  | [] => (Raise EOFError, [], [Prompt prompt])
  | line :: rest =>
      match body line with
      | Return a => (Ok a, rest, [Prompt prompt; Read line])
      | Throw e => (Raise e, rest, [Prompt prompt; Read line])
      | Again msg =>
          let '(r, rest', evs) := retry prompt body rest in
          (r, rest', Prompt prompt :: Read line :: Print msg :: evs)
      end
  end.

(** *** [sqlite3] as the tool uses it (default, legacy transaction control) *)

(** [sqlite3.connect(path)]: a new connection, no transaction open, foreign
    keys off. *)
Definition connect (w : world) : world :=
  {| stdin := stdin w; trace := trace w; disk := disk w;
     txn := None; foreign_keys := false |}.

(** [conn.execute("PRAGMA foreign_keys = ON")]: no effect inside a
    transaction. *)
Definition pragma_foreign_keys_on : M unit :=
  fun w =>
    (Ok tt,
     {| stdin := stdin w; trace := trace w ++ [Store PragmaForeignKeys];
        disk := disk w; txn := txn w;
        foreign_keys := match txn w with None => true | Some _ => foreign_keys w end |}).

(** [conn.commit()] *)
Definition commit : M unit :=
  fun w =>
    (Ok tt,
     {| stdin := stdin w; trace := trace w ++ [Store Commit];
        disk := match txn w with Some d => d | None => disk w end;
        txn := None; foreign_keys := foreign_keys w |}).

(** [conn.executescript(<the six CREATE TABLE IF NOT EXISTS>)]: a pending
    transaction is committed first, then the statements run in autocommit
    mode. *)
Definition executescript_create_tables : M unit :=
  fun w =>
    let d := match txn w with Some d => d | None => disk w end in
    (Ok tt,
     {| stdin := stdin w; trace := trace w ++ [Store CreateTables];
        disk := create_tables d; txn := None;
        foreign_keys := foreign_keys w |}).

(** [conn.execute("INSERT INTO ...", values)] and [cursor.lastrowid]: an
    INSERT opens a transaction when none is open, then runs in it. *)
Definition execute_insert (r : any_row) : M Z :=
  fun w =>
    let view := match txn w with Some d => d | None => disk w end in
    match insert_row (foreign_keys w) view r with
    | Ok (id, d') =>
        (Ok id,
         {| stdin := stdin w; trace := trace w ++ [Store (Insert r id)];
            disk := disk w; txn := Some d'; foreign_keys := foreign_keys w |})
    | Raise e =>
        (Raise e,
         {| stdin := stdin w; trace := trace w; disk := disk w;
            txn := Some view; foreign_keys := foreign_keys w |})
    end.

(** [conn.close()]: what was not committed is rolled back. *)
Definition close (w : world) : world :=
  {| stdin := stdin w; trace := trace w ++ [Store Close]; disk := disk w;
     txn := None; foreign_keys := foreign_keys w |}.

(** [try: <body> finally: conn.close()] *)
Definition finally_close {A : Type} (body : M A) : M A :=
  fun w => let '(r, w') := body w in (r, close w').

(** [for x in l: acc = body(x, acc)] *)
Fixpoint for_each {A S : Type} (l : list A) (body : A -> S -> M S) (acc : S) : M S :=
  match l with
  | [] => ret acc
  | x :: l' => bind (body x acc) (for_each l' body)
  end.

(** [range(lo, hi)] *)
Definition range (lo hi : Z) : list Z :=
  map (fun i => lo + Z.of_nat i) (seq 0 (Z.to_nat (hi - lo))).

(** [enumerate(l, start)] *)
Fixpoint enumerate {A : Type} (l : list A) (start : Z) : list (Z * A) :=
  match l with
  | [] => []
  | x :: l' => (start, x) :: enumerate l' (start + 1)
  end.

End Proc.

Declare Scope proc_scope.
Delimit Scope proc_scope with proc.
Notation "x <- m ;; k" := (Proc.bind m (fun x => k))
  (at level 61, m at next level, right associativity) : proc_scope.
Notation "' p <- m ;; k" := (Proc.bind m (fun x => let 'p := x in k))
  (at level 61, p pattern, m at next level, right associativity) : proc_scope.
Notation "m ;; k" := (Proc.bind m (fun _ => k))
  (at level 61, right associativity) : proc_scope.

(** ** [handshakeos_e/cli.py] *)

(** The frozen dataclasses of lines 109-140. *)
Module HypothesisInput.
Record t : Type := {
  model_type : string;
  probability : Py.float;
  falsifiers : string;
  domain_signature : list Py.json }.
End HypothesisInput.

Module TestInput.
Record t : Type := {
  hypothesis_id : Z;
  description : string;
  result : string;
  evidence : string }.
End TestInput.

Module OutcomeInput.
Record t : Type := {
  hypothesis_id : Z;
  summary : string;
  evidence_refs : list string }.
End OutcomeInput.

Module PatternSeedInput.
Record t : Type := {
  outcome_id : Z;
  trigger : string;
  invariant : string;
  counterexample : string;
  best_response : string;
  domain_signature : list Py.json;
  evidence_refs : list string }.
End PatternSeedInput.

Module HandshakeOS.
Import Py Store Proc.
Local Open Scope proc_scope.

(** The dictionary [capture] returns (lines 369-375). *)
Record capture_ids : Type := {
  intent_id : Z;
  observation_id : Z;
  hypothesis_ids : list Z;
  test_id : Z;
  outcome_id : Z }.

Section Cli.

(** The interpreter's conversions, left open. *)
Variable max_str_digits : nat.
  (* sys.get_int_max_str_digits() *)
Variable py_float : string -> option float.
  (* float(s) for a str; None for ValueError *)
Variable float_repr : float -> string.
  (* repr(x) for a float, as f"{x}" prints it *)
Variable json_loads : string -> result json.
Variable json_dumps : json -> string.

(** Lines 8-13. *)
Definition _prompt_text (label : string) (allow_empty : bool) : console_fun string :=
  retry (label ++ ": ")
    (fun line =>
       let value := strip line in
       if nonempty value || allow_empty then Return value
       else Again "Please provide a value.").

(** Lines 16-23. *)
Definition _prompt_choice (label : string) (options : list string) : console_fun string :=
  let options_list := options in
  let options_str := String.concat "/" options_list in
  retry (label ++ " (" ++ options_str ++ "): ")
    (fun line =>
       let value := lower (strip line) in
       if str_in value options_list then Return value
       else Again ("Please choose one of: " ++ options_str ++ ".")).

(** Lines 26-36. *)
Definition _prompt_float (label : string) (min_value max_value : float)
  : console_fun float :=
  retry (label ++ " (" ++ float_repr min_value ++ "-" ++ float_repr max_value ++ "): ")
    (fun line =>
       let raw := strip line in
       match py_float raw with
       | None => Again "Please enter a number."
       | Some value =>
           if float_le min_value value && float_le value max_value then Return value
           else Again ("Value must be between " ++ float_repr min_value ++ " and "
                       ++ float_repr max_value ++ ".")
       end).

(** Lines 39-49. *)
Definition _prompt_int (label : string) (min_value max_value : Z) : console_fun Z :=
  retry (label ++ " (" ++ str_of_int min_value ++ "-" ++ str_of_int max_value ++ "): ")
    (fun line =>
       let raw := strip line in
       match py_int max_str_digits raw with
       | None => Again "Please enter an integer."
       | Some value =>
           if (min_value <=? value) && (value <=? max_value) then Return value
           else Again ("Value must be between " ++ str_of_int min_value ++ " and "
                       ++ str_of_int max_value ++ ".")
       end).

(** [isinstance(weight, (int, float))]: [bool] is a subclass of [int]. *)
Definition is_int_or_float (v : json) : bool :=
  match v with
  | JBool _ | JInt _ | JFloat _ => true
  | _ => false
  end.

(** [float(weight)]; a weight that passed the test above is a number. *)
Definition float_of_number (v : json) : result float :=
  match v with
  | JBool b => float_of_int (if b then 1 else 0)
  | JInt n => float_of_int n
  | JFloat f => Ok f
  | _ => Raise (TypeError "float() argument must be a string or a real number")
  end.

(** The body of the loop of lines 62-71, for one [entry]. *)
Definition clean_entry (entry : json) : result json :=
  match entry with
  | JDict d =>
      let domain := dict_get "domain" d in
      let weight := dict_get "weight" d in
      match domain with
      | JStr s =>
          if nonempty s then
            if is_int_or_float weight then
              and_then (float_of_number weight) (fun w =>
              Ok (JDict [("domain", JStr s); ("weight", JFloat w)]))
            else Raise (ValueError "Each mixture entry needs a numeric 'weight'.")
          else Raise (ValueError "Each mixture entry needs a non-empty 'domain' string.")
      | _ => Raise (ValueError "Each mixture entry needs a non-empty 'domain' string.")
      end
  | _ => Raise (ValueError "Each mixture entry must be an object.")
  end.

(** [for entry in data: ... cleaned.append(...)] *)
Fixpoint clean_entries (data : list json) (cleaned : list json) : result (list json) :=
  match data with
  | [] => Ok cleaned
  | entry :: data' =>
      and_then (clean_entry entry) (fun c => clean_entries data' (cleaned ++ [c])%list)
  end.

(** Lines 52-72. *)
Definition _parse_mixture_vector (raw : string) : result (list json) :=
  if negb (nonempty raw) then Ok []
  else
    match json_loads raw with
    | Raise e =>
        if is_JSONDecodeError e
        then Raise (ValueError "Mixture vector must be JSON (list of objects).")
        else Raise e
    | Ok data =>
        match data with
        | JList entries => clean_entries entries []
        | _ => Raise (ValueError "Mixture vector must be a JSON list.")
        end
    end.

(** [try: return f(raw)] [except ValueError as exc: print(str(exc))] inside
    a [while True:]. *)
Definition or_reprompt {A : Type} (r : result A) : step A :=
  match r with
  | Ok a => Return a
  | Raise e =>
      match as_ValueError e with
      | Some msg => Again msg
      | None => Throw e
      end
  end.

(** Lines 75-83. *)
Definition _prompt_mixture_vector (label : string) : console_fun (list json) :=
  retry (label ++ " (JSON list of {domain, weight}, empty for []): ")
    (fun line =>
       let raw := strip line in
       or_reprompt (_parse_mixture_vector raw)).

(** [all(isinstance(item, str) for item in data)], with the items. *)
Fixpoint all_str (data : list json) : option (list string) :=
  match data with
  | [] => Some []
  | JStr s :: data' =>
      match all_str data' with
      | Some l => Some (s :: l)
      | None => None
      end
  | _ :: _ => None
  end.

(** [[item.strip() for item in items if item.strip()]] *)
Definition stripped_nonempty (items : list string) : list string :=
  filter nonempty (map strip items).

(** Lines 86-97. *)
Definition _parse_evidence_refs (raw : string) : result (list string) :=
  if negb (nonempty raw) then Ok []
  else if startswith (lstrip raw) "[" then
    match json_loads raw with
    | Raise e =>
        if is_JSONDecodeError e
        then Raise (ValueError "Evidence refs must be JSON list or comma-separated.")
        else Raise e
    | Ok data =>
        match data with
        | JList items =>
            match all_str items with
            | Some strs => Ok (stripped_nonempty strs)
            | None => Raise (ValueError "Evidence refs JSON must be a list of strings.")
            end
        | _ => Raise (ValueError "Evidence refs JSON must be a list of strings.")
        end
    end
  else Ok (stripped_nonempty (split "," raw)).

(** Lines 100-106. *)
Definition _prompt_evidence_refs (label : string) : console_fun (list string) :=
  retry (label ++ " (comma-separated or JSON list): ")
    (fun line =>
       let raw := strip line in
       or_reprompt (_parse_evidence_refs raw)).

(** Lines 143-199. *)
Definition _ensure_schema : M unit :=
  pragma_foreign_keys_on ;;
  executescript_create_tables.

(** A pure computation that may raise, inside the process. *)
Definition lift {A : Type} (r : result A) : M A := fun w => (r, w).

(** *** [capture], stage by stage *)

(** Lines 209-218: the intent. *)
Definition capture_intent : M Z :=
  goal <- console (_prompt_text "Intent goal" false) ;;
  constraints <- console (_prompt_text "Intent constraints" false) ;;
  success_signal <- console (_prompt_text "Intent success signal" false) ;;
  confidence <- console (_prompt_float "Intent confidence" float_zero float_one) ;;
  execute_insert
    (IntentRow {| i_goal := goal; i_constraints := constraints;
                  i_success_signal := success_signal;
                  i_confidence := confidence |}).

(** Lines 220-232: the observation. *)
Definition capture_observation (intent_id : Z) : M Z :=
  observation_desc <- console (_prompt_text "Observation description" false) ;;
  observation_domain_signature <-
    console (_prompt_mixture_vector "Observation domain signature mixture") ;;
  execute_insert
    (ObservationRow
       {| o_intent_id := intent_id; o_description := observation_desc;
          o_domain_signature := json_dumps (JList observation_domain_signature) |}).

(** Lines 237-253: the body of the first loop, for one [index]. *)
Definition collect_hypothesis (index : Z) (hypotheses : list HypothesisInput.t)
  : M (list HypothesisInput.t) :=
  let label := "Hypothesis " ++ str_of_int index in
  model_type <- console (_prompt_choice (label ++ " model type")
                           ["me"; "we"; "they"; "system"]) ;;
  probability <- console (_prompt_float (label ++ " probability")
                            float_zero float_one) ;;
  falsifiers <- console (_prompt_text (label ++ " falsifiers") false) ;;
  domain_signature <-
    console (_prompt_mixture_vector (label ++ " domain signature mixture")) ;;
  ret (hypotheses ++
       [ {| HypothesisInput.model_type := model_type;
            HypothesisInput.probability := probability;
            HypothesisInput.falsifiers := falsifiers;
            HypothesisInput.domain_signature := domain_signature |} ])%list.

(** Lines 257-270: the body of the second loop, for one [hypothesis]. *)
Definition persist_hypothesis (observation_id : Z) (hypothesis : HypothesisInput.t)
    (hypothesis_ids : list Z) : M (list Z) :=
  lastrowid <- execute_insert
    (HypothesisRow
       {| h_observation_id := observation_id;
          h_model_type := HypothesisInput.model_type hypothesis;
          h_probability := HypothesisInput.probability hypothesis;
          h_falsifiers := HypothesisInput.falsifiers hypothesis;
          h_domain_signature :=
            json_dumps (JList (HypothesisInput.domain_signature hypothesis)) |}) ;;
  ret (hypothesis_ids ++ [lastrowid])%list.

(** Lines 234-274: the hypotheses. *)
Definition capture_hypotheses (observation_id : Z) : M (list Z) :=
  hypothesis_count <- console (_prompt_int "Number of hypotheses" 3 7) ;;
  hypotheses <- for_each (range 1 (hypothesis_count + 1)) collect_hypothesis [] ;;
  hypothesis_ids <- for_each hypotheses (persist_hypothesis observation_id) [] ;;
  print "Captured hypotheses:" ;;
  for_each (enumerate hypothesis_ids 1)
    (fun '(idx, hypothesis_id) _ =>
       print ("  " ++ str_of_int idx ++ ". hypothesis_id=" ++ str_of_int hypothesis_id))
    tt ;;
  ret hypothesis_ids.

(** Lines 276-297: the test. *)
Definition capture_test (hypothesis_ids : list Z) : M (TestInput.t * Z) :=
  test_hypothesis_index <-
    console (_prompt_int "Choose hypothesis to test (index)" 1
               (Z.of_nat (List.length hypothesis_ids))) ;;
  test_description <- console (_prompt_text "Test description" false) ;;
  test_result <- console (_prompt_text "Test result" false) ;;
  test_evidence <- console (_prompt_text "Test evidence" false) ;;
  selected <- lift (list_index hypothesis_ids (test_hypothesis_index - 1)) ;;
  let test_input :=
    {| TestInput.hypothesis_id := selected;
       TestInput.description := test_description;
       TestInput.result := test_result;
       TestInput.evidence := test_evidence |} in
  test_id <- execute_insert
    (TestRow {| t_hypothesis_id := TestInput.hypothesis_id test_input;
                t_description := TestInput.description test_input;
                t_result := TestInput.result test_input;
                t_evidence := TestInput.evidence test_input |}) ;;
  ret (test_input, test_id).

(** Lines 305-307: the test reference is appended when absent. *)
Definition with_test_ref (test_id : Z) (outcome_refs : list string) : list string :=
  let test_ref := "test:" ++ str_of_int test_id in
  if negb (str_in test_ref outcome_refs) then (outcome_refs ++ [test_ref])%list
  else outcome_refs.

(** Lines 299-325: the outcome. *)
Definition capture_outcome (observation_id : Z) (test_input : TestInput.t)
    (test_id : Z) : M Z :=
  print ("Provide outcome evidence refs. Include the test reference "
         ++ "(e.g., test:" ++ str_of_int test_id ++ ").") ;;
  outcome_summary <- console (_prompt_text "Outcome summary" false) ;;
  outcome_refs <- console (_prompt_evidence_refs "Outcome evidence refs") ;;
  let outcome_refs := with_test_ref test_id outcome_refs in
  let outcome_input :=
    {| OutcomeInput.hypothesis_id := TestInput.hypothesis_id test_input;
       OutcomeInput.summary := outcome_summary;
       OutcomeInput.evidence_refs := outcome_refs |} in
  execute_insert
    (OutcomeRow
       {| c_observation_id := observation_id;
          c_hypothesis_id := OutcomeInput.hypothesis_id outcome_input;
          c_summary := OutcomeInput.summary outcome_input;
          c_evidence_refs :=
            json_dumps (JList (map JStr (OutcomeInput.evidence_refs outcome_input))) |}).

(** Lines 327-366: the pattern seed. *)
Definition capture_pattern_seed (outcome_id : Z) : M Z :=
  print "Capture pattern seed." ;;
  trigger <- console (_prompt_text "Pattern trigger" false) ;;
  invariant <- console (_prompt_text "Pattern invariant" false) ;;
  counterexample <- console (_prompt_text "Pattern counterexample" false) ;;
  best_response <- console (_prompt_text "Pattern best response" false) ;;
  pattern_domain_signature <-
    console (_prompt_mixture_vector "Pattern domain signature mixture") ;;
  pattern_evidence_refs <- console (_prompt_evidence_refs "Pattern evidence refs") ;;
  let pattern_input :=
    {| PatternSeedInput.outcome_id := outcome_id;
       PatternSeedInput.trigger := trigger;
       PatternSeedInput.invariant := invariant;
       PatternSeedInput.counterexample := counterexample;
       PatternSeedInput.best_response := best_response;
       PatternSeedInput.domain_signature := pattern_domain_signature;
       PatternSeedInput.evidence_refs := pattern_evidence_refs |} in
  execute_insert
    (PatternSeedRow
       {| p_outcome_id := PatternSeedInput.outcome_id pattern_input;
          p_trigger := PatternSeedInput.trigger pattern_input;
          p_invariant := PatternSeedInput.invariant pattern_input;
          p_counterexample := PatternSeedInput.counterexample pattern_input;
          p_best_response := PatternSeedInput.best_response pattern_input;
          p_domain_signature :=
            json_dumps (JList (PatternSeedInput.domain_signature pattern_input));
          p_evidence_refs :=
            json_dumps (JList (map JStr (PatternSeedInput.evidence_refs pattern_input))) |}).

(** Lines 207-375: the body of the [try]. *)
Definition capture_body : M capture_ids :=
  _ensure_schema ;;
  intent_id <- capture_intent ;;
  observation_id <- capture_observation intent_id ;;
  hypothesis_ids <- capture_hypotheses observation_id ;;
  '(test_input, test_id) <- capture_test hypothesis_ids ;;
  outcome_id <- capture_outcome observation_id test_input test_id ;;
  _ <- capture_pattern_seed outcome_id ;;
  commit ;;
  ret {| intent_id := intent_id; observation_id := observation_id;
         hypothesis_ids := hypothesis_ids; test_id := test_id;
         outcome_id := outcome_id |}.

(** Lines 202-377.  The database file at [db_path] is the [disk] of the
    world the function is run in. *)
Definition capture : M capture_ids :=
  fun w => finally_close capture_body (connect w).

End Cli.
End HandshakeOS.

(** ** [evez-core/evez/schema.py] and [evez-core/evez/db.py] *)

Module Evez.
Import Py.

(** A row of the [observations] table of the log. *)
Record observation : Type := {
  timestamp : Z;
  content : string;
  tags : option string;
  location : option string }.

(** A database file of the log: the [schema_version] table (its rows, when
    it exists), the [observations] table and its two indexes. *)
Record db : Type := {
  schema_version : option (list Z);
  observations : option (Store.table observation);
  idx_observations_timestamp : bool;
  idx_observations_location : bool }.

Definition empty_db : db :=
  {| schema_version := None; observations := None;
     idx_observations_timestamp := false; idx_observations_location := false |}.

(** A connection: the file, the pending transaction, the foreign-key
    switch. *)
Record conn : Type := {
  disk : db;
  txn : option db;
  foreign_keys : bool }.

Definition M (A : Type) : Type := conn -> result A * conn.

Definition ret {A : Type} (a : A) : M A := fun c => (Ok a, c).

Definition bind {A B : Type} (m : M A) (k : A -> M B) : M B :=
  fun c =>
    match m c with
    | (Ok a, c') => k a c'
    | (Raise e, c') => (Raise e, c')
    end.

Definition raise {A : Type} (e : exn) : M A := fun c => (Raise e, c).

(** [schema.py], line 7. *)
Definition SCHEMA_VERSION : Z := 1.

(** The SQL statements of [schema.py]. *)
Inductive statement : Type :=
| CreateSchemaVersion
    (* CREATE TABLE IF NOT EXISTS schema_version (version INTEGER NOT NULL) *)
| CreateObservations
    (* CREATE TABLE IF NOT EXISTS observations (...) *)
| CreateIndexTimestamp
    (* CREATE INDEX IF NOT EXISTS idx_observations_timestamp ON observations(timestamp) *)
| CreateIndexLocation.
    (* CREATE INDEX IF NOT EXISTS idx_observations_location ON observations(location) *)

(** [schema.py], lines 10-29. *)
Definition schema_statements : list statement :=
  [CreateSchemaVersion; CreateObservations; CreateIndexTimestamp; CreateIndexLocation].

(** [schema.py], lines 32-35. *)
Definition migration_statements (from_version to_version : Z) : result (list statement) :=
  if (from_version =? 0) && (to_version =? 1) then Ok schema_statements
  else Raise (ValueError ("Unsupported migration path " ++ str_of_int from_version
                          ++ " -> " ++ str_of_int to_version)).

(** What a data-definition statement does to a database. *)
Definition run_ddl (s : statement) (d : db) : result db :=
  match s with
  | CreateSchemaVersion =>
      Ok {| schema_version :=
              match schema_version d with None => Some [] | Some r => Some r end;
            observations := observations d;
            idx_observations_timestamp := idx_observations_timestamp d;
            idx_observations_location := idx_observations_location d |}
  | CreateObservations =>
      Ok {| schema_version := schema_version d;
            observations := Store.create_if_not_exists (observations d);
            idx_observations_timestamp := idx_observations_timestamp d;
            idx_observations_location := idx_observations_location d |}
  | CreateIndexTimestamp =>
      if idx_observations_timestamp d then Ok d
      else
        match observations d with
        | None => Raise (OperationalError "no such table: main.observations")
        | Some _ =>
            Ok {| schema_version := schema_version d;
                  observations := observations d;
                  idx_observations_timestamp := true;
                  idx_observations_location := idx_observations_location d |}
        end
  | CreateIndexLocation =>
      if idx_observations_location d then Ok d
      else
        match observations d with
        | None => Raise (OperationalError "no such table: main.observations")
        | Some _ =>
            Ok {| schema_version := schema_version d;
                  observations := observations d;
                  idx_observations_timestamp := idx_observations_timestamp d;
                  idx_observations_location := true |}
        end
  end.

(** The database a statement sees: the pending transaction if there is
    one, the file otherwise. *)
Definition view (c : conn) : db :=
  match txn c with
  | Some d => d
  | None => disk c
  end.

(** [connection.execute(<DDL>)]: no transaction is opened for it; it takes
    effect in the open transaction, or at once on the file. *)
Definition execute_ddl (s : statement) : M unit :=
  fun c =>
    match run_ddl s (view c) with
    | Raise e => (Raise e, c)
    | Ok d' =>
        (Ok tt,
         match txn c with
         | Some _ => {| disk := disk c; txn := Some d'; foreign_keys := foreign_keys c |}
         | None => {| disk := d'; txn := None; foreign_keys := foreign_keys c |}
         end)
    end.

(** [connection.execute(<DELETE or INSERT on schema_version>)]: a
    transaction is opened when none is, and [f] rewrites the rows. *)
Definition execute_dml (f : list Z -> list Z) : M unit :=
  fun c =>
    let d := view c in
    match schema_version d with
    | None =>
        (Raise (OperationalError "no such table: schema_version"),
         {| disk := disk c; txn := Some d; foreign_keys := foreign_keys c |})
    | Some r =>
        (Ok tt,
         {| disk := disk c;
            txn := Some {| schema_version := Some (f r);
                           observations := observations d;
                           idx_observations_timestamp := idx_observations_timestamp d;
                           idx_observations_location := idx_observations_location d |};
            foreign_keys := foreign_keys c |})
    end.

(** [SELECT version FROM schema_version ORDER BY version DESC LIMIT 1],
    then [fetchone()]. *)
Definition select_version : M (option Z) :=
  fun c =>
    match schema_version (view c) with
    | None => (Raise (OperationalError "no such table: schema_version"), c)
    | Some [] => (Ok None, c)
    | Some (v :: r) => (Ok (Some (fold_right Z.max v r)), c)
    end.

(** [db.py], lines 25-29; the directory of the file is not modelled. *)
Definition connect (file : db) : conn :=
  {| disk := file; txn := None; foreign_keys := true |}.

(** [with <connection>: body]: commit when the body returns, roll back when
    it raises; the file afterwards. *)
Definition with_connection {A : Type} (c : conn) (body : M A) : result A * db :=
  match body c with
  | (Ok a, c') => (Ok a, view c')
  | (Raise e, c') => (Raise e, disk c')
  end.

(** [db.py], lines 32-35. *)
Definition _ensure_schema_table : M unit := execute_ddl CreateSchemaVersion.

(** [db.py], lines 38-45. *)
Definition get_schema_version : M Z :=
  bind _ensure_schema_table (fun _ =>
  bind select_version (fun row =>
  match row with
  | None => ret 0
  | Some v => ret v
  end)).

(** [db.py], lines 48-50. *)
Definition set_schema_version (version : Z) : M unit :=
  bind (execute_dml (fun _ => [])) (fun _ =>
  execute_dml (fun r => (r ++ [version])%list)).

(** [db.py], lines 53-56; the debug log is not modelled. *)
Fixpoint apply_statements (statements : list statement) : M unit :=
  match statements with
  | [] => ret tt
  | s :: rest => bind (execute_ddl s) (fun _ => apply_statements rest)
  end.

(** [db.py], lines 59-65: [while current < to_version: ...], at most [fuel]
    times round the loop. *)
Fixpoint migrate_loop (fuel : nat) (current to_version : Z) : M unit :=
  match fuel with
  | O => ret tt
  | S fuel' =>
      if current <? to_version then
        let next_version := current + 1 in
        match migration_statements current next_version with
        | Raise e => raise e
        | Ok statements =>
            bind (apply_statements statements) (fun _ =>
            let current := next_version in
            bind (set_schema_version current) (fun _ =>
            migrate_loop fuel' current to_version))
        end
      else ret tt
  end.

(** The loop adds one to [current] each time round, so [to_version -
    from_version] rounds end it. *)
Definition migrate (from_version to_version : Z) : M unit :=
  migrate_loop (Z.to_nat (to_version - from_version)) from_version to_version.

(** [db.py], lines 68-79, as a function of the file at [db_path]; the info
    log is not modelled. *)
Definition initialize_db (file : db) : result Z * db :=
  with_connection (connect file)
    (bind get_schema_version (fun current_version =>
     if SCHEMA_VERSION <? current_version then
       raise (RuntimeError ("Database version " ++ str_of_int current_version
                            ++ " is newer than supported " ++ str_of_int SCHEMA_VERSION))
     else
       bind (if current_version <? SCHEMA_VERSION
             then migrate current_version SCHEMA_VERSION else ret tt) (fun _ =>
       ret SCHEMA_VERSION))).

(** [commands/init.py], lines 11-13: the line printed. *)
Definition run_init (path : string) (file : db) : result string * db :=
  match initialize_db file with
  | (Ok version, file') =>
      (Ok ("Initialized database at " ++ path ++ " (schema v"
           ++ str_of_int version ++ ")."), file')
  | (Raise e, file') => (Raise e, file')
  end.

(** [cli.py], lines 81-119, for the [init] command: the exit status of the
    process ([sys.exit(1)] in both [except] clauses) and the file. *)
Definition main_init (path : string) (file : db) : Z * db :=
  match run_init path file with
  | (Ok _, file') => (0, file')
  | (Raise _, file') => (1, file')
  end.

(** The version a file records: the largest row of [schema_version]. *)
Definition recorded_version (file : db) : option Z :=
  match schema_version file with
  | Some (v :: r) => Some (fold_right Z.max v r)
  | _ => None
  end.

(** The file after the migration from version 0 to version 1. *)
Definition migrated (file : db) : db :=
  {| schema_version := Some [1];
     observations := Store.create_if_not_exists (observations file);
     idx_observations_timestamp := true;
     idx_observations_location := true |}.

End Evez.

(** ** [sqlite3] statements on the [observations] table

    The four statements of [commands/observations.py], run on a connection.
    A statement is prepared first (a missing table is reported then), a
    statement that changes rows then opens a transaction when none is open,
    and its parameters are bound after that. *)

Module Sqlite.
Import Py Evez.

(** A Python [int] bound to a parameter: SQLite integers have 64 bits. *)
Definition sqlite_int (n : Z) : result Z :=
  if (- 9223372036854775808 <=? n) && (n <=? 9223372036854775807) then Ok n
  else Raise (OverflowError "Python int too large to convert to SQLite INTEGER").

Definition with_observations (t : Store.table observation) (d : db) : db :=
  {| schema_version := schema_version d;
     observations := Some t;
     idx_observations_timestamp := idx_observations_timestamp d;
     idx_observations_location := idx_observations_location d |}.

(** The implicit [BEGIN] before a statement that changes rows. *)
Definition begin (c : conn) : conn :=
  {| disk := disk c; txn := Some (view c); foreign_keys := foreign_keys c |}.

Definition no_such_table : exn := OperationalError "no such table: observations".

(** [INSERT INTO observations (timestamp, content, tags, location) VALUES
    (?, ?, ?, ?)] and [cursor.lastrowid]. *)
Definition execute_insert (timestamp : Z) (content : string)
    (tags location : option string) : M Z :=
  fun c =>
    match observations (view c) with
    | None => (Raise no_such_table, c)
    | Some t =>
        match sqlite_int timestamp with
        | Raise e => (Raise e, begin c)
        | Ok ts =>
            let r := {| timestamp := ts; content := content;
                        tags := tags; location := location |} in
            match Store.table_insert (Some t) "observations" r with
            | Raise e => (Raise e, begin c)
            | Ok (id, t') =>
                (Ok id,
                 {| disk := disk c; txn := Some (with_observations t' (view c));
                    foreign_keys := foreign_keys c |})
            end
        end
    end.

(** A row as a [SELECT id, timestamp, content, tags, location] returns it. *)
Definition row : Type := Z * Z * string * option string * option string.

Definition columns (p : Z * observation) : row :=
  (fst p, timestamp (snd p), content (snd p), tags (snd p), location (snd p)).

(** [ORDER BY timestamp DESC, id DESC]: does [a] come no later than [b]? *)
Definition precedes (a b : Z * observation) : bool :=
  (timestamp (snd b) <? timestamp (snd a))
  || ((timestamp (snd b) =? timestamp (snd a)) && (fst b <=? fst a)).

Fixpoint place (a : Z * observation) (l : list (Z * observation))
  : list (Z * observation) :=
  match l with
  | [] => [a]
  | b :: l' => if precedes a b then a :: l else b :: place a l'
  end.

Definition order_by (l : list (Z * observation)) : list (Z * observation) :=
  fold_right place [] l.

(** [LIMIT limit OFFSET offset]: a negative limit is no limit, a negative
    offset is 0. *)
Definition limit_offset {A : Type} (limit offset : Z) (l : list A) : list A :=
  let l' := skipn (Z.to_nat offset) l in
  if limit <? 0 then l' else firstn (Z.to_nat limit) l'.

(** [SELECT id, timestamp, content, tags, location FROM observations ORDER
    BY timestamp DESC, id DESC LIMIT ? OFFSET ?] and [fetchall()]. *)
Definition execute_select (limit offset : Z) : M (list row) :=
  fun c =>
    match observations (view c) with
    | None => (Raise no_such_table, c)
    | Some t =>
        match sqlite_int limit with
        | Raise e => (Raise e, c)
        | Ok lim =>
            match sqlite_int offset with
            | Raise e => (Raise e, c)
            | Ok off =>
                (Ok (map columns (limit_offset lim off (order_by (Store.rows t)))), c)
            end
        end
    end.

(** A pair [(column, value)] of an [UPDATE ... SET column = ?]. *)
Inductive update_pair : Type :=
| SetContent (value : string)
| SetTags (value : string)
| SetLocation (value : string)
| SetTimestamp (value : Z).

Definition column (p : update_pair) : string :=
  match p with
  | SetContent _ => "content"
  | SetTags _ => "tags"
  | SetLocation _ => "location"
  | SetTimestamp _ => "timestamp"
  end.

Definition bind_pair (p : update_pair) : result update_pair :=
  match p with
  | SetTimestamp n => and_then (sqlite_int n) (fun n' => Ok (SetTimestamp n'))
  | _ => Ok p
  end.

Fixpoint bind_pairs (l : list update_pair) : result (list update_pair) :=
  match l with
  | [] => Ok []
  | p :: l' =>
      and_then (bind_pair p) (fun p' =>
      and_then (bind_pairs l') (fun l'' => Ok (p' :: l'')))
  end.

Definition assign (o : observation) (p : update_pair) : observation :=
  match p with
  | SetContent s =>
      {| timestamp := timestamp o; content := s; tags := tags o; location := location o |}
  | SetTags s =>
      {| timestamp := timestamp o; content := content o; tags := Some s;
         location := location o |}
  | SetLocation s =>
      {| timestamp := timestamp o; content := content o; tags := tags o;
         location := Some s |}
  | SetTimestamp n =>
      {| timestamp := n; content := content o; tags := tags o; location := location o |}
  end.

Definition has_id (id : Z) (p : Z * observation) : bool := fst p =? id.

Definition quote : string := String (ascii_of_nat 34) EmptyString.

(** [UPDATE observations SET <column = ?, ...> WHERE id = ?] and
    [cursor.rowcount]; without an assignment the statement does not
    parse. *)
Definition execute_update (updates : list update_pair) (id : Z) : M Z :=
  fun c =>
    match updates with
    | [] => (Raise (OperationalError ("near " ++ quote ++ "WHERE" ++ quote
                                      ++ ": syntax error")), c)
    | _ :: _ =>
        match observations (view c) with
        | None => (Raise no_such_table, c)
        | Some t =>
            match and_then (bind_pairs updates) (fun l =>
                  and_then (sqlite_int id) (fun i => Ok (l, i))) with
            | Raise e => (Raise e, begin c)
            | Ok (l, i) =>
                let t' :=
                  {| Store.sequence := Store.sequence t;
                     Store.rows :=
                       map (fun p => if has_id i p
                                     then (fst p, fold_left assign l (snd p)) else p)
                         (Store.rows t) |} in
                (Ok (Z.of_nat (List.length (filter (has_id i) (Store.rows t)))),
                 {| disk := disk c; txn := Some (with_observations t' (view c));
                    foreign_keys := foreign_keys c |})
            end
        end
    end.

(** [DELETE FROM observations WHERE id = ?] and [cursor.rowcount]; the
    table's entry in [sqlite_sequence] stays. *)
Definition execute_delete (id : Z) : M Z :=
  fun c =>
    match observations (view c) with
    | None => (Raise no_such_table, c)
    | Some t =>
        match sqlite_int id with
        | Raise e => (Raise e, begin c)
        | Ok i =>
            let t' :=
              {| Store.sequence := Store.sequence t;
                 Store.rows := filter (fun p => negb (has_id i p)) (Store.rows t) |} in
            (Ok (Z.of_nat (List.length (filter (has_id i) (Store.rows t)))),
             {| disk := disk c; txn := Some (with_observations t' (view c));
                foreign_keys := foreign_keys c |})
        end
    end.

End Sqlite.

(** ** The process of the [evez] command line

    What one run of the program has around it: the database file at
    [db_path], the clock, standard input, and what it has done at the
    console so far. *)

Module Tool.
Import Py.

Record process : Type := {
  file : Evez.db;
  clock : float;                         (* what time.time() returns *)
  stdin : list string;
  console : list Proc.console_event }.

Definition M (A : Type) : Type := process -> result A * process.

Definition ret {A : Type} (a : A) : M A := fun p => (Ok a, p).

Definition bind {A B : Type} (m : M A) (k : A -> M B) : M B :=
  fun p =>
    match m p with
    | (Ok a, p') => k a p'
    | (Raise e, p') => (Raise e, p')
    end.

Definition raise {A : Type} (e : exn) : M A := fun p => (Raise e, p).

Definition lift {A : Type} (r : result A) : M A := fun p => (r, p).

(** A function of the database file, run on the file of the process. *)
Definition on_file {A : Type} (f : Evez.db -> result A * Evez.db) : M A :=
  fun p =>
    let '(r, d) := f (file p) in
    (r, {| file := d; clock := clock p; stdin := stdin p; console := console p |}).

(** [time.time()] *)
Definition time : M float := fun p => (Ok (clock p), p).

(** [print(s)] *)
Definition print (s : string) : M unit :=
  fun p =>
    (Ok tt, {| file := file p; clock := clock p; stdin := stdin p;
               console := console p ++ [Proc.Print s] |}).

(** [input(prompt)]: [EOFError] when standard input is exhausted. *)
Definition input (prompt : string) : M string :=
  fun p =>
    match stdin p with
    | [] =>
        (Raise EOFError,
         {| file := file p; clock := clock p; stdin := [];
            console := console p ++ [Proc.Prompt prompt] |})
    | line :: rest =>
        (Ok line,
         {| file := file p; clock := clock p; stdin := rest;
            console := console p ++ [Proc.Prompt prompt; Proc.Read line] |})
    end.

(** [for x in l: body(x)] *)
Fixpoint for_each {A : Type} (l : list A) (body : A -> M unit) : M unit :=
  match l with
  | [] => ret tt
  | x :: l' => bind (body x) (fun _ => for_each l' body)
  end.

End Tool.

Declare Scope tool_scope.
Delimit Scope tool_scope with tool.
Notation "x <- m ;; k" := (Tool.bind m (fun x => k))
  (at level 61, m at next level, right associativity) : tool_scope.
Notation "m ;; k" := (Tool.bind m (fun _ => k))
  (at level 61, right associativity) : tool_scope.

(** ** [evez-core/evez/commands/observations.py]

    Each command takes the arguments of its Python function but [db_path]:
    the database file at that path is the [file] of the process it runs
    in. *)

(** The frozen dataclass of lines 13-19. *)
Module Observation.
Record t : Type := {
  id : Z;
  timestamp : Z;
  content : string;
  tags : option string;
  location : option string }.
End Observation.

Module Commands.
Import Py Tool.
Local Open Scope tool_scope.

(** [int(x)] for a [float]: the integral part. *)
Definition int_of_float (x : float) : result Z :=
  match x with
  | S754_zero _ => Ok 0
  | S754_finite s m e =>
      let a := if 0 <=? e then Z.pos m * 2 ^ e else Z.pos m / 2 ^ (- e) in
      Ok (if s then - a else a)
  | S754_infinity _ => Raise (OverflowError "cannot convert float infinity to integer")
  | S754_nan => Raise (ValueError "cannot convert float NaN to integer")
  end.

(** Lines 22-29.  The columns hold what the program stored, integers and
    text, so [int] and [str] leave them as they are. *)
Definition _row_to_observation (row : Sqlite.row) : Observation.t :=
  let '(id, timestamp, content, tags, location) := row in
  {| Observation.id := id;
     Observation.timestamp := timestamp;
     Observation.content := content;
     Observation.tags := tags;
     Observation.location := location |}.

(** [with connect(db_path) as connection: body], as a function of the
    file. *)
Definition in_connection {A : Type} (body : Evez.M A) (f : Evez.db)
  : result A * Evez.db :=
  Evez.with_connection (Evez.connect f) body.

Definition with_connect {A : Type} (body : Evez.M A) : M A :=
  on_file (in_connection body).

(** Lines 32-50. *)
Definition run_add (content : string) (tags location : option string)
    (timestamp : option Z) : M unit :=
  on_file Evez.initialize_db ;;
  observation_timestamp <-
    match timestamp with
    | Some t => ret t
    | None => now <- time ;; lift (int_of_float now)
    end ;;
  observation_id <-
    with_connect (Sqlite.execute_insert observation_timestamp content tags location) ;;
  print ("Added observation " ++ str_of_int observation_id ++ " at "
         ++ str_of_int observation_timestamp ++ ".").

(** [x or '-'] for an optional string. *)
Definition or_dash (x : option string) : string :=
  match x with
  | Some s => if nonempty s then s else "-"
  | None => "-"
  end.

(** The line of lines 70-73. *)
Definition line_of (observation : Observation.t) : string :=
  str_of_int (Observation.id observation) ++ " | "
  ++ str_of_int (Observation.timestamp observation) ++ " | "
  ++ Observation.content observation
  ++ " | tags=" ++ or_dash (Observation.tags observation)
  ++ " | location=" ++ or_dash (Observation.location observation).

(** Lines 53-73. *)
Definition run_list (limit offset : Z) : M unit :=
  on_file Evez.initialize_db ;;
  rows <- with_connect (Sqlite.execute_select limit offset) ;;
  let observations := map _row_to_observation rows in
  match observations with
  | [] => print "No observations found."
  | _ :: _ => for_each observations (fun observation => print (line_of observation))
  end.

(** Lines 76-86. *)
Definition _build_update_pairs (content tags location : option string)
    (timestamp : option Z) : list Sqlite.update_pair :=
  (match content with Some s => [Sqlite.SetContent s] | None => [] end)
  ++ (match tags with Some s => [Sqlite.SetTags s] | None => [] end)
  ++ (match location with Some s => [Sqlite.SetLocation s] | None => [] end)
  ++ (match timestamp with Some n => [Sqlite.SetTimestamp n] | None => [] end).

(** [", ".join([f"{column} = ?" for column, _ in updates])] *)
Definition assignments (updates : list Sqlite.update_pair) : string :=
  String.concat ", " (map (fun p => Sqlite.column p ++ " = ?") updates).

Definition not_found (observation_id : Z) : exn :=
  ValueError ("Observation " ++ str_of_int observation_id ++ " not found.").

(** Lines 89-111. *)
Definition run_update (observation_id : Z) (content tags location : option string)
    (timestamp : option Z) : M unit :=
  on_file Evez.initialize_db ;;
  let updates := _build_update_pairs content tags location timestamp in
  match updates with
  | [] => raise (ValueError "No fields provided for update.")
  | _ :: _ =>
      with_connect
        (Evez.bind (Sqlite.execute_update updates observation_id) (fun rowcount =>
         if rowcount =? 0 then Evez.raise (not_found observation_id)
         else Evez.ret tt)) ;;
      print ("Updated observation " ++ str_of_int observation_id ++ ".")
  end.

(** Lines 123-129: the deletion itself, once confirmed or forced. *)
Definition delete (observation_id : Z) : M unit :=
  with_connect
    (Evez.bind (Sqlite.execute_delete observation_id) (fun rowcount =>
     if rowcount =? 0 then Evez.raise (not_found observation_id)
     else Evez.ret tt)) ;;
  print ("Deleted observation " ++ str_of_int observation_id ++ ".").

(** Lines 114-129. *)
Definition run_delete (observation_id : Z) (force : bool) : M unit :=
  on_file Evez.initialize_db ;;
  if negb force then
    line <- input ("Delete observation " ++ str_of_int observation_id
                   ++ "? Type 'yes' to confirm: ") ;;
    let confirmation := strip line in
    if negb (String.eqb (lower confirmation) "yes") then print "Delete cancelled."
    else delete observation_id
  else delete observation_id.

End Commands.

(** ** [evez-core/evez/commands/about.py] and [evez-core/evez/cli.py] *)

Module AboutInfo.
Record t : Type := {
  owner : string;
  intent : string;
  provenance : string;
  version : string;
  db_path : string }.
End AboutInfo.

(** The options of a command line as [parse_args] returns them: the
    sub-command (one is required) with its arguments. *)
Inductive command : Type :=
| About
| Imprint
| Init
| Add (content : string) (tags location : option string) (timestamp : option Z)
| List_ (limit offset : Z)
| Update (id : Z) (content tags location : option string) (timestamp : option Z)
| Delete (id : Z) (force : bool).

Module EvezCli.
Import Py Tool.
Local Open Scope tool_scope.

Section Texts.

(** The texts of [about.py], lines 10-38, and the version of the package
    ([evez/__init__.py]); they hold characters that a [string] here does
    not have, and are left open. *)
Variable OWNER INTENT PROVENANCE IMPRINT_BLOCK __version__ : string.

(** [about.py], lines 50-57. *)
Definition get_about_info (db_path : string) : AboutInfo.t :=
  {| AboutInfo.owner := OWNER;
     AboutInfo.intent := INTENT;
     AboutInfo.provenance := PROVENANCE;
     AboutInfo.version := __version__;
     AboutInfo.db_path := db_path |}.

(** [about.py], lines 60-65. *)
Definition run_about (db_path : string) : M unit :=
  let info := get_about_info db_path in
  print ("Owner:     " ++ AboutInfo.owner info) ;;
  print ("Intent:    " ++ AboutInfo.intent info) ;;
  print ("Version:   " ++ AboutInfo.version info) ;;
  print ("Database:  " ++ AboutInfo.db_path info).

(** [about.py], lines 68-69. *)
Definition run_imprint : M unit := print IMPRINT_BLOCK.

(** [commands/init.py], lines 10-12, in the process. *)
Definition run_init (db_path : string) : M unit :=
  line <- on_file (Evez.run_init db_path) ;;
  print line.

(** [cli.py], lines 90-112: the command chosen by the options.  The last
    branch, [parser.error], is not reached: [parse_args] requires one of
    the seven sub-commands. *)
Definition dispatch (db_path : string) (args : command) : M unit :=
  match args with
  | About => run_about db_path
  | Imprint => run_imprint
  | Init => run_init db_path
  | Add content tags location timestamp =>
      Commands.run_add content tags location timestamp
  | List_ limit offset => Commands.run_list limit offset
  | Update id content tags location timestamp =>
      Commands.run_update id content tags location timestamp
  | Delete id force => Commands.run_delete id force
  end.

(** [cli.py], lines 83-118, from the parsed options and the resolved path
    on: the exit status of the process (1 from either [except] clause, 0
    when [main] returns) and what the process leaves; the log is not
    modelled. *)
Definition main (db_path : string) (args : command) (p : process) : Z * process :=
  match dispatch db_path args p with
  | (Ok _, p') => (0, p')
  | (Raise _, p') => (1, p')
  end.

End Texts.
End EvezCli.

(** ** Executable instances of the interpreter's conversions

    Reference versions of [float(str)], [repr(float)], [json.loads] and
    [json.dumps] on strings of code points below 256, used to run concrete
    sessions.  The properties below do not depend on them. *)

Module Ref.
Import Py.

(** Decimal digits with single underscores between two digits, as far as
    they go: the value, the number of digits, the rest. *)
Fixpoint scan_digits (acc : Z) (n : nat) (s : string) : Z * nat * string :=
  match s with
  | EmptyString => (acc, n, s)
  | String c s' =>
      match digit_value c with
      | Some d => scan_digits (10 * acc + d) (S n) s'
      | None =>
          if Ascii.eqb c "_" && (0 <? n)%nat then
            match s' with
            | String c2 s'' =>
                match digit_value c2 with
                | Some d => scan_digits (10 * acc + d) (S n) s''
                | None => (acc, n, s)
                end
            | EmptyString => (acc, n, s)
            end
          else (acc, n, s)
      end
  end.

(** The binary64 value nearest to [m * 10^e10] ([m >= 0]), ties to even,
    with sign [neg]. *)
Definition of_decimal (neg : bool) (m e10 : Z) : float :=
  let signed := fun x => if neg then - x else x in
  if m =? 0 then S754_zero neg
  else if 400 <? e10 then S754_infinity neg
  else if Z.log2 m + 1 + 3 * e10 <? -1100 then S754_zero neg
  else if 0 <=? e10 then binary_normalize prec emax (signed (m * 10 ^ e10)) 0 false
  else
    let den := 10 ^ (- e10) in
    let k := Z.max 0 (Z.log2 den - Z.log2 m + 66) in
    let q := (m * 2 ^ k) / den in
    let sticky := if (m * 2 ^ k) mod den =? 0 then 0 else 1 in
    binary_normalize prec emax (signed (2 * q + sticky)) (- k - 1) false.

Definition split_sign (s : string) : bool * string :=
  match s with
  | String "-" r => (true, r)
  | String "+" r => (false, r)
  | _ => (false, s)
  end.

(** [float(s)] for a [str]. *)
Definition py_float (s : string) : option float :=
  let '(neg, body) := split_sign (strip_number s) in
  let word := lower body in
  if String.eqb word "inf" || String.eqb word "infinity" then Some (S754_infinity neg)
  else if String.eqb word "nan" then Some S754_nan
  else
    let '(ip, ni, r1) := scan_digits 0 0 body in
    let '(fp, nf, r2) :=
      match r1 with
      | String "." r => scan_digits 0 0 r
      | _ => (0, 0%nat, r1)
      end in
    if (ni + nf =? 0)%nat then None
    else
      let m := ip * 10 ^ Z.of_nat nf + fp in
      match r2 with
      | EmptyString => Some (of_decimal neg m (- Z.of_nat nf))
      | String c r3 =>
          if Ascii.eqb c "e" || Ascii.eqb c "E" then
            let '(eneg, r4) := split_sign r3 in
            match scan_digits 0 0 r4 with
            | (ev, S _, EmptyString) =>
                Some (of_decimal neg m ((if eneg then - ev else ev) - Z.of_nat nf))
            | _ => None
            end
          else None
      end.


(** *** [repr(float)] *)

(** Is [num/den >= 10^d] ? *)
Definition ge_pow10 (num den d : Z) : bool :=
  if 0 <=? d then 10 ^ d * den <=? num else den <=? num * 10 ^ (- d).

(** The [d] with [10^d <= num/den < 10^(d+1)], searched from a guess. *)
Fixpoint adjust_exp10 (fuel : nat) (num den d : Z) : Z :=
  match fuel with
  | O => d
  | S fuel' =>
      if negb (ge_pow10 num den d) then adjust_exp10 fuel' num den (d - 1)
      else if ge_pow10 num den (d + 1) then adjust_exp10 fuel' num den (d + 1)
      else d
  end.

Definition exp10 (num den : Z) : Z :=
  adjust_exp10 8 num den (((Z.log2 num - Z.log2 den) * 30103) / 100000).

(** The shortest decimal [x * 10^e] that converts back to the float [f]
    (of value [num/den], with [10^d <= num/den < 10^(d+1)]), the closest
    one among the shortest; tried with [p], [p+1], ... significant digits. *)
Fixpoint shortest (fuel : nat) (p : Z) (f : float) (num den d : Z) : Z * Z :=
  let e := d - p + 1 in
  let '(n, q) := if 0 <=? e then (num, den * 10 ^ e) else (num * 10 ^ (- e), den) in
  let lo := n / q in
  let r := n mod q in
  let ok x :=
    match SFcompare (of_decimal false x e) f with
    | Some Eq => true
    | _ => false
    end in
  let pick :=
    match ok lo, ok (lo + 1) with
    | true, true =>
        if 2 * r <? q then Some lo
        else if q <? 2 * r then Some (lo + 1)
        else Some (if Z.even lo then lo else lo + 1)
    | true, false => Some lo
    | false, true => Some (lo + 1)
    | false, false => None
    end in
  match pick, fuel with
  | Some x, _ => (x, e)
  | None, S fuel' => shortest fuel' (p + 1) f num den d
  | None, O => (lo, e)
  end.

Fixpoint drop_zeros (fuel : nat) (x e : Z) : Z * Z :=
  match fuel with
  | O => (x, e)
  | S fuel' =>
      if (x mod 10 =? 0) && negb (x =? 0) then drop_zeros fuel' (x / 10) (e + 1)
      else (x, e)
  end.

Fixpoint zeros (n : nat) : string :=
  match n with
  | O => EmptyString
  | S n' => String "0" (zeros n')
  end.

Definition two_digits (n : Z) : string :=
  if n <? 10 then "0" ++ str_of_int n else str_of_int n.

(** The digits [ds] with the decimal point after the first [decpt] of them:
    plain notation when [-4 < decpt <= 16], exponent notation otherwise. *)
Definition layout (ds : string) (decpt : Z) : string :=
  let n := Z.of_nat (String.length ds) in
  if (-4 <? decpt) && (decpt <=? 16) then
    if decpt <=? 0 then "0." ++ zeros (Z.to_nat (- decpt)) ++ ds
    else if n <=? decpt then ds ++ zeros (Z.to_nat (decpt - n)) ++ ".0"
    else substring 0 (Z.to_nat decpt) ds ++ "."
         ++ substring (Z.to_nat decpt) (Z.to_nat (n - decpt)) ds
  else
    let e := decpt - 1 in
    substring 0 1 ds
    ++ (if 1 <? n then "." ++ substring 1 (Z.to_nat (n - 1)) ds else "")
    ++ "e" ++ (if e <? 0 then "-" else "+") ++ two_digits (Z.abs e).

Definition float_repr (f : float) : string :=
  match f with
  | S754_zero s => if s then "-0.0" else "0.0"
  | S754_infinity s => if s then "-inf" else "inf"
  | S754_nan => "nan"
  | S754_finite s m e2 =>
      let '(num, den) :=
        if 0 <=? e2 then (Z.pos m * 2 ^ e2, 1) else (Z.pos m, 2 ^ (- e2)) in
      let d := exp10 num den in
      let '(x, e) := shortest 17 1 (S754_finite false m e2) num den d in
      let '(x, e) := drop_zeros 20 x e in
      let ds := str_of_int x in
      (if s then "-" else "") ++ layout ds (Z.of_nat (String.length ds) + e)
  end.

(** *** [json.loads] *)

Definition dquote : ascii := "034"%char.

Definition is_json_space (c : ascii) : bool :=
  let n := code c in ((n =? 32) || (n =? 9) || (n =? 10) || (n =? 13))%nat.

Fixpoint skip_ws (s : string) : string :=
  match s with
  | String c s' => if is_json_space c then skip_ws s' else s
  | EmptyString => s
  end.

Definition hex_value (c : ascii) : option nat :=
  let n := code c in
  if ((48 <=? n) && (n <=? 57))%nat then Some (n - 48)%nat
  else if ((97 <=? n) && (n <=? 102))%nat then Some (n - 87)%nat
  else if ((65 <=? n) && (n <=? 70))%nat then Some (n - 55)%nat
  else None.

Definition decode_error {A : Type} (msg : string) : result A :=
  Raise (JSONDecodeError msg).

(** The characters of a string literal after its opening quote: the decoded
    string and what follows the closing quote.  An escape for a code point
    above 255 has no counterpart in the strings of the embedding; the
    decoder stops with [RuntimeError] there. *)
Fixpoint scan_string (s : string) : result (string * string) :=
  match s with
  | EmptyString => decode_error "Unterminated string starting at"
  | String c s' =>
      if Ascii.eqb c dquote then Ok (EmptyString, s')
      else if (code c <? 32)%nat then decode_error "Invalid control character at"
      else if Ascii.eqb c "\" then
        match s' with
        | String e r =>
            let plain x :=
              and_then (scan_string r) (fun '(t, rest) => Ok (String x t, rest)) in
            if Ascii.eqb e dquote then plain dquote
            else if Ascii.eqb e "\" then plain "\"%char
            else if Ascii.eqb e "/" then plain "/"%char
            else if Ascii.eqb e "b" then plain "008"%char
            else if Ascii.eqb e "f" then plain "012"%char
            else if Ascii.eqb e "n" then plain "010"%char
            else if Ascii.eqb e "r" then plain "013"%char
            else if Ascii.eqb e "t" then plain "009"%char
            else if Ascii.eqb e "u" then
              match r with
              | String h1 (String h2 (String h3 (String h4 r'))) =>
                  match hex_value h1, hex_value h2, hex_value h3, hex_value h4 with
                  | Some a, Some b, Some c3, Some d =>
                      if ((a =? 0) && (b =? 0))%nat then
                        and_then (scan_string r') (fun '(t, rest) =>
                        Ok (String (ascii_of_nat (16 * c3 + d)) t, rest))
                      else Raise (RuntimeError "code point above 255")
                  | _, _, _, _ => decode_error "Invalid \uXXXX escape"
                  end
              | _ => decode_error "Invalid \uXXXX escape"
              end
            else decode_error "Invalid \escape"
        | EmptyString => decode_error "Unterminated string starting at"
        end
      else and_then (scan_string s') (fun '(t, rest) => Ok (String c t, rest))
  end.

Fixpoint take_digits (s : string) : string * string :=
  match s with
  | String c s' =>
      match digit_value c with
      | Some _ => let '(ds, rest) := take_digits s' in (String c ds, rest)
      | None => (EmptyString, s)
      end
  | EmptyString => (EmptyString, s)
  end.

(** The number at the head of [s]: an optional minus sign and 0 or a digit
    string without leading zero, then optionally a dot with digits, then
    optionally e or E with an optional sign and digits.  The longest match,
    split in its three groups, and the rest. *)
Definition match_number (s : string) : option (string * string * string * string) :=
  let '(sign, s1) :=
    match s with
    | String "-" r => ("-", r)
    | _ => ("", s)
    end in
  let integer :=
    match s1 with
    | String "0" r => Some ("0", r)
    | _ => match take_digits s1 with
           | (EmptyString, _) => None
           | (ds, r) => Some (ds, r)
           end
    end in
  match integer with
  | None => None
  | Some (ds, s2) =>
      let '(frac, s3) :=
        match s2 with
        | String "." r =>
            match take_digits r with
            | (EmptyString, _) => ("", s2)
            | (fs, r') => ("." ++ fs, r')
            end
        | _ => ("", s2)
        end in
      let '(exp, s4) :=
        match s3 with
        | String c r =>
            if Ascii.eqb c "e" || Ascii.eqb c "E" then
              let '(sg, r1) :=
                match r with
                | String "-" r' => ("-", r')
                | String "+" r' => ("+", r')
                | _ => ("", r)
                end in
              match take_digits r1 with
              | (EmptyString, _) => ("", s3)
              | (es, r') => (String c (sg ++ es), r')
              end
            else ("", s3)
        | EmptyString => ("", s3)
        end in
      Some (sign ++ ds, frac, exp, s4)
  end.

Definition strip_prefix (p s : string) : option string :=
  if prefix p s
  then Some (substring (String.length p) (String.length s - String.length p) s)
  else None.

(** [d[key] = v] *)
Fixpoint dict_set (d : list (string * json)) (key : string) (v : json)
  : list (string * json) :=
  match d with
  | [] => [(key, v)]
  | (k, x) :: d' =>
      if String.eqb k key then (k, v) :: d' else (k, x) :: dict_set d' key v
  end.

Section Decoder.
Variable max_str_digits : nat.

(** One JSON value at the head of [s] and what follows it.  [fuel] bounds
    the number of values and members met; [RecursionError] when it runs
    out. *)
Fixpoint scan_once (fuel : nat) (s : string) : result (json * string) :=
  match fuel with
  | O => Raise RecursionError
  | S fuel' =>
      match s with
      | EmptyString => decode_error "Expecting value"
      | String c r =>
          if Ascii.eqb c dquote then
            and_then (scan_string r) (fun '(t, rest) => Ok (JStr t, rest))
          else if Ascii.eqb c "{" then
            match skip_ws r with
            | String c1 r1 =>
                if Ascii.eqb c1 "}" then Ok (JDict [], r1)
                else if Ascii.eqb c1 dquote then scan_members fuel' r1 []
                else decode_error "Expecting property name enclosed in double quotes"
            | EmptyString =>
                decode_error "Expecting property name enclosed in double quotes"
            end
          else if Ascii.eqb c "[" then
            match skip_ws r with
            | String "]" r1 => Ok (JList [], r1)
            | r1 => scan_elements fuel' r1 []
            end
          else
            match strip_prefix "null" s, strip_prefix "true" s, strip_prefix "false" s with
            | Some rest, _, _ => Ok (JNull, rest)
            | _, Some rest, _ => Ok (JBool true, rest)
            | _, _, Some rest => Ok (JBool false, rest)
            | None, None, None =>
                match match_number s with
                | Some (integer, frac, exp, rest) =>
                    if nonempty frac || nonempty exp then
                      match py_float (integer ++ frac ++ exp) with
                      | Some f => Ok (JFloat f, rest)
                      | None => Raise (ValueError "could not convert string to float")
                      end
                    else
                      match py_int max_str_digits integer with
                      | Some n => Ok (JInt n, rest)
                      | None =>
                          Raise (ValueError "Exceeds the limit for integer string conversion")
                      end
                | None =>
                    match strip_prefix "NaN" s, strip_prefix "Infinity" s,
                          strip_prefix "-Infinity" s with
                    | Some rest, _, _ => Ok (JFloat S754_nan, rest)
                    | _, Some rest, _ => Ok (JFloat (S754_infinity false), rest)
                    | _, _, Some rest => Ok (JFloat (S754_infinity true), rest)
                    | None, None, None => decode_error "Expecting value"
                    end
                end
            end
      end
  end

with scan_elements (fuel : nat) (s : string) (acc : list json)
  : result (json * string) :=
  match fuel with
  | O => Raise RecursionError
  | S fuel' =>
      and_then (scan_once fuel' s) (fun '(v, s1) =>
      match skip_ws s1 with
      | String "]" s2 => Ok (JList (acc ++ [v]), s2)
      | String "," s2 => scan_elements fuel' (skip_ws s2) (acc ++ [v])
      | _ => decode_error "Expecting ',' delimiter"
      end)
  end

with scan_members (fuel : nat) (s : string) (acc : list (string * json))
  : result (json * string) :=
  match fuel with
  | O => Raise RecursionError
  | S fuel' =>
      and_then (scan_string s) (fun '(key, s1) =>
      match skip_ws s1 with
      | String ":" s2 =>
          and_then (scan_once fuel' (skip_ws s2)) (fun '(v, s3) =>
          let acc' := dict_set acc key v in
          match skip_ws s3 with
          | String "}" s4 => Ok (JDict acc', s4)
          | String "," s4 =>
              match skip_ws s4 with
              | String c s5 =>
                  if Ascii.eqb c dquote then scan_members fuel' s5 acc'
                  else decode_error "Expecting property name enclosed in double quotes"
              | EmptyString =>
                  decode_error "Expecting property name enclosed in double quotes"
              end
          | _ => decode_error "Expecting ',' delimiter"
          end)
      | _ => decode_error "Expecting ':' delimiter"
      end)
  end.

(** [json.loads(s)] *)
Definition json_loads (s : string) : result json :=
  and_then (scan_once (S (String.length s)) (skip_ws s)) (fun '(v, rest) =>
  match skip_ws rest with
  | EmptyString => Ok v
  | _ => decode_error "Extra data"
  end).

End Decoder.

(** *** [json.dumps] (default options: ASCII output, [", "] and [": "]) *)

Definition hex_digit (n : nat) : ascii :=
  if (n <? 10)%nat then ascii_of_nat (48 + n) else ascii_of_nat (87 + n).

Definition escape_char (c : ascii) : string :=
  let n := code c in
  if Ascii.eqb c dquote then String "\" (String dquote EmptyString)
  else if Ascii.eqb c "\" then "\\"
  else if (n =? 10)%nat then "\n"
  else if (n =? 13)%nat then "\r"
  else if (n =? 9)%nat then "\t"
  else if (n =? 12)%nat then "\f"
  else if (n =? 8)%nat then "\b"
  else if ((n <? 32) || (126 <? n))%nat then
    "\u00" ++ String (hex_digit (n / 16)) (String (hex_digit (n mod 16)) EmptyString)
  else String c EmptyString.

Fixpoint escape (s : string) : string :=
  match s with
  | EmptyString => EmptyString
  | String c s' => escape_char c ++ escape s'
  end.

Definition quoted (s : string) : string :=
  String dquote (escape s ++ String dquote EmptyString).

Definition dumps_float (f : float) : string :=
  match f with
  | S754_nan => "NaN"
  | S754_infinity s => if s then "-Infinity" else "Infinity"
  | _ => float_repr f
  end.

Fixpoint json_dumps (v : json) : string :=
  match v with
  | JNull => "null"
  | JBool b => if b then "true" else "false"
  | JInt n => str_of_int n
  | JFloat f => dumps_float f
  | JStr s => quoted s
  | JList l => "[" ++ String.concat ", " (map json_dumps l) ++ "]"
  | JDict d =>
      "{" ++ String.concat ", "
               (map (fun kv => quoted (fst kv) ++ ": " ++ json_dumps (snd kv)) d)
      ++ "}"
  end.

(** A line of JSON written with apostrophes for the double quotes. *)
Fixpoint dq (s : string) : string :=
  match s with
  | EmptyString => EmptyString
  | String c s' => String (if Ascii.eqb c "'" then dquote else c) (dq s')
  end.

End Ref.

(** ** Vocabulary of the properties *)

Module Session.
Import Py Store Proc.
Local Open Scope list_scope.

Inductive table_name : Type :=
| Intents | Observations | Hypotheses | Tests | Outcomes | PatternSeeds.

Definition table_name_eqb (a b : table_name) : bool :=
  match a, b with
  | Intents, Intents | Observations, Observations | Hypotheses, Hypotheses
  | Tests, Tests | Outcomes, Outcomes | PatternSeeds, PatternSeeds => true
  | _, _ => false
  end.

Definition table_of (r : any_row) : table_name :=
  match r with
  | IntentRow _ => Intents
  | ObservationRow _ => Observations
  | HypothesisRow _ => Hypotheses
  | TestRow _ => Tests
  | OutcomeRow _ => Outcomes
  | PatternSeedRow _ => PatternSeeds
  end.

(** The foreign keys a row carries: the table referred to and the rowid. *)
Definition foreign_keys_of (r : any_row) : list (table_name * Z) :=
  match r with
  | IntentRow _ => []
  | ObservationRow x => [(Intents, o_intent_id x)]
  | HypothesisRow x => [(Observations, h_observation_id x)]
  | TestRow x => [(Hypotheses, t_hypothesis_id x)]
  | OutcomeRow x => [(Observations, c_observation_id x); (Hypotheses, c_hypothesis_id x)]
  | PatternSeedRow x => [(Outcomes, p_outcome_id x)]
  end.

(** The rows inserted along a trace, with the rowids the store gave them,
    in the order of insertion. *)
Fixpoint inserts_of (tr : list event) : list (any_row * Z) :=
  match tr with
  | [] => []
  | Store (Insert r id) :: tr' => (r, id) :: inserts_of tr'
  | _ :: tr' => inserts_of tr'
  end.

Definition key_in (k : table_name * Z) (l : list (table_name * Z)) : bool :=
  existsb (fun k' => table_name_eqb (fst k) (fst k') && (snd k =? snd k')) l.

(** No forward reference: every foreign key of every inserted row is the
    rowid given to a row of the referred table inserted before it
    ([earlier] lists the rows inserted so far). *)
Fixpoint refs_backward (earlier : list (table_name * Z)) (ins : list (any_row * Z))
  : bool :=
  match ins with
  | [] => true
  | (r, id) :: ins' =>
      forallb (fun k => key_in k earlier) (foreign_keys_of r)
      && refs_backward (earlier ++ [(table_of r, id)]) ins'
  end.

(** The tables written by a session with [n] hypotheses, in stage order. *)
Definition stage_order (n : nat) : list table_name :=
  [Intents; Observations] ++ repeat Hypotheses n ++ [Tests; Outcomes; PatternSeeds].

Definition append_row {R : Type} (t : option (table R)) (id : Z) (r : R)
  : option (table R) :=
  match t with
  | Some t => Some {| sequence := id; rows := rows t ++ [(id, r)] |}
  | None => None
  end.

(** The database with the row [r] added under the rowid [id]. *)
Definition put_row (d : db) (r : any_row) (id : Z) : db :=
  match r with
  | IntentRow x =>
      {| intents := append_row (intents d) id x; observations := observations d;
         hypotheses := hypotheses d; tests := tests d;
         outcomes := outcomes d; pattern_seeds := pattern_seeds d |}
  | ObservationRow x =>
      {| intents := intents d; observations := append_row (observations d) id x;
         hypotheses := hypotheses d; tests := tests d;
         outcomes := outcomes d; pattern_seeds := pattern_seeds d |}
  | HypothesisRow x =>
      {| intents := intents d; observations := observations d;
         hypotheses := append_row (hypotheses d) id x; tests := tests d;
         outcomes := outcomes d; pattern_seeds := pattern_seeds d |}
  | TestRow x =>
      {| intents := intents d; observations := observations d;
         hypotheses := hypotheses d; tests := append_row (tests d) id x;
         outcomes := outcomes d; pattern_seeds := pattern_seeds d |}
  | OutcomeRow x =>
      {| intents := intents d; observations := observations d;
         hypotheses := hypotheses d; tests := tests d;
         outcomes := append_row (outcomes d) id x; pattern_seeds := pattern_seeds d |}
  | PatternSeedRow x =>
      {| intents := intents d; observations := observations d;
         hypotheses := hypotheses d; tests := tests d;
         outcomes := outcomes d; pattern_seeds := append_row (pattern_seeds d) id x |}
  end.

(** The database after a list of inserts. *)
Definition replay (ins : list (any_row * Z)) (d : db) : db :=
  fold_left (fun d p => put_row d (fst p) (snd p)) ins d.

(** The database as the connection sees it: the pending transaction if
    there is one, the file otherwise. *)
Definition view (w : world) : db :=
  match txn w with
  | Some d => d
  | None => disk w
  end.

(** The row stored under a rowid. *)
Definition row_at {R : Type} (t : option (table R)) (id : Z) : option R :=
  match t with
  | Some t => option_map snd (find (fun p => fst p =? id) (rows t))
  | None => None
  end.

(** The rows of a table, none for an absent table. *)
Definition rows_of {R : Type} (t : option (table R)) : list (Z * R) :=
  match t with
  | Some t => rows t
  | None => []
  end.

(** The world [w'] is the world [w] after the events [evs]: they were
    appended to the trace, their inserts are in the connection's view, the
    file itself and the foreign-key switch were not touched. *)
Definition extends (evs : list event) (w w' : world) : Prop :=
  trace w' = trace w ++ evs
  /\ view w' = replay (inserts_of evs) (view w)
  /\ disk w' = disk w
  /\ foreign_keys w' = foreign_keys w.

(** Nothing was committed between [w] and [w']. *)
Definition frame (w w' : world) : Prop :=
  disk w' = disk w
  /\ foreign_keys w' = foreign_keys w
  /\ exists evs, trace w' = trace w ++ evs /\ ~ In (Store Commit) evs.

Definition respects {A : Type} (R : world -> world -> Prop) (m : M A) : Prop :=
  forall w r w', m w = (r, w') -> R w w'.

(** The hypothesis rows with their rowids, as insert events. *)
Definition hypothesis_inserts (l : list (hypothesis_row * Z)) : list event :=
  map (fun p => Store (Insert (HypothesisRow (fst p)) (snd p))) l.

(** One round of a prompt loop that ends in a rejection. *)
Definition rejected (prompt line msg : string) : list console_event :=
  [Prompt prompt; Read line; Print msg].

(** The events of a prompt loop are [evs] followed by the same loop on the
    lines left. *)
Definition and_again {A : Type} (evs : list console_event)
    (r : result A * list string * list console_event)
  : result A * list string * list console_event :=
  let '(a, rest, evs') := r in (a, rest, evs ++ evs').

(** The prompt that opens the fields of the hypothesis number [i]. *)
Definition hypothesis_prompt (i : Z) : string :=
  ("Hypothesis " ++ str_of_int i ++ " model type (me/we/they/system): ")%string.

Definition is_hypothesis_insert (e : event) : bool :=
  match e with
  | Store (Insert (HypothesisRow _) _) => true
  | _ => false
  end.

(** The claim that each hypothesis is stored before the next one is asked
    for: whenever the prompt of hypothesis [i+1] appears, at least [i]
    hypothesis rows were inserted before it. *)
Definition stored_before_next (tr : list event) : Prop :=
  forall pre post i,
    1 <= i ->
    tr = pre ++ Console (Prompt (hypothesis_prompt (i + 1))) :: post ->
    i <= Z.of_nat (List.length (filter is_hypothesis_insert pre)).

(** The rows of a table, each wrapped with the name of its table. *)
Definition all_rows (d : db) (t : table_name) : list (Z * any_row) :=
  match t with
  | Intents => map (fun p => (fst p, IntentRow (snd p))) (rows_of (intents d))
  | Observations => map (fun p => (fst p, ObservationRow (snd p))) (rows_of (observations d))
  | Hypotheses => map (fun p => (fst p, HypothesisRow (snd p))) (rows_of (hypotheses d))
  | Tests => map (fun p => (fst p, TestRow (snd p))) (rows_of (tests d))
  | Outcomes => map (fun p => (fst p, OutcomeRow (snd p))) (rows_of (outcomes d))
  | PatternSeeds => map (fun p => (fst p, PatternSeedRow (snd p))) (rows_of (pattern_seeds d))
  end.

Definition is_some {A : Type} (o : option A) : bool :=
  match o with
  | Some _ => true
  | None => false
  end.

(** Does the table exist in the database? *)
Definition present (d : db) (t : table_name) : bool :=
  match t with
  | Intents => is_some (intents d)
  | Observations => is_some (observations d)
  | Hypotheses => is_some (hypotheses d)
  | Tests => is_some (tests d)
  | Outcomes => is_some (outcomes d)
  | PatternSeeds => is_some (pattern_seeds d)
  end.

(** The rows a list of inserts writes to the table [t]. *)
Fixpoint written (ins : list (any_row * Z)) (t : table_name) : list (Z * any_row) :=
  match ins with
  | [] => []
  | (r, id) :: ins' =>
      if table_name_eqb (table_of r) t then (id, r) :: written ins' t
      else written ins' t
  end.

(** The row stored in the table [t] under the rowid [id]. *)
Definition stored_row (d : db) (t : table_name) (id : Z) : option any_row :=
  option_map snd (find (fun p => fst p =? id) (all_rows d t)).

(** The rowid [id] is larger than every rowid of the table of [r]. *)
Definition is_fresh (d : db) (r : any_row) (id : Z) : Prop :=
  forall p, In p (all_rows d (table_of r)) -> fst p < id.

(** A stage made of console steps and one insert at its end. *)
Definition one_insert (r : any_row) (id : Z) (cevs : list console_event)
    (w w' : world) : Prop :=
  extends (map Console cevs ++ [Store (Insert r id)]) w w'
  /\ insert_row (foreign_keys w) (view w) r = Ok (id, view w').

(** The row that lines 257-270 write for a collected hypothesis. *)
Definition hypothesis_row_of (json_dumps : json -> string) (observation_id : Z)
    (h : HypothesisInput.t) : hypothesis_row :=
  {| h_observation_id := observation_id;
     h_model_type := HypothesisInput.model_type h;
     h_probability := HypothesisInput.probability h;
     h_falsifiers := HypothesisInput.falsifiers h;
     h_domain_signature := json_dumps (JList (HypothesisInput.domain_signature h)) |}.

(** The prompts of the two integer questions. *)
Definition count_prompt : string := "Number of hypotheses (3-7): ".

Definition index_prompt (n : nat) : string :=
  ("Choose hypothesis to test (index) (1-" ++ str_of_int (Z.of_nat n) ++ "): ")%string.

(** The token that refers to a test. *)
Definition test_ref (test_id : Z) : string := ("test:" ++ str_of_int test_id)%string.

(** What a completed session consists of, besides the identifiers it
    returns: the console events of each stage and the rows inserted. *)
Record session : Type := {
  s_intent_console : list console_event;
  s_intent : intent_row;
  s_observation_console : list console_event;
  s_observation : observation_row;
  s_count_console : list console_event;
  s_count_line : string;
  s_fields_console : list console_event;
  s_hypotheses : list hypothesis_row;
  s_listing : list console_event;
  s_index_console : list console_event;
  s_index_line : string;
  s_test_console : list console_event;
  s_test : test_row;
  s_outcome_console : list console_event;
  s_refs_line : string;
  s_outcome : outcome_row;
  s_seed_console : list console_event;
  s_seed : pattern_seed_row;
  s_seed_id : Z }.

(** The events of a completed session, oldest first. *)
Definition session_events (ids : HandshakeOS.capture_ids) (s : session) : list event :=
  [Store PragmaForeignKeys; Store CreateTables]
  ++ (map Console (s_intent_console s)
      ++ [Store (Insert (IntentRow (s_intent s)) (HandshakeOS.intent_id ids))])
  ++ (map Console (s_observation_console s)
      ++ [Store (Insert (ObservationRow (s_observation s)) (HandshakeOS.observation_id ids))])
  ++ (map Console (s_count_console s
                   ++ [Prompt count_prompt; Read (s_count_line s)]
                   ++ s_fields_console s)
      ++ hypothesis_inserts (combine (s_hypotheses s) (HandshakeOS.hypothesis_ids ids))
      ++ map Console (s_listing s))
  ++ (map Console (s_index_console s
                   ++ [Prompt (index_prompt (List.length (HandshakeOS.hypothesis_ids ids)));
                       Read (s_index_line s)]
                   ++ s_test_console s)
      ++ [Store (Insert (TestRow (s_test s)) (HandshakeOS.test_id ids))])
  ++ (map Console (s_outcome_console s ++ [Read (s_refs_line s)])
      ++ [Store (Insert (OutcomeRow (s_outcome s)) (HandshakeOS.outcome_id ids))])
  ++ (map Console (s_seed_console s)
      ++ [Store (Insert (PatternSeedRow (s_seed s)) (s_seed_id s))])
  ++ [Store Commit; Store Close].

(** How the pieces of a completed session hang together. *)
Record session_ok (max_str_digits : nat) (json_loads : string -> result json)
    (json_dumps : json -> string) (ids : HandshakeOS.capture_ids) (s : session)
  : Prop := {
  ok_count :
    exists n, py_int max_str_digits (strip (s_count_line s)) = Some n
              /\ 3 <= n <= 7
              /\ Z.of_nat (List.length (HandshakeOS.hypothesis_ids ids)) = n;
  ok_rows : List.length (s_hypotheses s) = List.length (HandshakeOS.hypothesis_ids ids);
  ok_fields : hd_error (s_fields_console s) = Some (Prompt (hypothesis_prompt 1));
  ok_prompts :
    forall i, 1 <= i <= Z.of_nat (List.length (HandshakeOS.hypothesis_ids ids)) ->
              In (Prompt (hypothesis_prompt i)) (s_fields_console s);
  ok_observation : o_intent_id (s_observation s) = HandshakeOS.intent_id ids;
  ok_hypotheses :
    Forall (fun r => h_observation_id r = HandshakeOS.observation_id ids) (s_hypotheses s);
  ok_index :
    exists k, py_int max_str_digits (strip (s_index_line s)) = Some k
              /\ 1 <= k <= Z.of_nat (List.length (HandshakeOS.hypothesis_ids ids))
              /\ nth_error (HandshakeOS.hypothesis_ids ids) (Z.to_nat (k - 1))
                 = Some (t_hypothesis_id (s_test s));
  ok_test_console : hd_error (s_test_console s) = Some (Prompt "Test description: ");
  ok_outcome_observation :
    c_observation_id (s_outcome s) = HandshakeOS.observation_id ids;
  ok_outcome_hypothesis : c_hypothesis_id (s_outcome s) = t_hypothesis_id (s_test s);
  ok_refs :
    exists refs,
      HandshakeOS._parse_evidence_refs json_loads (strip (s_refs_line s)) = Ok refs
      /\ c_evidence_refs (s_outcome s)
         = json_dumps (JList (map JStr (HandshakeOS.with_test_ref
                                          (HandshakeOS.test_id ids) refs)));
  ok_seed : p_outcome_id (s_seed s) = HandshakeOS.outcome_id ids }.

(** The list [m] occurs in [l] as a block of consecutive elements. *)
Definition infix {A : Type} (m l : list A) : Prop :=
  exists pre post, l = pre ++ m ++ post.

(** The claim that in every session, completed or not, as many hypothesis
    rows are inserted as the count the operator typed: whenever the count
    question is answered by [line] and the first hypothesis is asked for
    next, the session inserts that many hypothesis rows. *)
Definition count_kept_in_every_session (max_str_digits : nat)
    (capture : M HandshakeOS.capture_ids) : Prop :=
  forall w r w' evs line n,
    capture w = (r, w') ->
    trace w' = trace w ++ evs ->
    infix [Console (Prompt count_prompt); Console (Read line);
           Console (Prompt (hypothesis_prompt 1))] evs ->
    py_int max_str_digits (strip line) = Some n ->
    Z.of_nat (List.length (written (inserts_of evs) Hypotheses)) = n.

(** The claim that a session which ends early leaves the file as it was. *)
Definition leaves_file_untouched (capture : M HandshakeOS.capture_ids) : Prop :=
  forall w e w', capture w = (Raise e, w') -> disk w' = disk w.

(** A world at the start of a process: the lines the operator will type and
    the database file. *)
Definition start (lines : list string) (file : db) : world :=
  {| stdin := lines; trace := []; disk := file; txn := None; foreign_keys := false |}.

End Session.

(** ** A session to run

    The scenario of the specification (section 8), on a file that does not
    exist yet, with the executable instances of the conversions. *)

Module Scenario.
Import Py Store Proc Session.

Definition max_str_digits : nat := 4300.

Definition capture : M HandshakeOS.capture_ids :=
  HandshakeOS.capture max_str_digits Ref.py_float Ref.float_repr
    (Ref.json_loads max_str_digits) Ref.json_dumps.

(** What the operator types. *)
Definition lines : list string :=
  [ "reduce latency"; "no downtime"; "p99<200ms"; "0.8";
    "spike at 14:00"; "[]";
    "3";
    "me"; "0.5"; "operator error ruled out"; "";
    "we"; "0.3"; "team change log is clean";
      Ref.dq "[{'domain':'ops','weight':0.6},{'domain':'risk','weight':0.4}]";
    "system"; "0.2"; "no deploy at that time"; "";
    "2"; "replay traffic"; "confirmed"; "trace 77";
    "root cause found"; Ref.dq "['log:1234']";
    "spike after deploy"; "latency follows queue depth"; "none seen";
      "roll back"; ""; "" ].

Definition fresh : world := start lines empty_db.

(** The identifiers the session returns, and the world it leaves. *)
Definition ids : HandshakeOS.capture_ids :=
  {| HandshakeOS.intent_id := 1; HandshakeOS.observation_id := 1;
     HandshakeOS.hypothesis_ids := [1; 2; 3]; HandshakeOS.test_id := 1;
     HandshakeOS.outcome_id := 1 |}.

Definition final : world := snd (capture fresh).

(** The same operator, gone after the fields of the first hypothesis. *)
Definition cut_short : world := start (firstn 11 lines) empty_db.

Definition cut_final : world := snd (capture cut_short).

(** Standard input closed from the start. *)
Definition closed_at_once : world := start [] empty_db.

(** A line with a JSON boolean for a weight. *)
Definition boolean_line : string :=
  Ref.dq "[{'domain':'ops','weight':0.6},{'domain':'risk','weight':true}]".

(** A line with an integer weight of 401 digits, before an entry whose
    weight is a string. *)
Definition huge_line : string :=
  (Ref.dq "[{'domain':'a','weight':1" ++ Ref.zeros 400
   ++ Ref.dq "},{'domain':'b','weight':'high'}]")%string.

(** 0.6 and 1.0 as binary64 values. *)
Definition six_tenths : float := S754_finite false 5404319552844595 (-53).

(** A file with the six tables, empty, whose [tests] table has used the
    largest rowid there is. *)
Definition tests_full : db :=
  {| intents := Some empty_table; observations := Some empty_table;
     hypotheses := Some empty_table;
     tests := Some {| sequence := rowid_max; rows := [] |};
     outcomes := Some empty_table; pattern_seeds := Some empty_table |}.

(** A log file written by a later version of the program. *)
Definition newer_file : Evez.db :=
  {| Evez.schema_version := Some [2]; Evez.observations := Some empty_table;
     Evez.idx_observations_timestamp := true;
     Evez.idx_observations_location := true |}.

End Scenario.


(** ** Words for what the capture tool stores *)

Module Fields.
Import Py Store Proc.
Local Open Scope list_scope.

(** A text that is not empty and has no white space at either end. *)
Definition text_ok (s : string) : Prop := nonempty s = true /\ strip s = s.

(** A number from 0.0 to 1.0 (so no NaN and no infinity). *)
Definition in_unit (x : float) : Prop :=
  float_le float_zero x = true /\ float_le x float_one = true.

(** The model types a hypothesis can have (line 239). *)
Definition model_types : list string := ["me"; "we"; "they"; "system"].

(** The fields the operator typed, as rows hold them. *)
Definition valid_row (r : any_row) : Prop :=
  match r with
  | IntentRow x =>
      text_ok (i_goal x) /\ text_ok (i_constraints x) /\ text_ok (i_success_signal x)
      /\ in_unit (i_confidence x)
  | ObservationRow x => text_ok (o_description x)
  | HypothesisRow x =>
      In (h_model_type x) model_types /\ in_unit (h_probability x)
      /\ text_ok (h_falsifiers x)
  | TestRow x => text_ok (t_description x) /\ text_ok (t_result x) /\ text_ok (t_evidence x)
  | OutcomeRow x => text_ok (c_summary x)
  | PatternSeedRow x =>
      text_ok (p_trigger x) /\ text_ok (p_invariant x) /\ text_ok (p_counterexample x)
      /\ text_ok (p_best_response x)
  end.

Definition valid_event (e : event) : Prop :=
  match e with
  | Store (Insert r _) => valid_row r
  | _ => True
  end.

(** From [w] to [w'] the trace has grown by events that are all valid. *)
Definition grows_valid (w w' : world) : Prop :=
  exists evs, trace w' = trace w ++ evs /\ Forall valid_event evs.

(** Whatever the computation [m] does, the events it adds are valid, and a
    value it returns satisfies [Q]. *)
Definition yields {A : Type} (m : M A) (Q : A -> Prop) : Prop :=
  forall w r w',
    m w = (r, w') -> grows_valid w w' /\ (forall a, r = Ok a -> Q a).

(** The cleaned form of a mixture entry: an object with a non-empty
    [domain] string and a [weight] that is a [float], and nothing else. *)
Definition cleaned_from (entry cleaned : json) : Prop :=
  exists d s w,
    entry = JDict d
    /\ dict_get "domain" d = JStr s /\ nonempty s = true
    /\ HandshakeOS.is_int_or_float (dict_get "weight" d) = true
    /\ HandshakeOS.float_of_number (dict_get "weight" d) = Ok w
    /\ cleaned = JDict [("domain", JStr s); ("weight", JFloat w)].

(** The console events of rounds of a prompt loop that were rejected. *)
Fixpoint rejections (prompt : string) (rounds : list (string * string))
  : list console_event :=
  match rounds with
  | [] => []
  | (line, msg) :: rounds' =>
      Prompt prompt :: Read line :: Print msg :: rejections prompt rounds'
  end.

(** The ways a session can end early: standard input is exhausted;
    [json.loads] raises something that is no [ValueError]; a weight is an
    integer too large for a [float]; the store has no identifier left. *)
Definition ends_by (json_loads : string -> result json) (e : exn) : Prop :=
  e = EOFError
  \/ (exists s, json_loads s = Raise e /\ as_ValueError e = None)
  \/ e = OverflowError "int too large to convert to float"
  \/ e = OperationalError "database or disk is full".

(** The database has its six tables. *)
Definition complete (d : db) : Prop := forall t, Session.present d t = true.

(** The table [t] of the database holds a row under the identifier [id]. *)
Definition holds (d : db) (t : Session.table_name) (id : Z) : Prop :=
  In id (map fst (Session.all_rows d t)).

(** The round of a text prompt on a blank line. *)
Definition blank_round (l : string) : string * string := (l, "Please provide a value.").

(** The integers from [first] on, [n] of them. *)
Definition counting (first : Z) (n : nat) : list Z :=
  map (fun k => first + Z.of_nat k) (seq 0 n).

(** The identifier the next row of a table gets. *)
Definition next_rowid {R : Type} (t : option (table R)) : Z :=
  match t with
  | Some t => Z.max (sequence t) (max_rowid (rows t)) + 1
  | None => 1
  end.

End Fields.

(** ** Words for the observations log *)

Module Log.
Import Py Evez.
Local Open Scope list_scope.

(** The rows of the log in the order of insertion; none without the
    table. *)
Definition rows (f : db) : list (Z * observation) :=
  Session.rows_of (observations f).

(** The table's entry in [sqlite_sequence]; 0 without the table. *)
Definition sequence (f : db) : Z :=
  match observations f with
  | Some t => Store.sequence t
  | None => 0
  end.

(** No row has an identifier above the table's entry in
    [sqlite_sequence]: so it is in a file that only SQLite has written. *)
Definition sequence_covers (f : db) : Prop :=
  forall q, In q (rows f) -> fst q <= sequence f.

(** The order of a listing: the later timestamp first, and among equal
    timestamps the larger identifier first. *)
Definition newest_first (a b : Z * observation) : Prop :=
  timestamp (snd b) < timestamp (snd a)
  \/ (timestamp (snd b) = timestamp (snd a) /\ fst b <= fst a).

(** An observation with the fields that are given put in place of its
    own. *)
Definition updated (content tags location : option string) (timestamp : option Z)
    (o : observation) : observation :=
  {| Evez.timestamp := match timestamp with Some n => n | None => Evez.timestamp o end;
     Evez.content := match content with Some s => s | None => Evez.content o end;
     Evez.tags := match tags with Some s => Some s | None => Evez.tags o end;
     Evez.location := match location with Some s => Some s | None => Evez.location o end |}.

(** The line [run_list] prints for a row. *)
Definition line (q : Z * observation) : string :=
  Commands.line_of (Commands._row_to_observation (Sqlite.columns q)).

(** What [run_list] prints for the rows it selected. *)
Definition listing (page : list (Z * observation)) : list Proc.console_event :=
  match page with
  | [] => [Proc.Print "No observations found."]
  | _ :: _ => map (fun q => Proc.Print (line q)) page
  end.

(** Does the integer fit a 64-bit SQLite integer? *)
Definition fits (n : Z) : Prop := - 9223372036854775808 <= n <= 9223372036854775807.

(** The file is taken by [initialize_db] and holds the table afterwards. *)
Definition opens (f f' : db) : Prop :=
  exists v t, initialize_db f = (Ok v, f') /\ observations f' = Some t.

(** The body of the [with] of [run_update] and of [run_delete]: the
    statement, then the test of [cursor.rowcount]. *)
Definition checked (statement : M Z) (id : Z) : M unit :=
  bind statement (fun rowcount =>
  if rowcount =? 0 then raise (Commands.not_found id) else ret tt).

(** What a command can have done to the rows of the log: nothing; one row
    added under a new identifier; rows rewritten in place; rows removed. *)
Inductive change (f f' : db) : Prop :=
| Same :
    rows f' = rows f -> sequence f' = sequence f -> change f f'
| Grown (id : Z) (r : observation) :
    rows f' = rows f ++ [(id, r)] ->
    sequence f < id -> (forall q, In q (rows f) -> fst q < id) ->
    sequence f' = id -> change f f'
| Rewritten (g : Z * observation -> observation) :
    rows f' = map (fun q => (fst q, g q)) (rows f) ->
    sequence f' = sequence f -> change f f'
| Shrunk (h : Z * observation -> bool) :
    rows f' = filter h (rows f) -> sequence f' = sequence f -> change f f'.

(** A process at its start. *)
Definition start (f : db) (now : float) (lines : list string) : Tool.process :=
  {| Tool.file := f; Tool.clock := now; Tool.stdin := lines; Tool.console := [] |}.

(** The process with another file, and with more on its console. *)
Definition with_file (f : db) (p : Tool.process) : Tool.process :=
  {| Tool.file := f; Tool.clock := Tool.clock p; Tool.stdin := Tool.stdin p;
     Tool.console := Tool.console p |}.

Definition printing (evs : list Proc.console_event) (p : Tool.process) : Tool.process :=
  {| Tool.file := Tool.file p; Tool.clock := Tool.clock p; Tool.stdin := Tool.stdin p;
     Tool.console := Tool.console p ++ evs |}.

End Log.

(** ** A log to run the commands on *)

Module LogScenario.
Import Py Evez.

(** 1700000000.5 seconds after the epoch. *)
Definition now : float := S754_finite false 7130316802097152 (-22).

(** A log at the current schema version with three observations; the
    identifiers 3 and 5 were given to rows since deleted. *)
Definition log : db :=
  {| schema_version := Some [1];
     observations :=
       Some {| Store.sequence := 5;
               Store.rows :=
                 [ (1, {| timestamp := 100; content := "first";
                          tags := Some "a,b"; location := None |});
                   (2, {| timestamp := 300; content := "second";
                          tags := None; location := Some "lab" |});
                   (4, {| timestamp := 200; content := "third";
                          tags := Some ""; location := None |}) ] |};
     idx_observations_timestamp := true;
     idx_observations_location := true |}.

(** The texts of [about.py] and the version, in ASCII. *)
Definition owner : string := "EVEZ666 (Steven Vearl Crawford-Maggard)".
Definition intent : string :=
  "Build so the maker is legible in the made - tools that remember their origin".
Definition provenance : string :=
  "Created by and through the Owner; the agent is the instrument".
Definition imprint : string := "EVEZ Core - Owner Imprint & Provenance".
Definition version : string := "0.1.0".

Definition main : string -> command -> Tool.process -> Z * Tool.process :=
  EvezCli.main owner intent provenance imprint version.

Definition path : string := "evez.sqlite3".

(** The process on that log, with nothing to read; with lines to read; on
    a file that does not exist yet; on a file of a later version. *)
Definition at_start : Tool.process := Log.start log now [].

Definition answering (lines : list string) : Tool.process := Log.start log now lines.

Definition on_new_file : Tool.process := Log.start empty_db now [].

Definition on_newer_file : Tool.process := Log.start Scenario.newer_file now [].

(** The process after a command. *)
Definition after (m : Tool.M unit) (p : Tool.process) : Tool.process := snd (m p).

Definition add_fourth : Tool.M unit := Commands.run_add "fourth" (Some "x") None None.

Definition revise_second : Tool.M unit :=
  Commands.run_update 2 (Some "second, revised") None (Some "roof") None.

End LogScenario.


(** * Properties *)

(** ** The effects of the process *)

Module ProcFacts.
Import Py Store Proc Session.
Local Open Scope list_scope.

Lemma bind_ok {A B : Type} (m : M A) (k : A -> M B) w b w' :
  bind m k w = (Ok b, w') ->
  exists a w1, m w = (Ok a, w1) /\ k a w1 = (Ok b, w').
Proof.
  unfold bind. destruct (m w) as [[a | e] w1] eqn:E; intros H.
  - exists a, w1. split; [reflexivity | exact H].
  - discriminate H.
Qed.

Lemma bind_raise {A B : Type} (m : M A) (k : A -> M B) w e w' :
  bind m k w = (Raise e, w') ->
  m w = (Raise e, w') \/ exists a w1, m w = (Ok a, w1) /\ k a w1 = (Raise e, w').
Proof.
  unfold bind. destruct (m w) as [[a | e0] w1] eqn:E; intros H.
  - right. exists a, w1. split; [reflexivity | exact H].
  - left. inversion H. reflexivity.
Qed.

Lemma inserts_of_app a b : inserts_of (a ++ b) = inserts_of a ++ inserts_of b.
Proof.
  induction a as [| e a IH]; simpl; [reflexivity |].
  destruct e as [c | s]; [exact IH |].
  destruct s; simpl; try exact IH. now rewrite IH.
Qed.

Lemma inserts_of_console l : inserts_of (map Console l) = [].
Proof. induction l; simpl; auto. Qed.

Lemma inserts_of_hypotheses l :
  inserts_of (hypothesis_inserts l) = map (fun p => (HypothesisRow (fst p), snd p)) l.
Proof. induction l; simpl; [reflexivity | now rewrite IHl]. Qed.

Lemma replay_app a b d : replay (a ++ b) d = replay b (replay a d).
Proof. unfold replay. apply fold_left_app. Qed.

Lemma extends_refl w : extends [] w w.
Proof. unfold extends. simpl. rewrite app_nil_r. auto. Qed.

Lemma extends_trans e1 e2 w w1 w2 :
  extends e1 w w1 -> extends e2 w1 w2 -> extends (e1 ++ e2) w w2.
Proof.
  intros (T1 & V1 & D1 & F1) (T2 & V2 & D2 & F2). unfold extends.
  rewrite T2, T1, V2, V1, D2, D1, F2, F1, inserts_of_app, replay_app, app_assoc.
  auto.
Qed.

Lemma frame_refl w : frame w w.
Proof.
  split; [reflexivity |]. split; [reflexivity |].
  exists []. now rewrite app_nil_r.
Qed.

Lemma frame_trans w w1 w2 : frame w w1 -> frame w1 w2 -> frame w w2.
Proof.
  intros (D1 & F1 & e1 & T1 & N1) (D2 & F2 & e2 & T2 & N2).
  split; [congruence |]. split; [congruence |].
  exists (e1 ++ e2). split; [now rewrite T2, T1, app_assoc |].
  intros H. apply in_app_or in H. tauto.
Qed.

(** *** The console *)

Lemma console_run {A : Type} (f : console_fun A) w r w' :
  console f w = (r, w') ->
  exists rest evs,
    f (stdin w) = (r, rest, evs) /\ stdin w' = rest /\ txn w' = txn w
    /\ extends (map Console evs) w w'.
Proof.
  unfold console. destruct (f (stdin w)) as [[r0 rest] evs] eqn:E. intros H.
  inversion H; subst; clear H. exists rest, evs.
  repeat split; simpl; try reflexivity.
  unfold view; simpl. now rewrite inserts_of_console.
Qed.

Lemma print_run s w r w' :
  print s w = (r, w') ->
  r = Ok tt /\ stdin w' = stdin w /\ txn w' = txn w
  /\ extends [Console (Print s)] w w'.
Proof.
  unfold print, emit. intros H. inversion H; subst; clear H.
  repeat split.
Qed.

(** *** The store *)

Lemma table_insert_ok {R : Type} (t : option (table R)) name (r : R) id t' :
  table_insert t name r = Ok (id, t') ->
  Some t' = append_row t id r
  /\ (forall p, In p (rows_of t) -> fst p < id)
  /\ rows t' = rows_of t ++ [(id, r)].
Proof.
  unfold table_insert, allocate. destruct t as [t |]; [| discriminate].
  destruct (rowid_max <=? _) eqn:E; [discriminate |].
  intros H. inversion H; subst; clear H. simpl. repeat split.
  intros p Hp.
  assert (fst p <= max_rowid (rows t)).
  { clear E. induction (rows t) as [| q l IH]; [contradiction |].
    simpl. destruct Hp as [-> | Hp]; [lia |]. specialize (IH Hp). lia. }
  lia.
Qed.

Lemma insert_row_ok enforce d r id d' :
  insert_row enforce d r = Ok (id, d') -> d' = put_row d r id.
Proof.
  destruct r; simpl; unfold and_then; intros H;
    repeat match type of H with
      | match ?x with _ => _ end = _ => destruct x as [[? ?] | ?] eqn:?; try discriminate
      | match ?x with _ => _ end = _ => destruct x as [[] | ?] eqn:?; try discriminate
      end;
    inversion H; subst; clear H;
    match goal with
    | E : table_insert _ _ _ = Ok _ |- _ =>
        apply table_insert_ok in E; destruct E as (E & _); simpl;
        rewrite <- E; reflexivity
    end.
Qed.

Lemma insert_row_fresh enforce d r id d' :
  insert_row enforce d r = Ok (id, d') -> is_fresh d r id.
Proof.
  unfold is_fresh.
  destruct r; simpl; unfold and_then; intros H;
    match type of H with
    | match ?x with _ => _ end = _ => destruct x as [[? ?] | ?] eqn:E; try discriminate
    end;
    repeat match type of H with
      | match ?x with _ => _ end = _ => destruct x as [[] | ?]; try discriminate
      end;
    inversion H; subst; clear H;
    apply table_insert_ok in E; destruct E as (_ & E & _);
    intros p Hp; apply in_map_iff in Hp; destruct Hp as (q & <- & Hq);
    simpl; auto.
Qed.

(** *** Rows after inserts *)

Lemma present_put_row d r id t : present (put_row d r id) t = present d t.
Proof.
  destruct r, t; simpl; try reflexivity;
    match goal with
    | |- is_some (append_row ?x _ _) = _ => destruct x; reflexivity
    end.
Qed.

Lemma all_rows_put_row d r id t :
  present d (table_of r) = true ->
  all_rows (put_row d r id) t
  = all_rows d t ++ (if table_name_eqb (table_of r) t then [(id, r)] else []).
Proof.
  destruct r, t; simpl; intros P; try (now rewrite app_nil_r);
    match goal with
    | |- context [append_row ?x _ _] => destruct x; [| discriminate P]
    end; simpl; now rewrite map_app.
Qed.

Lemma all_rows_replay ins d t :
  (forall t', present d t' = true) ->
  all_rows (replay ins d) t = all_rows d t ++ written ins t.
Proof.
  revert d. induction ins as [| [r id] ins IH]; intros d P; simpl.
  - now rewrite app_nil_r.
  - unfold replay in *. simpl. rewrite IH.
    + rewrite all_rows_put_row by apply P.
      destruct (table_name_eqb (table_of r) t); simpl;
        now rewrite <- app_assoc.
    + intros t'. rewrite present_put_row. apply P.
Qed.

Lemma present_create_tables d t : present (create_tables d) t = true.
Proof.
  destruct t; simpl;
    match goal with
    | |- is_some (create_if_not_exists ?x) = _ => destruct x; reflexivity
    end.
Qed.

Lemma all_rows_create_tables d t : all_rows (create_tables d) t = all_rows d t.
Proof.
  destruct t; simpl;
    match goal with
    | |- context [create_if_not_exists ?x] => destruct x; reflexivity
    end.
Qed.

(** A row appended under a fresh rowid is the one found under it. *)
Lemma find_fresh (l : list (Z * any_row)) id r tail :
  (forall p, In p l -> fst p < id) ->
  option_map snd (find (fun p => fst p =? id) (l ++ (id, r) :: tail)) = Some r.
Proof.
  induction l as [| q l IH]; intros F; simpl.
  - now rewrite Z.eqb_refl.
  - destruct (fst q =? id) eqn:E.
    + apply Z.eqb_eq in E. specialize (F q (or_introl eq_refl)). lia.
    + apply IH. intros p Hp. apply F. now right.
Qed.

Lemma execute_insert_ok r w id w' :
  execute_insert r w = (Ok id, w') ->
  insert_row (foreign_keys w) (view w) r = Ok (id, view w')
  /\ stdin w' = stdin w
  /\ extends [Store (Insert r id)] w w'.
Proof.
  unfold execute_insert. fold (view w).
  destruct (insert_row (foreign_keys w) (view w) r) as [[id0 d'] | e] eqn:E;
    intros H; inversion H; subst; clear H.
  split; [reflexivity |]. split; [reflexivity |].
  unfold extends, view at 1; simpl. repeat split.
  now apply insert_row_ok in E.
Qed.

Lemma execute_insert_frame r : respects frame (execute_insert r).
Proof.
  intros w res w'. unfold execute_insert.
  destruct (insert_row _ _ r) as [[id d'] | e]; intros H; inversion H; subst;
    (split; [reflexivity |]; split; [reflexivity |]); simpl.
  - exists [Store (Insert r id)]. split; [reflexivity |].
    intros [C | []]. discriminate C.
  - exists []. split; [now rewrite app_nil_r | intros []].
Qed.

Lemma console_frame {A : Type} (f : console_fun A) : respects frame (console f).
Proof.
  intros w r w'. unfold console.
  destruct (f (stdin w)) as [[r0 rest] evs]. intros H. inversion H; subst; simpl.
  split; [reflexivity |]. split; [reflexivity |].
  exists (map Console evs). split; [reflexivity |].
  intros C. apply in_map_iff in C. destruct C as (x & C & _). discriminate C.
Qed.

Lemma print_frame s : respects frame (print s).
Proof.
  intros w r w' H. unfold print, emit in H. inversion H; subst; simpl.
  split; [reflexivity |]. split; [reflexivity |].
  exists [Console (Print s)]. split; [reflexivity |].
  intros [C | []]. discriminate C.
Qed.

Lemma ret_frame {A : Type} (a : A) : respects frame (ret a).
Proof. intros w r w' H. inversion H; subst. apply frame_refl. Qed.

Lemma bind_frame {A B : Type} (m : M A) (k : A -> M B) :
  respects frame m -> (forall a, respects frame (k a)) -> respects frame (bind m k).
Proof.
  intros Hm Hk w r w'. unfold bind.
  destruct (m w) as [[a | e] w1] eqn:E; intros H.
  - eapply frame_trans; [eapply Hm; eauto | eapply Hk; eauto].
  - inversion H; subst. eapply Hm; eauto.
Qed.

Lemma for_each_frame {A S : Type} (l : list A) (body : A -> S -> M S) :
  (forall x acc, respects frame (body x acc)) ->
  forall acc, respects frame (for_each l body acc).
Proof.
  intros Hb. induction l as [| x l IH]; intros acc; simpl.
  - apply ret_frame.
  - apply bind_frame; auto.
Qed.

End ProcFacts.


(** ** The prompt loops *)

Module PromptFacts.
Import Py Store Proc Session ProcFacts.
Local Open Scope list_scope.

Lemma retry_again {A : Type} prompt (body : string -> step A) line msg rest :
  body line = Again msg ->
  retry prompt body (line :: rest)
  = and_again (rejected prompt line msg) (retry prompt body rest).
Proof.
  intros H. simpl. rewrite H.
  destruct (retry prompt body rest) as [[r rest'] evs]. reflexivity.
Qed.

Lemma retry_return {A : Type} prompt (body : string -> step A) line a rest :
  body line = Return a ->
  retry prompt body (line :: rest) = (Ok a, rest, [Prompt prompt; Read line]).
Proof. intros H. simpl. now rewrite H. Qed.

Lemma retry_throw {A : Type} prompt (body : string -> step A) line e rest :
  body line = Throw e ->
  retry prompt body (line :: rest) = (Raise e, rest, [Prompt prompt; Read line]).
Proof. intros H. simpl. now rewrite H. Qed.

(** A loop that returns ends on an accepted line, after rounds that were
    all rejected; its first event is the prompt. *)
Lemma retry_ok {A : Type} prompt (body : string -> step A) lines a rest evs :
  retry prompt body lines = (Ok a, rest, evs) ->
  exists skipped line evs0,
    lines = skipped ++ line :: rest
    /\ body line = Return a
    /\ Forall (fun l => exists msg, body l = Again msg) skipped
    /\ evs = evs0 ++ [Prompt prompt; Read line]
    /\ hd_error evs = Some (Prompt prompt).
Proof.
  revert a rest evs. induction lines as [| l lines IH]; intros a rest evs H.
  - discriminate H.
  - simpl in H. destruct (body l) as [a0 | msg | e] eqn:B.
    + inversion H; subst; clear H.
      exists [], l, []. repeat split; auto.
    + destruct (retry prompt body lines) as [[r rest'] evs'] eqn:R.
      inversion H; subst; clear H.
      destruct (IH _ _ _ eq_refl) as (sk & line & evs0 & -> & Hb & Hs & -> & _).
      exists (l :: sk), line, (Prompt prompt :: Read l :: Print msg :: evs0).
      repeat split; auto. constructor; eauto.
    + discriminate H.
Qed.

End PromptFacts.

(** ** The capture pipeline, stage by stage *)

Module CaptureFacts.
Import Py Store Proc Session ProcFacts PromptFacts.
Local Open Scope list_scope.

Section Stages.
Variable max_str_digits : nat.
Variable py_float : string -> option float.
Variable float_repr : float -> string.
Variable json_loads : string -> result json.
Variable json_dumps : json -> string.

Local Abbreviation _prompt_int := (HandshakeOS._prompt_int max_str_digits).
Local Abbreviation _prompt_float := (HandshakeOS._prompt_float py_float float_repr).
Local Abbreviation _prompt_mixture_vector := (HandshakeOS._prompt_mixture_vector json_loads).
Local Abbreviation _parse_mixture_vector := (HandshakeOS._parse_mixture_vector json_loads).
Local Abbreviation _prompt_evidence_refs := (HandshakeOS._prompt_evidence_refs json_loads).
Local Abbreviation _parse_evidence_refs := (HandshakeOS._parse_evidence_refs json_loads).
Local Abbreviation capture_intent := (HandshakeOS.capture_intent py_float float_repr).
Local Abbreviation capture_observation :=
  (HandshakeOS.capture_observation json_loads json_dumps).
Local Abbreviation collect_hypothesis :=
  (HandshakeOS.collect_hypothesis py_float float_repr json_loads).
Local Abbreviation persist_hypothesis := (HandshakeOS.persist_hypothesis json_dumps).
Local Abbreviation capture_hypotheses :=
  (HandshakeOS.capture_hypotheses max_str_digits py_float float_repr json_loads json_dumps).
Local Abbreviation capture_test := (HandshakeOS.capture_test max_str_digits).
Local Abbreviation capture_outcome := (HandshakeOS.capture_outcome json_loads json_dumps).
Local Abbreviation capture_pattern_seed :=
  (HandshakeOS.capture_pattern_seed json_loads json_dumps).
Local Abbreviation capture_body :=
  (HandshakeOS.capture_body max_str_digits py_float float_repr json_loads json_dumps).
Local Abbreviation capture :=
  (HandshakeOS.capture max_str_digits py_float float_repr json_loads json_dumps).

(** A console step followed by the rest of a stage. *)
Lemma console_then {A B : Type} (f : console_fun A) (k : A -> M B) w b w' :
  bind (console f) k w = (Ok b, w') ->
  exists a w1 evs,
    f (stdin w) = (Ok a, stdin w1, evs)
    /\ extends (map Console evs) w w1
    /\ k a w1 = (Ok b, w').
Proof.
  intros H. apply bind_ok in H. destruct H as (a & w1 & Hc & Hk).
  apply console_run in Hc. destruct Hc as (rest & evs & Hf & <- & _ & He).
  exists a, w1, evs. auto.
Qed.

Lemma print_then {B : Type} s (k : unit -> M B) w b w' :
  bind (print s) k w = (Ok b, w') ->
  exists w1,
    stdin w1 = stdin w
    /\ extends (map Console [Print s]) w w1
    /\ k tt w1 = (Ok b, w').
Proof.
  intros H. apply bind_ok in H. destruct H as (a & w1 & Hc & Hk).
  apply print_run in Hc. destruct Hc as (_ & Hs & _ & He). destruct a.
  exists w1. auto.
Qed.

Lemma extends_console_app a b evs w w1 w2 :
  extends (map Console a) w w1 ->
  extends (map Console b ++ evs) w1 w2 ->
  extends (map Console (a ++ b) ++ evs) w w2.
Proof.
  intros H1 H2. rewrite map_app, <- app_assoc. eapply extends_trans; eauto.
Qed.

Lemma extends_console_view a w w1 :
  extends (map Console a) w w1 ->
  view w1 = view w /\ foreign_keys w1 = foreign_keys w.
Proof.
  intros (_ & V & _ & F). rewrite inserts_of_console in V. auto.
Qed.

Lemma one_insert_last r w id w' :
  execute_insert r w = (Ok id, w') -> one_insert r id [] w w'.
Proof.
  intros H. apply execute_insert_ok in H. destruct H as (H1 & _ & H2).
  split; assumption.
Qed.

Lemma one_insert_console a r id cevs w w1 w' :
  extends (map Console a) w w1 ->
  one_insert r id cevs w1 w' ->
  one_insert r id (a ++ cevs) w w'.
Proof.
  intros H1 (H2 & H3). destruct (extends_console_view _ _ _ H1) as (V & F).
  split.
  - eapply extends_console_app; eauto.
  - now rewrite <- V, <- F.
Qed.

Ltac console_step H :=
  let a := fresh "a" in
  let w1 := fresh "w" in
  let evs := fresh "evs" in
  let Hf := fresh "Hf" in
  let He := fresh "He" in
  apply console_then in H; destruct H as (a & w1 & evs & Hf & He & H).

Ltac print_step H :=
  let w1 := fresh "w" in
  let Hs := fresh "Hs" in
  let He := fresh "He" in
  apply print_then in H; destruct H as (w1 & Hs & He & H).

(** Lines 209-218. *)
Lemma capture_intent_ok w i w' :
  capture_intent w = (Ok i, w') ->
  exists cevs row, one_insert (IntentRow row) i cevs w w'.
Proof.
  unfold HandshakeOS.capture_intent. intros H.
  do 4 console_step H.
  apply one_insert_last in H.
  eexists. eexists.
  repeat (eapply one_insert_console; [eassumption |]). exact H.
Qed.

(** Lines 220-232. *)
Lemma capture_observation_ok intent_id w o w' :
  capture_observation intent_id w = (Ok o, w') ->
  exists cevs row,
    one_insert (ObservationRow row) o cevs w w' /\ o_intent_id row = intent_id.
Proof.
  unfold HandshakeOS.capture_observation. intros H.
  do 2 console_step H.
  apply one_insert_last in H.
  eexists. eexists. split.
  - repeat (eapply one_insert_console; [eassumption |]). exact H.
  - reflexivity.
Qed.

(** Lines 327-366. *)
Lemma capture_pattern_seed_ok outcome_id w p w' :
  capture_pattern_seed outcome_id w = (Ok p, w') ->
  exists cevs row,
    one_insert (PatternSeedRow row) p cevs w w' /\ p_outcome_id row = outcome_id.
Proof.
  unfold HandshakeOS.capture_pattern_seed. intros H.
  print_step H. do 6 console_step H.
  apply one_insert_last in H.
  eexists. eexists. split.
  - repeat (eapply one_insert_console; [eassumption |]). exact H.
  - reflexivity.
Qed.

Lemma lift_then {A B : Type} (x : result A) (k : A -> M B) w b w' :
  bind (HandshakeOS.lift x) k w = (Ok b, w') ->
  exists a, x = Ok a /\ k a w = (Ok b, w').
Proof.
  intros H. apply bind_ok in H. destruct H as (a & w1 & Hl & Hk).
  unfold HandshakeOS.lift in Hl. inversion Hl; subst. eauto.
Qed.

Lemma ret_ok {A : Type} (a b : A) w w' : ret a w = (Ok b, w') -> a = b /\ w = w'.
Proof. unfold ret. intros H. inversion H. auto. Qed.

Lemma append_assoc (a b c : string) : ((a ++ b) ++ c = a ++ b ++ c)%string.
Proof. induction a as [| x a IH]; simpl; [reflexivity | now rewrite IH]. Qed.

Lemma hd_error_app {A : Type} (a b : list A) x :
  hd_error a = Some x -> hd_error (a ++ b) = Some x.
Proof. destruct a; simpl; [discriminate | auto]. Qed.

(** Lines 39-49: the value returned was typed on the last line read and
    lies between the bounds. *)
Lemma prompt_int_ok label lo hi lines v rest evs :
  _prompt_int label lo hi lines = (Ok v, rest, evs) ->
  exists evs0 line,
    evs = evs0 ++ [Prompt (label ++ " (" ++ str_of_int lo ++ "-" ++ str_of_int hi ++ "): ")%string;
                   Read line]
    /\ py_int max_str_digits (strip line) = Some v
    /\ lo <= v <= hi.
Proof.
  unfold HandshakeOS._prompt_int. intros H. apply retry_ok in H.
  destruct H as (sk & line & evs0 & _ & Hb & _ & -> & _).
  exists evs0, line. split; [reflexivity |].
  destruct (py_int max_str_digits (strip line)) as [x |]; [| discriminate].
  destruct ((lo <=? x) && (x <=? hi)) eqn:E; [| discriminate].
  inversion Hb; subst. split; [reflexivity | lia].
Qed.

Lemma or_reprompt_return {A : Type} (r : result A) a :
  HandshakeOS.or_reprompt r = Return a -> r = Ok a.
Proof.
  unfold HandshakeOS.or_reprompt. destruct r as [x | e].
  - intros H. now inversion H.
  - destruct (as_ValueError e); discriminate.
Qed.

(** Lines 100-106: the references returned were parsed from the last line
    read. *)
Lemma prompt_evidence_refs_ok label lines refs rest evs :
  _prompt_evidence_refs label lines = (Ok refs, rest, evs) ->
  exists evs0 line,
    evs = evs0 ++ [Read line] /\ _parse_evidence_refs (strip line) = Ok refs.
Proof.
  unfold HandshakeOS._prompt_evidence_refs. intros H. apply retry_ok in H.
  destruct H as (sk & line & evs0 & _ & Hb & _ & -> & _).
  exists (evs0 ++ [Prompt (label ++ " (comma-separated or JSON list): ")%string]), line.
  split; [now rewrite <- app_assoc |]. now apply or_reprompt_return.
Qed.

Lemma prompt_text_head label allow lines v rest evs :
  HandshakeOS._prompt_text label allow lines = (Ok v, rest, evs) ->
  hd_error evs = Some (Prompt (label ++ ": ")%string).
Proof.
  unfold HandshakeOS._prompt_text. intros H. apply retry_ok in H.
  destruct H as (_ & _ & _ & _ & _ & _ & _ & H). exact H.
Qed.

Lemma list_index_ok {A : Type} (l : list A) i x :
  list_index l i = Ok x -> 0 <= i -> nth_error l (Z.to_nat i) = Some x.
Proof.
  unfold list_index. intros H Hi.
  destruct (i <? 0) eqn:E; [apply Z.ltb_lt in E; lia |].
  destruct ((0 <=? i) && (i <? Z.of_nat (List.length l))); [| discriminate].
  destruct (nth_error l (Z.to_nat i)); [now inversion H | discriminate].
Qed.

(** Lines 276-297. *)
Lemma capture_test_ok hs w ti t w' :
  capture_test hs w = (Ok (ti, t), w') ->
  exists cevs0 kline k cevs1 row,
    one_insert (TestRow row) t
      (cevs0 ++ [Prompt (index_prompt (List.length hs)); Read kline] ++ cevs1) w w'
    /\ py_int max_str_digits (strip kline) = Some k
    /\ 1 <= k <= Z.of_nat (List.length hs)
    /\ nth_error hs (Z.to_nat (k - 1)) = Some (TestInput.hypothesis_id ti)
    /\ t_hypothesis_id row = TestInput.hypothesis_id ti
    /\ hd_error cevs1 = Some (Prompt "Test description: ").
Proof.
  unfold HandshakeOS.capture_test. intros H.
  do 4 console_step H.
  apply lift_then in H. destruct H as (sel & Hsel & H).
  apply bind_ok in H. destruct H as (id & wi & Hi & H).
  apply ret_ok in H. destruct H as (H & <-). inversion H; subst; clear H.
  apply one_insert_last in Hi.
  apply prompt_int_ok in Hf. destruct Hf as (e0 & kline & -> & Hk & Hr).
  apply prompt_text_head in Hf0.
  exists e0, kline, a, (evs0 ++ evs1 ++ evs2 ++ []). eexists.
  split; [| split; [exact Hk | split; [exact Hr | split; [| split]]]].
  - replace (e0 ++ [Prompt (index_prompt (List.length hs)); Read kline]
               ++ evs0 ++ evs1 ++ evs2 ++ [])
      with ((e0 ++ [Prompt ("Choose hypothesis to test (index)" ++ " (" ++ str_of_int 1
                                ++ "-" ++ str_of_int (Z.of_nat (List.length hs)) ++ "): ")%string;
                      Read kline]) ++ evs0 ++ evs1 ++ evs2 ++ [])
      by (rewrite <- app_assoc; reflexivity).
    repeat (eapply one_insert_console; [eassumption |]). exact Hi.
  - simpl. apply list_index_ok in Hsel; [exact Hsel | lia].
  - reflexivity.
  - now apply hd_error_app.
Qed.

(** Lines 299-325. *)
Lemma capture_outcome_ok o ti t w oc w' :
  capture_outcome o ti t w = (Ok oc, w') ->
  exists cevs0 rline refs row,
    one_insert (OutcomeRow row) oc (cevs0 ++ [Read rline]) w w'
    /\ _parse_evidence_refs (strip rline) = Ok refs
    /\ c_observation_id row = o
    /\ c_hypothesis_id row = TestInput.hypothesis_id ti
    /\ c_evidence_refs row
       = json_dumps (JList (map JStr (HandshakeOS.with_test_ref t refs))).
Proof.
  unfold HandshakeOS.capture_outcome. intros H.
  print_step H. do 2 console_step H.
  apply one_insert_last in H.
  apply prompt_evidence_refs_ok in Hf0. destruct Hf0 as (e1 & rline & -> & Hp).
  exists ([Print ("Provide outcome evidence refs. Include the test reference "
                  ++ "(e.g., test:" ++ str_of_int t ++ ").")%string] ++ evs ++ e1),
    rline, a0.
  eexists.
  split.
  { replace (([Print ("Provide outcome evidence refs. Include the test reference "
                  ++ "(e.g., test:" ++ str_of_int t ++ ").")%string] ++ evs ++ e1)
           ++ [Read rline])
      with ([Print ("Provide outcome evidence refs. Include the test reference "
                  ++ "(e.g., test:" ++ str_of_int t ++ ").")%string]
          ++ evs ++ (e1 ++ [Read rline]) ++ [])
      by (rewrite app_nil_r, <- !app_assoc; reflexivity).
    repeat (eapply one_insert_console; [eassumption |]). exact H. }
  split; [exact Hp |]. repeat split.
Qed.

(** The first loop of lines 236-253 only talks to the operator, and asks
    for each hypothesis in turn. *)
Lemma collect_loop idxs acc w hyps w' :
  for_each idxs collect_hypothesis acc w = (Ok hyps, w') ->
  exists cevs,
    extends (map Console cevs) w w'
    /\ List.length hyps = (List.length acc + List.length idxs)%nat
    /\ (forall i tl, idxs = i :: tl -> hd_error cevs = Some (Prompt (hypothesis_prompt i)))
    /\ (forall i, In i idxs -> In (Prompt (hypothesis_prompt i)) cevs).
Proof.
  revert acc w. induction idxs as [| i idxs IH]; intros acc w H; simpl in H.
  - apply ret_ok in H. destruct H as (-> & ->). exists [].
    split; [apply extends_refl |]. split; [simpl; lia |].
    split; [discriminate | intros i []].
  - apply bind_ok in H. destruct H as (acc1 & w1 & Hc & H).
    unfold HandshakeOS.collect_hypothesis in Hc.
    do 4 console_step Hc. apply ret_ok in Hc. destruct Hc as (<- & <-).
    apply IH in H. destruct H as (cevs & He' & Hl & _ & Hin).
    assert (Hh : hd_error evs = Some (Prompt (hypothesis_prompt i))).
    { unfold HandshakeOS._prompt_choice in Hf. apply retry_ok in Hf.
      destruct Hf as (_ & _ & _ & _ & _ & _ & _ & Hh). rewrite Hh.
      unfold hypothesis_prompt. simpl. now rewrite !append_assoc. }
    exists ((evs ++ evs0 ++ evs1 ++ evs2) ++ cevs). split; [| split; [| split]].
    + rewrite map_app. eapply extends_trans; [| exact He'].
      rewrite !map_app.
      repeat (eapply extends_trans; [eassumption |]). assumption.
    + rewrite Hl, length_app. simpl. lia.
    + intros i' tl E. inversion E; subst.
      apply hd_error_app. now apply hd_error_app.
    + intros i' [<- | Hi].
      * apply in_or_app. left. apply in_or_app. left.
        destruct evs as [| x evs']; [discriminate Hh |].
        inversion Hh; subst. now left.
      * apply in_or_app. right. auto.
Qed.

(** The second loop of lines 255-270 only talks to the store: it reads no
    input and inserts one row for each hypothesis collected, in order. *)
Lemma persist_loop o hyps acc w ids w' :
  for_each hyps (persist_hypothesis o) acc w = (Ok ids, w') ->
  exists new_ids,
    ids = acc ++ new_ids
    /\ List.length new_ids = List.length hyps
    /\ stdin w' = stdin w
    /\ extends (hypothesis_inserts
                  (combine (map (hypothesis_row_of json_dumps o) hyps) new_ids)) w w'.
Proof.
  revert acc w. induction hyps as [| h hyps IH]; intros acc w H; simpl in H.
  - apply ret_ok in H. destruct H as (-> & ->). exists [].
    rewrite app_nil_r. split; [reflexivity |]. split; [reflexivity |].
    split; [reflexivity | apply extends_refl].
  - apply bind_ok in H. destruct H as (acc1 & w1 & Hp & H).
    unfold HandshakeOS.persist_hypothesis in Hp.
    apply bind_ok in Hp. destruct Hp as (id & w2 & Hi & Hp).
    apply ret_ok in Hp. destruct Hp as (<- & <-).
    apply execute_insert_ok in Hi. destruct Hi as (_ & Hs & He).
    apply IH in H. destruct H as (new_ids & -> & Hl & Hs' & He').
    exists (id :: new_ids). rewrite <- app_assoc. simpl.
    split; [reflexivity |]. split; [simpl; now rewrite Hl |]. split; [congruence |].
    change (Store (Insert (HypothesisRow (hypothesis_row_of json_dumps o h)) id)
            :: hypothesis_inserts (combine (map (hypothesis_row_of json_dumps o) hyps) new_ids))
      with ([Store (Insert (HypothesisRow (hypothesis_row_of json_dumps o h)) id)]
            ++ hypothesis_inserts (combine (map (hypothesis_row_of json_dumps o) hyps) new_ids)).
    eapply extends_trans; [exact He | exact He'].
Qed.

(** The loop of lines 273-274 only prints. *)
Lemma listing_loop (l : list (Z * Z)) w u w' :
  for_each l
    (fun '(idx, hypothesis_id) _ =>
       print ("  " ++ str_of_int idx ++ ". hypothesis_id=" ++ str_of_int hypothesis_id)%string)
    tt w = (Ok u, w') ->
  exists pevs, stdin w' = stdin w /\ extends (map Console pevs) w w'.
Proof.
  revert w. induction l as [| [idx id] l IH]; intros w H; simpl in H.
  - apply ret_ok in H. destruct H as (_ & ->). exists [].
    split; [reflexivity | apply extends_refl].
  - print_step H. apply IH in H. destruct H as (pevs & Hs' & He').
    exists ([Print ("  " ++ str_of_int idx ++ ". hypothesis_id=" ++ str_of_int id)%string]
            ++ pevs).
    split; [congruence |]. rewrite map_app. eapply extends_trans; eauto.
Qed.

Lemma range_length lo hi : List.length (range lo hi) = Z.to_nat (hi - lo).
Proof. unfold range. now rewrite length_map, length_seq. Qed.

Lemma range_head lo hi : lo < hi -> exists tl, range lo hi = lo :: tl.
Proof.
  intros H. unfold range.
  destruct (Z.to_nat (hi - lo)) as [| n] eqn:E; [lia |].
  simpl. rewrite Z.add_0_r. eauto.
Qed.

Lemma range_In lo hi i : lo <= i < hi -> In i (range lo hi).
Proof.
  intros H. unfold range. apply in_map_iff. exists (Z.to_nat (i - lo)).
  split; [lia |]. apply in_seq. lia.
Qed.

(** Lines 234-274: the count is asked, the fields of all the hypotheses
    are collected, then their rows are inserted, then they are listed. *)
Lemma capture_hypotheses_ok o w hs w' :
  capture_hypotheses o w = (Ok hs, w') ->
  exists cevs0 nline n fields hyps prints wc,
    py_int max_str_digits (strip nline) = Some n
    /\ 3 <= n <= 7
    /\ Z.of_nat (List.length hyps) = n
    /\ List.length hs = List.length hyps
    /\ hd_error fields = Some (Prompt (hypothesis_prompt 1))
    /\ (forall i, 1 <= i <= n -> In (Prompt (hypothesis_prompt i)) fields)
    /\ extends (map Console (cevs0 ++ [Prompt count_prompt; Read nline] ++ fields)) w wc
    /\ extends (hypothesis_inserts (combine (map (hypothesis_row_of json_dumps o) hyps) hs)
                ++ map Console prints) wc w'
    /\ stdin w' = stdin wc.
Proof.
  unfold HandshakeOS.capture_hypotheses. intros H.
  console_step H.
  apply bind_ok in H. destruct H as (hyps & wc & Hc & H).
  apply bind_ok in H. destruct H as (ids & wp & Hp & H).
  print_step H.
  apply bind_ok in H. destruct H as (u & wl & Hl & H).
  apply ret_ok in H. destruct H as (<- & <-).
  apply prompt_int_ok in Hf. destruct Hf as (e0 & nline & -> & Hn & Hr).
  apply collect_loop in Hc. destruct Hc as (fields & Hce & Hcl & Hch & Hci).
  apply persist_loop in Hp. destruct Hp as (new_ids & -> & Hpl & Hps & Hpe).
  apply listing_loop in Hl. destruct Hl as (pevs & Hls & Hle).
  rewrite range_length in Hcl. simpl in Hcl.
  exists e0, nline, a, fields, hyps, ([Print "Captured hypotheses:"] ++ pevs), wc.
  split; [exact Hn |]. split; [exact Hr |]. split; [lia |]. split; [simpl; exact Hpl |].
  split; [| split; [| split; [| split]]].
  - destruct (range_head 1 (a + 1)) as (tl & E); [lia |]. exact (Hch _ _ E).
  - intros i Hi. apply Hci. apply range_In. lia.
  - rewrite app_assoc, map_app. eapply extends_trans; [exact He | exact Hce].
  - eapply extends_trans; [exact Hpe |].
    rewrite map_app. eapply extends_trans; [exact He0 | exact Hle].
  - congruence.
Qed.

(** *** The whole session *)

Lemma ensure_schema_run w :
  HandshakeOS._ensure_schema (connect w)
  = (Ok tt,
     {| stdin := stdin w;
        trace := (trace w ++ [Store PragmaForeignKeys]) ++ [Store CreateTables];
        disk := create_tables (disk w); txn := None; foreign_keys := true |}).
Proof. reflexivity. Qed.

Lemma one_insert_extends r id cevs w w' :
  one_insert r id cevs w w' -> extends (map Console cevs ++ [Store (Insert r id)]) w w'.
Proof. intros (H & _). exact H. Qed.

Lemma one_insert_fresh r id cevs w w' :
  one_insert r id cevs w w' -> is_fresh (view w) r id.
Proof. intros (_ & H). eapply insert_row_fresh; eauto. Qed.

(** The rows of a table seen from a world reached from [w0], whose view has
    all the tables. *)
Lemma all_rows_extends evs w0 w t :
  (forall t', present (view w0) t' = true) ->
  extends evs w0 w ->
  all_rows (view w) t = all_rows (view w0) t ++ written (inserts_of evs) t.
Proof.
  intros P (_ & V & _ & _). rewrite V. now apply all_rows_replay.
Qed.

(** A completed session is made of the six stages in order; the file
    afterwards is the file before, with the tables created, and the rows
    of the session. *)
Lemma capture_ok w ids w' :
  capture w = (Ok ids, w') ->
  exists s,
    trace w' = trace w ++ session_events ids s
    /\ disk w' = replay (inserts_of (session_events ids s)) (create_tables (disk w))
    /\ txn w' = None
    /\ session_ok max_str_digits json_loads json_dumps ids s
    /\ is_fresh (create_tables (disk w)) (TestRow (s_test s)) (HandshakeOS.test_id ids)
    /\ is_fresh (create_tables (disk w)) (OutcomeRow (s_outcome s))
         (HandshakeOS.outcome_id ids).
Proof.
  unfold HandshakeOS.capture, finally_close.
  destruct (capture_body (connect w)) as [r wz] eqn:B. intros H.
  inversion H; subst; clear H.
  unfold HandshakeOS.capture_body in B.
  apply bind_ok in B. destruct B as ([] & w1 & Hs & B).
  rewrite ensure_schema_run in Hs. inversion Hs as [Hw1]; clear Hs.
  apply bind_ok in B. destruct B as (i & w2 & H1 & B).
  apply bind_ok in B. destruct B as (o & w3 & H2 & B).
  apply bind_ok in B. destruct B as (hs & w4 & H3 & B).
  apply bind_ok in B. destruct B as ([ti t] & w5 & H4 & B).
  apply bind_ok in B. destruct B as (oc & w6 & H5 & B).
  apply bind_ok in B. destruct B as (p & w7 & H6 & B).
  apply bind_ok in B. destruct B as ([] & w8 & H7 & B).
  apply ret_ok in B. destruct B as (<- & <-).
  apply capture_intent_ok in H1. destruct H1 as (c1 & ri & H1).
  apply capture_observation_ok in H2. destruct H2 as (c2 & ro & H2 & F2).
  apply capture_hypotheses_ok in H3.
  destruct H3 as (c3 & nline & n & fields & hyps & prints & wc
                  & Fn & Fr & Fl & Fh & Ff & Fi & H3a & H3b & _).
  apply capture_test_ok in H4.
  destruct H4 as (c4 & kline & k & c4' & rt & H4 & Fk & Fkr & Fkn & Ft & Fth).
  apply capture_outcome_ok in H5.
  destruct H5 as (c5 & rline & refs & roc & H5 & Fp & Fo & Foh & Fe).
  apply capture_pattern_seed_ok in H6. destruct H6 as (c6 & rp & H6 & Fs).
  unfold commit in H7. inversion H7 as [Hw8]; clear H7. subst w8.
  pose (s := {| s_intent_console := c1; s_intent := ri;
                s_observation_console := c2; s_observation := ro;
                s_count_console := c3; s_count_line := nline;
                s_fields_console := fields;
                s_hypotheses := map (hypothesis_row_of json_dumps o) hyps;
                s_listing := prints;
                s_index_console := c4; s_index_line := kline;
                s_test_console := c4'; s_test := rt;
                s_outcome_console := c5; s_refs_line := rline; s_outcome := roc;
                s_seed_console := c6; s_seed := rp; s_seed_id := p |}).
  exists s.
  (* the events between the schema set-up and the commit *)
  assert (E3 : extends
            (map Console (c3 ++ [Prompt count_prompt; Read nline] ++ fields)
             ++ hypothesis_inserts (combine (map (hypothesis_row_of json_dumps o) hyps) hs)
             ++ map Console prints) w3 w4)
    by (eapply extends_trans; eassumption).
  pose proof (one_insert_extends _ _ _ _ _ H1) as E1.
  pose proof (one_insert_extends _ _ _ _ _ H2) as E2.
  pose proof (one_insert_extends _ _ _ _ _ H4) as E4.
  pose proof (one_insert_extends _ _ _ _ _ H5) as E5.
  pose proof (one_insert_extends _ _ _ _ _ H6) as E6.
  pose proof (extends_trans _ _ _ _ _ E5 E6) as E56.
  pose proof (extends_trans _ _ _ _ _ E4 E56) as E46.
  pose proof (extends_trans _ _ _ _ _ E3 E46) as E36.
  pose proof (extends_trans _ _ _ _ _ E2 E36) as E26.
  pose proof (extends_trans _ _ _ _ _ E1 E26) as E16.
  pose proof (extends_trans _ _ _ _ _ E1 E2) as E12.
  pose proof (extends_trans _ _ _ _ _ E12 E3) as E13.
  pose proof (extends_trans _ _ _ _ _ E13 E4) as E14.
  assert (V1 : view w1 = create_tables (disk w)) by (rewrite <- Hw1; reflexivity).
  assert (P1 : forall t', present (view w1) t' = true)
    by (intros t'; rewrite V1; apply present_create_tables).
  destruct E16 as (T & V & D & F).
  split; [| split; [| split; [| split; [| split]]]].
  - simpl. rewrite T, <- Hw1. unfold session_events. simpl.
    rewrite <- !app_assoc. reflexivity.
  - simpl. fold (view w7). rewrite V, V1. f_equal.
    unfold session_events. simpl.
    repeat (rewrite ?inserts_of_app, ?inserts_of_console, ?inserts_of_hypotheses; simpl).
    reflexivity.
  - reflexivity.
  - constructor; simpl; auto.
    + exists n. repeat split; try assumption; try lia.
    + now rewrite length_map.
    + intros j Hj. apply Fi. lia.
    + apply Forall_forall. intros r Hr. apply in_map_iff in Hr.
      destruct Hr as (h & <- & _). reflexivity.
    + exists k. repeat split; try assumption; try lia. now rewrite Ft.
    + now rewrite Ft.
    + exists refs. split; assumption.
  - simpl. apply one_insert_fresh in H4. unfold is_fresh in *.
    intros q Hq. apply H4.
    rewrite (all_rows_extends _ _ _ _ P1 E13), V1. apply in_or_app. now left.
  - simpl. apply one_insert_fresh in H5. unfold is_fresh in *.
    intros q Hq. apply H5.
    rewrite (all_rows_extends _ _ _ _ P1 E14), V1. apply in_or_app. now left.
Qed.

(** *** The inserts of a session *)

Lemma session_inserts ids s :
  inserts_of (session_events ids s)
  = (IntentRow (s_intent s), HandshakeOS.intent_id ids)
    :: (ObservationRow (s_observation s), HandshakeOS.observation_id ids)
    :: map (fun p => (HypothesisRow (fst p), snd p))
         (combine (s_hypotheses s) (HandshakeOS.hypothesis_ids ids))
    ++ [(TestRow (s_test s), HandshakeOS.test_id ids);
        (OutcomeRow (s_outcome s), HandshakeOS.outcome_id ids);
        (PatternSeedRow (s_seed s), s_seed_id s)].
Proof.
  unfold session_events. simpl.
  repeat (rewrite ?inserts_of_app, ?inserts_of_console, ?inserts_of_hypotheses; simpl).
  now rewrite app_nil_r.
Qed.

Lemma key_in_true k l : In k l -> key_in k l = true.
Proof.
  intros H. unfold key_in. apply existsb_exists. exists k. split; [exact H |].
  rewrite Z.eqb_refl. destruct (fst k); reflexivity.
Qed.

Lemma refs_backward_hypotheses o (l : list (hypothesis_row * Z)) earlier rest :
  In (Observations, o) earlier ->
  Forall (fun p => h_observation_id (fst p) = o) l ->
  refs_backward earlier (map (fun p => (HypothesisRow (fst p), snd p)) l ++ rest)
  = refs_backward (earlier ++ map (fun p => (Hypotheses, snd p)) l) rest.
Proof.
  revert earlier. induction l as [| [r id] l IH]; intros earlier Ho Hl; simpl.
  - now rewrite app_nil_r.
  - apply Forall_cons_iff in Hl. destruct Hl as (Hr & Hl'). simpl in Hr. rewrite Hr.
    rewrite key_in_true by exact Ho. simpl.
    rewrite IH; [| apply in_or_app; now left | exact Hl'].
    now rewrite <- app_assoc.
Qed.

Lemma map_snd_combine {A B : Type} (a : list A) (b : list B) :
  List.length a = List.length b -> map snd (combine a b) = b.
Proof.
  revert b. induction a as [| x a IH]; intros [| y b] H; simpl in *;
    try discriminate; [reflexivity |]. f_equal. apply IH. lia.
Qed.

Lemma Forall_combine_fst {A B : Type} (P : A -> Prop) (a : list A) (b : list B) :
  Forall P a -> Forall (fun p => P (fst p)) (combine a b).
Proof.
  intros H. revert b. induction H as [| x a Hx Ha IH]; intros [| y b]; simpl;
    constructor; auto.
Qed.

Lemma written_wrapped (l : list (hypothesis_row * Z)) rest t :
  written (map (fun p => (HypothesisRow (fst p), snd p)) l ++ rest) t
  = (if table_name_eqb Hypotheses t
     then map (fun p => (snd p, HypothesisRow (fst p))) l else [])
    ++ written rest t.
Proof.
  destruct t; simpl; induction l as [| [r id] l IH]; simpl;
    try reflexivity; try exact IH.
  now rewrite IH.
Qed.

Lemma str_in_In x l : str_in x l = true <-> In x l.
Proof.
  unfold str_in. rewrite existsb_exists. split.
  - intros (y & Hy & E). apply String.eqb_eq in E. now subst.
  - intros H. exists x. split; [exact H | apply String.eqb_refl].
Qed.

(** Lines 305-307 on their own: the token is in the result, appended once
    when it was absent, and the list is unchanged when it was there. *)
Lemma with_test_ref_spec t refs :
  let token := test_ref t in
  let kept := HandshakeOS.with_test_ref t refs in
  In token kept
  /\ (~ In token refs -> kept = refs ++ [token] /\ count_occ string_dec kept token = 1%nat)
  /\ (In token refs -> kept = refs).
Proof.
  cbv zeta. unfold HandshakeOS.with_test_ref. fold (test_ref t).
  generalize (test_ref t). intros tok.
  destruct (str_in tok refs) eqn:E; cbn [negb].
  - apply str_in_In in E. split; [exact E |].
    split; [intros N; contradiction | reflexivity].
  - assert (N : ~ In tok refs).
    { intros H. apply str_in_In in H. congruence. }
    split; [apply in_or_app; right; now left |]. split; [| intros H; contradiction].
    intros _. split; [reflexivity |].
    rewrite count_occ_app, (proj1 (count_occ_not_In string_dec _ _) N).
    now rewrite count_occ_cons_eq.
Qed.

(** The test and the outcome of a completed session are the rows found
    under their rowids afterwards. *)
Lemma session_rows_stored w ids s :
  session_ok max_str_digits json_loads json_dumps ids s ->
  is_fresh (create_tables (disk w)) (TestRow (s_test s)) (HandshakeOS.test_id ids) ->
  is_fresh (create_tables (disk w)) (OutcomeRow (s_outcome s)) (HandshakeOS.outcome_id ids) ->
  let d := replay (inserts_of (session_events ids s)) (create_tables (disk w)) in
  stored_row d Tests (HandshakeOS.test_id ids) = Some (TestRow (s_test s))
  /\ stored_row d Outcomes (HandshakeOS.outcome_id ids) = Some (OutcomeRow (s_outcome s))
  /\ all_rows d Hypotheses
     = all_rows (disk w) Hypotheses
       ++ map (fun p => (snd p, HypothesisRow (fst p)))
            (combine (s_hypotheses s) (HandshakeOS.hypothesis_ids ids)).
Proof.
  intros Hok Ft Fo d. subst d. unfold stored_row.
  rewrite !all_rows_replay by (intros t'; apply present_create_tables).
  rewrite session_inserts.
  cbn [written table_of table_name_eqb]. rewrite !written_wrapped.
  cbn [written table_of table_name_eqb app].
  split; [| split].
  - apply find_fresh. exact Ft.
  - apply find_fresh. exact Fo.
  - now rewrite all_rows_create_tables, app_nil_r.
Qed.

Lemma refs_backward_chain i ri o ro (hl : list (hypothesis_row * Z)) rt t roc oc rp p :
  o_intent_id ro = i ->
  Forall (fun q => h_observation_id (fst q) = o) hl ->
  In (t_hypothesis_id rt) (map snd hl) ->
  c_observation_id roc = o ->
  c_hypothesis_id roc = t_hypothesis_id rt ->
  p_outcome_id rp = oc ->
  refs_backward []
    ((IntentRow ri, i) :: (ObservationRow ro, o)
     :: map (fun q => (HypothesisRow (fst q), snd q)) hl
     ++ [(TestRow rt, t); (OutcomeRow roc, oc); (PatternSeedRow rp, p)]) = true.
Proof.
  intros Hobs Hhyp Hin Hoo Hoh Hseed.
  cbn [refs_backward foreign_keys_of forallb table_of app].
  rewrite Hobs, key_in_true by now left. cbn [andb].
  rewrite (refs_backward_hypotheses o); [| right; now left | exact Hhyp].
  assert (Hk : forall tail,
             In (Hypotheses, t_hypothesis_id rt)
               (([(Intents, i); (Observations, o)]
                 ++ map (fun q : hypothesis_row * Z => (Hypotheses, snd q)) hl) ++ tail)).
  { intros tail. apply in_or_app. left. apply in_or_app. right.
    apply in_map_iff in Hin. destruct Hin as (q & Hq & Hin).
    apply in_map_iff. exists q. split; [now rewrite Hq | exact Hin]. }
  cbn [refs_backward foreign_keys_of forallb table_of].
  rewrite Hoo, Hoh, Hseed.
  rewrite <- (app_nil_r (_ ++ map _ hl)) at 1.
  rewrite key_in_true by apply Hk. cbn [andb].
  rewrite key_in_true
    by (apply in_or_app; left; apply in_or_app; left; right; now left).
  rewrite key_in_true by apply Hk. cbn [andb].
  rewrite key_in_true by (apply in_or_app; right; now left).
  reflexivity.
Qed.

(** ** The properties of the specification *)

(** C1.  In a completed session the rows are inserted in the order intent,
    observation, hypotheses, test, outcome, pattern seed, and every foreign
    key of an inserted row is the rowid the store gave to a row of the
    referred table inserted before it in the same session; these inserts are
    what the session leaves in the file. *)
Theorem capture_keys_point_backward w ids w' :
  capture w = (Ok ids, w') ->
  exists evs,
    trace w' = trace w ++ evs
    /\ map (fun p => table_of (fst p)) (inserts_of evs)
       = stage_order (List.length (HandshakeOS.hypothesis_ids ids))
    /\ refs_backward [] (inserts_of evs) = true
    /\ disk w' = replay (inserts_of evs) (create_tables (disk w)).
Proof.
  intros H. apply capture_ok in H. destruct H as (s & T & D & _ & Hok & _ & _).
  exists (session_events ids s). split; [exact T |]. split; [| split; [| exact D]].
  - rewrite session_inserts. unfold stage_order. cbn [map fst table_of app].
    do 2 f_equal. rewrite map_app, map_map. cbn [map fst table_of]. f_equal.
    rewrite map_const, length_combine, (ok_rows _ _ _ _ _ Hok).
    now rewrite Nat.min_id.
  - rewrite session_inserts.
    destruct Hok as [_ Hrows _ _ Hobs Hhyp (k & _ & Hk & Hnth) _ Hoo Hoh _ Hseed].
    apply refs_backward_chain; auto.
    + now apply Forall_combine_fst with (P := fun r => h_observation_id r = _).
    + rewrite map_snd_combine by exact Hrows. eapply nth_error_In; eauto.
Qed.

Lemma infix_app_r {A : Type} (m l1 l2 : list A) : infix m l2 -> infix m (l1 ++ l2).
Proof.
  intros (pre & post & ->). exists (l1 ++ pre), post. now rewrite app_assoc.
Qed.

Lemma infix_app_l {A : Type} (m l1 l2 : list A) : infix m l1 -> infix m (l1 ++ l2).
Proof.
  intros (pre & post & ->). exists pre, (post ++ l2). now rewrite <- !app_assoc.
Qed.

Lemma hd_error_cons {A : Type} (l : list A) x :
  hd_error l = Some x -> exists tl, l = x :: tl.
Proof. destruct l; simpl; intros H; inversion H. eauto. Qed.


(** C5.  In a completed session the outcome row that is stored refers to
    the hypothesis the stored test row refers to, which is the one at the
    index the operator typed, and to the observation of the session. *)
Theorem outcome_concludes_the_test w ids w' :
  capture w = (Ok ids, w') ->
  exists evs trow orow obs line k,
    trace w' = trace w ++ evs
    /\ In (Store (Insert (ObservationRow obs) (HandshakeOS.observation_id ids))) evs
    /\ infix [Console (Prompt (index_prompt (List.length (HandshakeOS.hypothesis_ids ids))));
              Console (Read line);
              Console (Prompt "Test description: ")] evs
    /\ py_int max_str_digits (strip line) = Some k
    /\ nth_error (HandshakeOS.hypothesis_ids ids) (Z.to_nat (k - 1))
       = Some (t_hypothesis_id trow)
    /\ stored_row (disk w') Tests (HandshakeOS.test_id ids) = Some (TestRow trow)
    /\ stored_row (disk w') Outcomes (HandshakeOS.outcome_id ids) = Some (OutcomeRow orow)
    /\ c_hypothesis_id orow = t_hypothesis_id trow
    /\ c_observation_id orow = HandshakeOS.observation_id ids.
Proof.
  intros H. apply capture_ok in H. destruct H as (s & T & D & _ & Hok & Ft & Fo).
  destruct (ok_index _ _ _ _ _ Hok) as (k & Hk & _ & Hnth).
  destruct (session_rows_stored w ids s Hok Ft Fo) as (St & So & _).
  destruct (hd_error_cons _ _ (ok_test_console _ _ _ _ _ Hok)) as (tl & Htl).
  exists (session_events ids s), (s_test s), (s_outcome s), (s_observation s),
    (s_index_line s), k.
  split; [exact T |]. split; [| split; [| split; [exact Hk | split; [exact Hnth |]]]].
  - unfold session_events. apply in_or_app. right. apply in_or_app. right.
    apply in_or_app. left. apply in_or_app. right. now left.
  - unfold session_events. do 4 apply infix_app_r. do 2 apply infix_app_l.
    rewrite Htl, map_app. exists (map Console (s_index_console s)), (map Console tl).
    reflexivity.
  - rewrite D. split; [exact St |]. split; [exact So |].
    split; [apply (ok_outcome_hypothesis _ _ _ _ _ Hok)
           | apply (ok_outcome_observation _ _ _ _ _ Hok)].
Qed.

(** A one-digit line is within any limit on the number of digits. *)
Lemma py_int_2 : py_int max_str_digits (strip "2") = Some 2.
Proof. unfold py_int. simpl. now destruct max_str_digits. Qed.

Lemma py_int_8 : py_int max_str_digits (strip "8") = Some 8.
Proof. unfold py_int. simpl. now destruct max_str_digits. Qed.

(** C3.  In a completed session the count the operator typed at the
    question for the number of hypotheses lies between 3 and 7 and is the
    number of hypothesis rows the session inserted and left in the file; a
    line that is not an integer, or an integer outside 3..7 (2 and 8 among
    them), is answered by a message and the same question again, and is
    never the value returned. *)
Theorem hypothesis_count_is_the_choice :
  (forall w ids w',
      capture w = (Ok ids, w') ->
      exists evs line n,
        trace w' = trace w ++ evs
        /\ infix [Console (Prompt count_prompt); Console (Read line);
                  Console (Prompt (hypothesis_prompt 1))] evs
        /\ py_int max_str_digits (strip line) = Some n
        /\ 3 <= n <= 7
        /\ Z.of_nat (List.length (HandshakeOS.hypothesis_ids ids)) = n
        /\ Z.of_nat (List.length (written (inserts_of evs) Hypotheses)) = n
        /\ all_rows (disk w') Hypotheses
           = all_rows (disk w) Hypotheses ++ written (inserts_of evs) Hypotheses)
  /\ (forall label line rest,
         match py_int max_str_digits (strip line) with
         | Some v => v < 3 \/ 7 < v
         | None => True
         end ->
         exists msg,
           _prompt_int label 3 7 (line :: rest)
           = and_again (rejected (label ++ " (3-7): ")%string line msg)
               (_prompt_int label 3 7 rest))
  /\ py_int max_str_digits (strip "2") = Some 2
  /\ py_int max_str_digits (strip "8") = Some 8
  /\ (forall label lines v rest evs,
         _prompt_int label 3 7 lines = (Ok v, rest, evs) -> 3 <= v <= 7).
Proof.
  split; [| split; [| split; [| split]]].
  - intros w ids w' H. apply capture_ok in H.
    destruct H as (s & T & D & _ & Hok & Ft & Fo).
    destruct (ok_count _ _ _ _ _ Hok) as (n & Hn & Hr & Hl).
    destruct (session_rows_stored w ids s Hok Ft Fo) as (_ & _ & Sh).
    destruct (hd_error_cons _ _ (ok_fields _ _ _ _ _ Hok)) as (tl & Htl).
    exists (session_events ids s), (s_count_line s), n.
    assert (W : written (inserts_of (session_events ids s)) Hypotheses
                = map (fun p => (snd p, HypothesisRow (fst p)))
                    (combine (s_hypotheses s) (HandshakeOS.hypothesis_ids ids))).
    { rewrite session_inserts. cbn [written table_of table_name_eqb].
      rewrite written_wrapped. cbn [written table_of table_name_eqb].
      now rewrite app_nil_r. }
    split; [exact T |]. split; [| split; [exact Hn | split; [exact Hr | split; [exact Hl |]]]].
    + unfold session_events. do 3 apply infix_app_r. do 2 apply infix_app_l.
      rewrite Htl, map_app. exists (map Console (s_count_console s)), (map Console tl).
      reflexivity.
    + rewrite W. split.
      * rewrite length_map, length_combine, (ok_rows _ _ _ _ _ Hok), Nat.min_id.
        exact Hl.
      * rewrite D. exact Sh.
  - intros label line rest H. unfold HandshakeOS._prompt_int.
    destruct (py_int max_str_digits (strip line)) as [v |] eqn:E.
    + exists ("Value must be between " ++ str_of_int 3 ++ " and "
              ++ str_of_int 7 ++ ".")%string.
      apply retry_again. rewrite E.
      destruct ((3 <=? v) && (v <=? 7)) eqn:B; [lia | reflexivity].
    + exists "Please enter an integer."%string. apply retry_again. now rewrite E.
  - exact py_int_2.
  - exact py_int_8.
  - intros label lines v rest evs H. apply prompt_int_ok in H.
    destruct H as (_ & _ & _ & _ & H). exact H.
Qed.

Lemma no_hypothesis_insert_console l : filter is_hypothesis_insert (map Console l) = [].
Proof. induction l; simpl; auto. Qed.

(** The stage is two passes.  The first reads the count and the fields of
    every hypothesis and stores nothing; the second inserts the collected
    hypotheses, in the order collected, and reads nothing. *)
Lemma capture_hypotheses_phases o w hs w' :
  capture_hypotheses o w = (Ok hs, w') ->
  exists hyps wc wp asked,
    bind (console (_prompt_int "Number of hypotheses" 3 7))
         (fun hypothesis_count =>
            for_each (range 1 (hypothesis_count + 1)) collect_hypothesis []) w
    = (Ok hyps, wc)
    /\ extends (map Console asked) w wc
    /\ for_each hyps (persist_hypothesis o) [] wc = (Ok hs, wp)
    /\ extends (hypothesis_inserts (combine (map (hypothesis_row_of json_dumps o) hyps) hs))
               wc wp
    /\ stdin wp = stdin wc.
Proof.
  unfold HandshakeOS.capture_hypotheses. intros H.
  apply bind_ok in H. destruct H as (n & w0 & Hn & H).
  apply bind_ok in H. destruct H as (hyps & wc & Hc & H).
  apply bind_ok in H. destruct H as (ids & wp & Hp & H).
  print_step H.
  apply bind_ok in H. destruct H as (u & wl & Hl & H).
  apply ret_ok in H. destruct H as (<- & <-).
  pose proof Hn as Hn'. apply console_run in Hn'. destruct Hn' as (rest & e0 & _ & _ & _ & He0').
  pose proof Hc as Hc'. apply collect_loop in Hc'. destruct Hc' as (fields & Hce & _).
  pose proof Hp as Hp'. apply persist_loop in Hp'.
  destruct Hp' as (new_ids & E & _ & Hps & Hpe). simpl in E. subst new_ids.
  exists hyps, wc, wp, (e0 ++ fields).
  split; [unfold bind; rewrite Hn; exact Hc |].
  split; [rewrite map_app; eapply extends_trans; eassumption |].
  split; [exact Hp |]. split; [exact Hpe | exact Hps].
Qed.

(** C6, as the code has it.  In a completed session the fields of all the
    hypotheses are asked for first; the hypothesis rows are inserted after
    that, one after the other with nothing in between, and these are the
    only hypothesis rows the session inserts: no hypothesis is stored
    before the fields of the last one were read.  The rows are those of the
    collected hypotheses, in the order collected: the stage first runs the
    collecting pass, which stores nothing, and then the storing pass over
    its result, which reads nothing. *)
Theorem hypotheses_stored_after_all_collected :
  (forall w ids w',
      capture w = (Ok ids, w') ->
      exists before fields rows after,
        trace w' = trace w ++ before ++ map Console fields
                   ++ hypothesis_inserts (combine rows (HandshakeOS.hypothesis_ids ids))
                   ++ after
        /\ List.length rows = List.length (HandshakeOS.hypothesis_ids ids)
        /\ (forall i, 1 <= i <= Z.of_nat (List.length (HandshakeOS.hypothesis_ids ids)) ->
                      In (Prompt (hypothesis_prompt i)) fields)
        /\ filter is_hypothesis_insert (before ++ after) = [])
  /\ (forall o w hs w',
        capture_hypotheses o w = (Ok hs, w') ->
        exists hyps wc wp asked,
          bind (console (_prompt_int "Number of hypotheses" 3 7))
               (fun hypothesis_count =>
                  for_each (range 1 (hypothesis_count + 1)) collect_hypothesis []) w
          = (Ok hyps, wc)
          /\ extends (map Console asked) w wc
          /\ for_each hyps (persist_hypothesis o) [] wc = (Ok hs, wp)
          /\ extends (hypothesis_inserts
                        (combine (map (hypothesis_row_of json_dumps o) hyps) hs)) wc wp
          /\ stdin wp = stdin wc).
Proof.
  split; [| exact capture_hypotheses_phases].
  intros w ids w' H.
  apply capture_ok in H. destruct H as (s & T & _ & _ & Hok & _ & _).
  exists ([Store PragmaForeignKeys; Store CreateTables]
          ++ (map Console (s_intent_console s)
              ++ [Store (Insert (IntentRow (s_intent s)) (HandshakeOS.intent_id ids))])
          ++ (map Console (s_observation_console s)
              ++ [Store (Insert (ObservationRow (s_observation s))
                           (HandshakeOS.observation_id ids))])
          ++ map Console (s_count_console s
                          ++ [Prompt count_prompt; Read (s_count_line s)])),
    (s_fields_console s), (s_hypotheses s),
    (map Console (s_listing s)
     ++ (map Console (s_index_console s
                      ++ [Prompt (index_prompt (List.length (HandshakeOS.hypothesis_ids ids)));
                          Read (s_index_line s)]
                      ++ s_test_console s)
         ++ [Store (Insert (TestRow (s_test s)) (HandshakeOS.test_id ids))])
     ++ (map Console (s_outcome_console s ++ [Read (s_refs_line s)])
         ++ [Store (Insert (OutcomeRow (s_outcome s)) (HandshakeOS.outcome_id ids))])
     ++ (map Console (s_seed_console s)
         ++ [Store (Insert (PatternSeedRow (s_seed s)) (s_seed_id s))])
     ++ [Store Commit; Store Close]).
  split; [| split; [apply (ok_rows _ _ _ _ _ Hok) | split; [apply (ok_prompts _ _ _ _ _ Hok) |]]].
  - rewrite T. f_equal. unfold session_events.
    rewrite !map_app, <- !app_assoc. reflexivity.
  - repeat (rewrite ?filter_app, ?no_hypothesis_insert_console; cbn [filter is_hypothesis_insert app]).
    reflexivity.
Qed.

(** *** Sessions that end early *)

Lemma lift_frame {A : Type} (x : result A) : respects frame (HandshakeOS.lift x).
Proof. intros w r w' H. inversion H; subst. apply frame_refl. Qed.

Ltac framed :=
  repeat first
    [ apply ret_frame | apply console_frame | apply print_frame
    | apply execute_insert_frame | apply lift_frame
    | apply for_each_frame; intros
    | apply bind_frame; [| intros]
    | progress cbv beta zeta
    | match goal with
      | |- respects frame (let '(_, _) := ?x in _) => destruct x
      | |- respects frame ((let '(_, _) := ?x in _) _) => destruct x
      end ].

Lemma capture_intent_frame : respects frame capture_intent.
Proof. unfold HandshakeOS.capture_intent. framed. Qed.

Lemma capture_observation_frame i : respects frame (capture_observation i).
Proof. unfold HandshakeOS.capture_observation. framed. Qed.

Lemma capture_hypotheses_frame o : respects frame (capture_hypotheses o).
Proof.
  unfold HandshakeOS.capture_hypotheses, HandshakeOS.collect_hypothesis,
    HandshakeOS.persist_hypothesis.
  framed.
Qed.

Lemma capture_test_frame hs : respects frame (capture_test hs).
Proof. unfold HandshakeOS.capture_test. framed. Qed.

Lemma capture_outcome_frame o ti t : respects frame (capture_outcome o ti t).
Proof. unfold HandshakeOS.capture_outcome. framed. Qed.

Lemma capture_pattern_seed_frame oc : respects frame (capture_pattern_seed oc).
Proof. unfold HandshakeOS.capture_pattern_seed. framed. Qed.

(** When a sequence raises, what was done until then is all that was
    done. *)
Lemma raising_bind {A B : Type} (m : M A) (k : A -> M B) :
  respects frame m ->
  (forall a w e w', k a w = (Raise e, w') -> frame w w') ->
  forall w e w', bind m k w = (Raise e, w') -> frame w w'.
Proof.
  intros Hm Hk w e w' H. apply bind_raise in H.
  destruct H as [H | (a & w1 & H1 & H2)].
  - eapply Hm; eauto.
  - eapply frame_trans; [eapply Hm; eauto | eapply Hk; eauto].
Qed.

(** Whatever stops the body of [capture] after the schema set-up stops it
    before the commit. *)
Lemma capture_body_raise w e wz :
  capture_body (connect w) = (Raise e, wz) ->
  disk wz = create_tables (disk w)
  /\ exists evs,
       trace wz = trace w ++ [Store PragmaForeignKeys; Store CreateTables] ++ evs
       /\ ~ In (Store Commit) evs.
Proof.
  unfold HandshakeOS.capture_body. intros B. apply bind_raise in B.
  destruct B as [B | ([] & w1 & Hs & B)];
    [rewrite ensure_schema_run in B; discriminate B |].
  rewrite ensure_schema_run in Hs. inversion Hs as [Hw1]; clear Hs.
  assert (F : frame w1 wz).
  { revert B. generalize w1 e wz.
    apply raising_bind; [apply capture_intent_frame | intros i].
    apply raising_bind; [apply capture_observation_frame | intros o].
    apply raising_bind; [apply capture_hypotheses_frame | intros hs].
    apply raising_bind; [apply capture_test_frame | intros [ti t]].
    apply raising_bind; [apply capture_outcome_frame | intros oc].
    apply raising_bind; [apply capture_pattern_seed_frame | intros p].
    intros w0 e0 w0' H. discriminate H. }
  destruct F as (D & _ & evs & T & N). rewrite D, T, <- Hw1. simpl.
  split; [reflexivity |]. exists evs. split; [| exact N].
  now rewrite <- !app_assoc.
Qed.

Lemma create_tables_present d :
  (forall t, present d t = true) -> create_tables d = d.
Proof.
  intros P. destruct d as [a b c e f g]. unfold create_tables. simpl.
  pose proof (P Intents) as P1. pose proof (P Observations) as P2.
  pose proof (P Hypotheses) as P3. pose proof (P Tests) as P4.
  pose proof (P Outcomes) as P5. pose proof (P PatternSeeds) as P6.
  simpl in *.
  destruct a, b, c, e, f, g; try discriminate; reflexivity.
Qed.

(** C4, as the code has it.  A session that ends before its commit,
    whatever ends it, leaves no row: the file afterwards is the file before
    with the absent tables created (the set-up of lines 143-199 runs before
    the transaction), every table holds the rows it held, nothing was
    committed, and a file that already had the six tables is exactly as it
    was. *)
Theorem early_end_leaves_no_row w e w' :
  capture w = (Raise e, w') ->
  disk w' = create_tables (disk w)
  /\ txn w' = None
  /\ (forall t, all_rows (disk w') t = all_rows (disk w) t)
  /\ ((forall t, present (disk w) t = true) -> disk w' = disk w)
  /\ exists evs, trace w' = trace w ++ evs /\ ~ In (Store Commit) evs.
Proof.
  unfold HandshakeOS.capture, finally_close.
  destruct (capture_body (connect w)) as [r wz] eqn:B. intros H.
  inversion H; subst; clear H.
  apply capture_body_raise in B. destruct B as (D & evs & T & N). simpl.
  split; [exact D |]. split; [reflexivity |]. split; [| split].
  - intros t. rewrite D. apply all_rows_create_tables.
  - intros P. rewrite D. now apply create_tables_present.
  - exists ([Store PragmaForeignKeys; Store CreateTables] ++ evs ++ [Store Close]).
    split; [rewrite T, <- !app_assoc; reflexivity |].
    intros C. simpl in C. destruct C as [C | [C | C]]; try discriminate C.
    apply in_app_or in C. destruct C as [C | [C | []]]; [auto | discriminate C].
Qed.

(** *** The mixture vector *)

Lemma clean_entries_acc data acc :
  HandshakeOS.clean_entries data acc
  = and_then (HandshakeOS.clean_entries data []) (fun c => Ok (acc ++ c)).
Proof.
  revert acc. induction data as [| e data IH]; intros acc; simpl.
  - now rewrite app_nil_r.
  - destruct (HandshakeOS.clean_entry e) as [c | x]; simpl; [| reflexivity].
    rewrite (IH (acc ++ [c])), (IH [c]).
    destruct (HandshakeOS.clean_entries data []) as [cs | x]; simpl; [| reflexivity].
    now rewrite <- app_assoc.
Qed.

Lemma clean_entries_app a b :
  HandshakeOS.clean_entries (a ++ b) []
  = and_then (HandshakeOS.clean_entries a []) (fun ca =>
    and_then (HandshakeOS.clean_entries b []) (fun cb => Ok (ca ++ cb))).
Proof.
  induction a as [| e a IH]; simpl.
  - destruct (HandshakeOS.clean_entries b []); reflexivity.
  - destruct (HandshakeOS.clean_entry e) as [c | x]; simpl; [| reflexivity].
    rewrite (clean_entries_acc (a ++ b) [c]), (clean_entries_acc a [c]), IH.
    destruct (HandshakeOS.clean_entries a []) as [ca | x]; simpl; [| reflexivity].
    destruct (HandshakeOS.clean_entries b []) as [cb | x]; simpl; reflexivity.
Qed.

(** An entry that is no object, or has no non-empty string for its domain,
    or whose weight is [None], a string, a list or an object, is refused. *)
Lemma clean_entry_not_object entry :
  (forall d, entry <> JDict d) ->
  HandshakeOS.clean_entry entry = Raise (ValueError "Each mixture entry must be an object.").
Proof. intros H. destruct entry; try reflexivity. now destruct (H d). Qed.

Lemma clean_entry_bad_domain d :
  (forall s, dict_get "domain" d = JStr s -> s = EmptyString) ->
  HandshakeOS.clean_entry (JDict d)
  = Raise (ValueError "Each mixture entry needs a non-empty 'domain' string.").
Proof.
  intros H. simpl. destruct (dict_get "domain" d) as [| | | | s | |]; try reflexivity.
  now rewrite (H s eq_refl).
Qed.

Lemma clean_entry_bad_weight d s :
  dict_get "domain" d = JStr s -> nonempty s = true ->
  HandshakeOS.is_int_or_float (dict_get "weight" d) = false ->
  HandshakeOS.clean_entry (JDict d)
  = Raise (ValueError "Each mixture entry needs a numeric 'weight'.").
Proof. intros Hd Hs Hw. simpl. now rewrite Hd, Hs, Hw. Qed.

(** A line whose first entry that does not pass is refused with a
    [ValueError] is answered by the message and the question again. *)
Lemma refused_entry_reprompts label line rest before bad after cleaned msg :
  nonempty (strip line) = true ->
  json_loads (strip line) = Ok (JList (before ++ bad :: after)) ->
  HandshakeOS.clean_entries before [] = Ok cleaned ->
  HandshakeOS.clean_entry bad = Raise (ValueError msg) ->
  _prompt_mixture_vector label (line :: rest)
  = and_again
      (rejected (label ++ " (JSON list of {domain, weight}, empty for []): ")%string line msg)
      (_prompt_mixture_vector label rest).
Proof.
  intros Hn Hj Hb Hbad. unfold HandshakeOS._prompt_mixture_vector.
  apply retry_again. unfold HandshakeOS._parse_mixture_vector.
  rewrite Hn, Hj. cbn [negb]. rewrite clean_entries_app, Hb.
  cbn [and_then HandshakeOS.clean_entries]. now rewrite Hbad.
Qed.

(** C10.  An entry with a non-empty string for its domain and a JSON
    boolean for its weight passes the test for a numeric weight, and goes
    into the result with the weight 1.0 for true and 0.0 for false. *)
Theorem boolean_weight_is_coerced raw before d s b after cleaned :
  nonempty raw = true ->
  json_loads raw = Ok (JList (before ++ JDict d :: after)) ->
  HandshakeOS.clean_entries before [] = Ok cleaned ->
  dict_get "domain" d = JStr s ->
  nonempty s = true ->
  dict_get "weight" d = JBool b ->
  let coerced :=
    JDict [("domain", JStr s);
           ("weight", JFloat (if b then float_one else float_zero))] in
  HandshakeOS.is_int_or_float (dict_get "weight" d) = true
  /\ HandshakeOS.float_of_number (dict_get "weight" d)
     = Ok (if b then float_one else float_zero)
  /\ HandshakeOS.clean_entry (JDict d) = Ok coerced
  /\ _parse_mixture_vector raw
     = and_then (HandshakeOS.clean_entries after []) (fun rest =>
       Ok (cleaned ++ coerced :: rest)).
Proof.
  intros Hn Hj Hb Hd Hs Hw coerced.
  assert (Hc : HandshakeOS.clean_entry (JDict d) = Ok coerced).
  { simpl. rewrite Hd, Hs, Hw. now destruct b. }
  split; [now rewrite Hw |]. split; [rewrite Hw; now destruct b |]. split; [exact Hc |].
  unfold HandshakeOS._parse_mixture_vector. rewrite Hn, Hj. cbn [negb].
  rewrite clean_entries_app, Hb. cbn [and_then HandshakeOS.clean_entries].
  rewrite Hc. cbn [and_then app].
  rewrite clean_entries_acc.
  destruct (HandshakeOS.clean_entries after []); reflexivity.
Qed.

(** *** The schema set-up of the capture tool *)

Lemma create_tables_twice d : create_tables (create_tables d) = create_tables d.
Proof. apply create_tables_present. intros t. apply present_create_tables. Qed.

(** Lines 143-199, run a second time on the same connection or on the
    connection of a later session, change nothing; the first run keeps
    every row and leaves all six tables. *)
Lemma ensure_schema_twice w :
  let '(r1, w1) := HandshakeOS._ensure_schema (connect w) in
  let '(r2, w2) := HandshakeOS._ensure_schema w1 in
  let '(r3, w3) := HandshakeOS._ensure_schema (connect w1) in
  r1 = Ok tt /\ r2 = Ok tt /\ r3 = Ok tt
  /\ (disk w2 = disk w1 /\ txn w2 = txn w1 /\ foreign_keys w2 = foreign_keys w1)
  /\ (disk w3 = disk w1 /\ txn w3 = txn w1 /\ foreign_keys w3 = foreign_keys w1)
  /\ (forall t, present (disk w1) t = true)
  /\ (forall t, all_rows (disk w1) t = all_rows (disk w) t).
Proof.
  rewrite ensure_schema_run. cbv beta iota.
  change (HandshakeOS._ensure_schema
            {| stdin := stdin w;
               trace := (trace w ++ [Store PragmaForeignKeys]) ++ [Store CreateTables];
               disk := create_tables (disk w); txn := None; foreign_keys := true |})
    with (Ok tt,
          {| stdin := stdin w;
             trace := (((trace w ++ [Store PragmaForeignKeys]) ++ [Store CreateTables])
                       ++ [Store PragmaForeignKeys]) ++ [Store CreateTables];
             disk := create_tables (create_tables (disk w));
             txn := None; foreign_keys := true |}).
  rewrite ensure_schema_run. cbv beta iota. cbn [disk txn foreign_keys].
  rewrite create_tables_twice.
  repeat split.
  - intros t. apply present_create_tables.
  - intros t. apply all_rows_create_tables.
Qed.

End Stages.
End CaptureFacts.


(** ** The text the tool keeps *)

Module TextFacts.
Import Py.

Lemma lstrip_of_twice sp s : lstrip_of sp (lstrip_of sp s) = lstrip_of sp s.
Proof.
  induction s as [| c s IH]; simpl; [reflexivity |].
  destruct (sp c) eqn:E; [exact IH |]. simpl. now rewrite E.
Qed.

Lemma rstrip_of_twice sp s : rstrip_of sp (rstrip_of sp s) = rstrip_of sp s.
Proof.
  induction s as [| c s IH]; simpl; [reflexivity |].
  destruct (rstrip_of sp s) as [| d r] eqn:R.
  - destruct (sp c) eqn:E; simpl; [reflexivity | now rewrite E].
  - change (rstrip_of sp (String c (String d r)))
      with (match rstrip_of sp (String d r) with
            | EmptyString => if sp c then EmptyString else String c EmptyString
            | String _ _ as r' => String c r'
            end).
    now rewrite IH.
Qed.

Lemma strips_commute sp s :
  rstrip_of sp (lstrip_of sp s) = lstrip_of sp (rstrip_of sp s).
Proof.
  induction s as [| c s IH]; simpl; [reflexivity |].
  destruct (sp c) eqn:E.
  - rewrite IH. destruct (rstrip_of sp s) as [| d r]; simpl; now rewrite ?E.
  - change (rstrip_of sp (String c s))
      with (match rstrip_of sp s with
            | EmptyString => if sp c then EmptyString else String c EmptyString
            | String _ _ as r' => String c r'
            end).
    rewrite ?E. destruct (rstrip_of sp s) as [| d r]; simpl; now rewrite ?E.
Qed.

(** A stripped string has nothing left to strip. *)
Lemma strip_twice s : strip (strip s) = strip s.
Proof.
  unfold strip, lstrip, rstrip.
  now rewrite strips_commute, rstrip_of_twice, lstrip_of_twice.
Qed.

End TextFacts.

(** ** What the prompts return and what the tool stores *)

Module FieldFacts.
Import Py Store Proc Session Fields ProcFacts PromptFacts TextFacts.
Local Open Scope list_scope.

(** A loop that returns: the rounds that were rejected, each with its
    message, then the line that was accepted. *)
Lemma retry_rounds {A : Type} prompt (body : string -> step A) lines a rest evs :
  retry prompt body lines = (Ok a, rest, evs) ->
  exists rounds line,
    lines = map fst rounds ++ line :: rest
    /\ Forall (fun lm => body (fst lm) = Again (snd lm)) rounds
    /\ body line = Return a
    /\ evs = rejections prompt rounds ++ [Prompt prompt; Read line].
Proof.
  revert a rest evs. induction lines as [| l lines IH]; intros a rest evs H.
  - discriminate H.
  - simpl in H. destruct (body l) as [a0 | msg | e] eqn:B.
    + inversion H; subst; clear H. exists [], l. repeat split; auto.
    + destruct (retry prompt body lines) as [[r rest'] evs'] eqn:R.
      inversion H; subst; clear H.
      destruct (IH _ _ _ eq_refl) as (rounds & line & -> & Hs & Hb & ->).
      exists ((l, msg) :: rounds), line. repeat split; auto.
    + discriminate H.
Qed.

(** A loop whose lines are all rejected runs out of input. *)
Lemma retry_eof {A : Type} prompt (body : string -> step A) rounds :
  Forall (fun lm => body (fst lm) = Again (snd lm)) rounds ->
  retry prompt body (map fst rounds)
  = (Raise EOFError, [], rejections prompt rounds ++ [Prompt prompt]).
Proof.
  induction 1 as [| [l msg] rounds Hb _ IH]; [reflexivity |].
  simpl in *. now rewrite Hb, IH.
Qed.

Section Fields.
Variable max_str_digits : nat.
Variable py_float : string -> option float.
Variable float_repr : float -> string.
Variable json_loads : string -> result json.
Variable json_dumps : json -> string.

Local Abbreviation _prompt_float := (HandshakeOS._prompt_float py_float float_repr).
Local Abbreviation _parse_mixture_vector := (HandshakeOS._parse_mixture_vector json_loads).
Local Abbreviation _parse_evidence_refs := (HandshakeOS._parse_evidence_refs json_loads).
Local Abbreviation capture_intent := (HandshakeOS.capture_intent py_float float_repr).
Local Abbreviation capture_observation :=
  (HandshakeOS.capture_observation json_loads json_dumps).
Local Abbreviation collect_hypothesis :=
  (HandshakeOS.collect_hypothesis py_float float_repr json_loads).
Local Abbreviation persist_hypothesis := (HandshakeOS.persist_hypothesis json_dumps).
Local Abbreviation capture_hypotheses :=
  (HandshakeOS.capture_hypotheses max_str_digits py_float float_repr json_loads json_dumps).
Local Abbreviation capture_test := (HandshakeOS.capture_test max_str_digits).
Local Abbreviation capture_outcome := (HandshakeOS.capture_outcome json_loads json_dumps).
Local Abbreviation capture_pattern_seed :=
  (HandshakeOS.capture_pattern_seed json_loads json_dumps).
Local Abbreviation capture_body :=
  (HandshakeOS.capture_body max_str_digits py_float float_repr json_loads json_dumps).
Local Abbreviation capture :=
  (HandshakeOS.capture max_str_digits py_float float_repr json_loads json_dumps).

Lemma nonempty_false s : nonempty s = false -> s = EmptyString.
Proof. destruct s; [reflexivity | discriminate]. Qed.

(** X16.  A text prompt that must not be empty returns the first line
    that is not blank, without the white space around it: the value is not
    empty and has no white space at either end.  Each blank line before it
    was answered by the request for a value, and no line after it was
    read.  When every line left is blank, the prompt ends in [EOFError]. *)
Theorem prompt_text_returns_a_stripped_line label :
  (forall lines v rest evs,
      HandshakeOS._prompt_text label false lines = (Ok v, rest, evs) ->
      text_ok v
      /\ exists blank line,
           lines = blank ++ line :: rest
           /\ v = strip line
           /\ Forall (fun l => strip l = EmptyString) blank
           /\ evs = rejections (label ++ ": ") (map blank_round blank)
                    ++ [Prompt (label ++ ": ")%string; Read line])
  /\ (forall lines,
         Forall (fun l => strip l = EmptyString) lines ->
         HandshakeOS._prompt_text label false lines
         = (Raise EOFError, [],
            rejections (label ++ ": ") (map blank_round lines)
            ++ [Prompt (label ++ ": ")%string])).
Proof.
  split.
  - intros lines v rest evs H. unfold HandshakeOS._prompt_text in H.
    apply retry_rounds in H. destruct H as (rounds & line & -> & Hs & Hb & ->).
    rewrite orb_false_r in Hb.
    destruct (nonempty (strip line)) eqn:N; [| discriminate].
    inversion Hb; subst; clear Hb.
    split; [split; [exact N | apply strip_twice] |].
    exists (map fst rounds), line.
    assert (R : map blank_round (map fst rounds) = rounds
                /\ Forall (fun l => strip l = EmptyString) (map fst rounds)).
    { clear N. induction Hs as [| [l msg] rounds Hl _ IH]; [split; constructor |].
      simpl in Hl. rewrite orb_false_r in Hl.
      destruct (nonempty (strip l)) eqn:E; [discriminate |].
      inversion Hl; subst. destruct IH as (IH1 & IH2). simpl.
      split; [unfold blank_round at 1; now rewrite IH1 |].
      constructor; [now apply nonempty_false | exact IH2]. }
    destruct R as (R1 & R2). rewrite R1. auto.
  - intros lines Hl. unfold HandshakeOS._prompt_text.
    replace lines with (map fst (map blank_round lines)) at 1
      by (rewrite map_map; apply map_id).
    apply retry_eof. apply Forall_forall. intros lm Hlm.
    apply in_map_iff in Hlm. destruct Hlm as (l & <- & Hin).
    simpl. rewrite (proj1 (Forall_forall _ _) Hl l Hin). reflexivity.
Qed.

(** X25.  The choice prompt and the number prompt return on the first
    line they can take, and read no line after it.  The choice is the line
    without the white space around it and in lower case, and is one of the
    options; every line before it was not, and was answered with the list
    of options.  The number is what [float] makes of the line without the
    white space around it, and lies between the bounds; every line before
    it was no number, and was answered with the request for a number, or
    was a number out of the bounds (a NaN is one), and was answered with
    the bounds. *)
Theorem choice_and_number_prompts_take_the_first_fit :
  (forall label options lines v rest evs,
      HandshakeOS._prompt_choice label options lines = (Ok v, rest, evs) ->
      let prompt := (label ++ " (" ++ String.concat "/" options ++ "): ")%string in
      let again := ("Please choose one of: " ++ String.concat "/" options ++ ".")%string in
      In v options
      /\ exists skipped line,
           lines = skipped ++ line :: rest
           /\ v = lower (strip line)
           /\ Forall (fun l => ~ In (lower (strip l)) options) skipped
           /\ evs = rejections prompt (map (fun l => (l, again)) skipped)
                    ++ [Prompt prompt; Read line])
  /\ (forall label lo hi lines v rest evs,
         _prompt_float label lo hi lines = (Ok v, rest, evs) ->
         let prompt :=
           (label ++ " (" ++ float_repr lo ++ "-" ++ float_repr hi ++ "): ")%string in
         let bounds :=
           ("Value must be between " ++ float_repr lo ++ " and "
            ++ float_repr hi ++ ".")%string in
         float_le lo v = true /\ float_le v hi = true
         /\ exists rounds line,
              lines = map fst rounds ++ line :: rest
              /\ py_float (strip line) = Some v
              /\ Forall (fun lm =>
                           (py_float (strip (fst lm)) = None
                            /\ snd lm = "Please enter a number."%string)
                           \/ (exists x, py_float (strip (fst lm)) = Some x
                                         /\ float_le lo x && float_le x hi = false
                                         /\ snd lm = bounds))
                   rounds
              /\ evs = rejections prompt rounds ++ [Prompt prompt; Read line]).
Proof.
  split.
  - intros label options lines v rest evs H prompt again.
    unfold HandshakeOS._prompt_choice in H. cbv zeta in H.
    apply retry_rounds in H. destruct H as (rounds & line & -> & Hs & Hb & ->).
    destruct (str_in (lower (strip line)) options) eqn:E; [| discriminate].
    inversion Hb; subst; clear Hb.
    apply CaptureFacts.str_in_In in E. split; [exact E |].
    exists (map fst rounds), line.
    assert (R : map (fun l => (l, again)) (map fst rounds) = rounds
                /\ Forall (fun l => ~ In (lower (strip l)) options) (map fst rounds)).
    { clear E. induction Hs as [| [l msg] rounds Hl _ IH]; [split; constructor |].
      simpl in Hl. destruct (str_in (lower (strip l)) options) eqn:E; [discriminate |].
      inversion Hl; subst. destruct IH as (IH1 & IH2). simpl.
      split; [now rewrite IH1 |].
      constructor; [| exact IH2]. intros C. apply CaptureFacts.str_in_In in C. congruence. }
    destruct R as (R1 & R2). fold prompt. rewrite R1. auto.
  - intros label lo hi lines v rest evs H prompt bounds.
    unfold HandshakeOS._prompt_float in H.
    apply retry_rounds in H. destruct H as (rounds & line & -> & Hs & Hb & ->).
    destruct (py_float (strip line)) as [x |] eqn:F; [| discriminate].
    destruct (float_le lo x && float_le x hi) eqn:E; [| discriminate].
    inversion Hb; subst; clear Hb. apply andb_true_iff in E. destruct E as (E1 & E2).
    split; [exact E1 |]. split; [exact E2 |].
    exists rounds, line. split; [reflexivity |]. split; [exact F |].
    split; [| reflexivity].
    eapply Forall_impl; [| exact Hs]. intros [l msg] Hl. simpl in *.
    destruct (py_float (strip l)) as [y |]; [| inversion Hl; now left].
    destruct (float_le lo y && float_le y hi) eqn:B; [discriminate |].
    inversion Hl. right. exists y. auto.
Qed.


(** *** The parsers *)

Lemma stripped_nonempty_clean items :
  Forall text_ok (HandshakeOS.stripped_nonempty items).
Proof.
  unfold HandshakeOS.stripped_nonempty. apply Forall_forall. intros s Hs.
  apply filter_In in Hs. destruct Hs as (Hin & Hn).
  apply in_map_iff in Hin. destruct Hin as (x & <- & _).
  split; [exact Hn | apply strip_twice].
Qed.

(** X17.  The evidence references that [_parse_evidence_refs] returns are
    never empty and never padded: each is a piece of the input without the
    white space around it.  Empty input gives no reference; input that does
    not open with a bracket is cut at the commas, and pieces that are blank
    are dropped; input that opens with a bracket is returned only when it
    is a JSON list of strings. *)
Theorem evidence_refs_are_clean raw refs :
  _parse_evidence_refs raw = Ok refs ->
  Forall text_ok refs
  /\ (raw = EmptyString -> refs = [])
  /\ (raw <> EmptyString -> startswith (lstrip raw) "[" = false ->
      refs = filter nonempty (map strip (split "," raw)))
  /\ (raw <> EmptyString -> startswith (lstrip raw) "[" = true ->
      exists items,
        json_loads raw = Ok (JList (map JStr items))
        /\ refs = filter nonempty (map strip items)).
Proof.
  unfold HandshakeOS._parse_evidence_refs.
  destruct (nonempty raw) eqn:N; cbn [negb].
  - assert (Hne : raw <> EmptyString) by (intros ->; discriminate).
    destruct (startswith (lstrip raw) "[") eqn:S.
    + destruct (json_loads raw) as [data | e];
        [| destruct (is_JSONDecodeError e); discriminate].
      destruct data as [| | | | | items |]; try discriminate.
      destruct (HandshakeOS.all_str items) as [strs |] eqn:A; [| discriminate].
      intros H. inversion H; subst; clear H.
      split; [apply stripped_nonempty_clean |].
      split; [contradiction |]. split; [discriminate |].
      intros _ _. exists strs. split; [| reflexivity]. f_equal. f_equal.
      revert strs A. induction items as [| x items IH]; intros strs A; simpl in A.
      * now inversion A.
      * destruct x; try discriminate.
        destruct (HandshakeOS.all_str items) as [l |]; [| discriminate].
        inversion A; subst. simpl. now rewrite <- (IH l eq_refl).
    + intros H. inversion H; subst; clear H.
      split; [apply stripped_nonempty_clean |].
      split; [contradiction |]. split; [reflexivity | discriminate].
  - apply nonempty_false in N. subst raw.
    intros H. inversion H; subst. split; [constructor |].
    split; [reflexivity |]. split; intros C; now contradiction C.
Qed.

Lemma clean_entry_from entry c :
  HandshakeOS.clean_entry entry = Ok c -> cleaned_from entry c.
Proof.
  destruct entry as [| | | | | | d]; try discriminate. simpl.
  destruct (dict_get "domain" d) as [| | | | s | |] eqn:D; try discriminate.
  destruct (nonempty s) eqn:N; [| discriminate].
  destruct (HandshakeOS.is_int_or_float (dict_get "weight" d)) eqn:W; [| discriminate].
  destruct (HandshakeOS.float_of_number (dict_get "weight" d)) as [w |] eqn:F;
    [| discriminate].
  simpl. intros H. inversion H; subst. exists d, s, w. auto 10.
Qed.

Lemma clean_entries_from data acc cleaned :
  HandshakeOS.clean_entries data acc = Ok cleaned ->
  exists new, cleaned = acc ++ new /\ Forall2 cleaned_from data new.
Proof.
  revert acc cleaned. induction data as [| entry data IH]; intros acc cleaned H; simpl in H.
  - inversion H; subst. exists []. rewrite app_nil_r. split; [reflexivity | constructor].
  - destruct (HandshakeOS.clean_entry entry) as [c |] eqn:C; [| discriminate].
    simpl in H. apply IH in H. destruct H as (new & -> & F).
    exists (c :: new). rewrite <- app_assoc. split; [reflexivity |].
    constructor; [now apply clean_entry_from | exact F].
Qed.

(** X18.  The mixture vector that [_parse_mixture_vector] returns has one
    entry for each entry of the JSON list typed, in the same order; each is
    an object with just a [domain], the non-empty string of the entry, and a
    [weight], the number of the entry as a [float]; other keys are dropped.
    Empty input gives the empty vector. *)
Theorem mixture_vector_is_cleaned raw cleaned :
  _parse_mixture_vector raw = Ok cleaned ->
  (raw = EmptyString /\ cleaned = [])
  \/ (raw <> EmptyString
      /\ exists entries,
           json_loads raw = Ok (JList entries)
           /\ Forall2 cleaned_from entries cleaned).
Proof.
  unfold HandshakeOS._parse_mixture_vector.
  destruct (nonempty raw) eqn:N; cbn [negb].
  - assert (Hne : raw <> EmptyString) by (intros ->; discriminate).
    destruct (json_loads raw) as [data | e];
      [| destruct (is_JSONDecodeError e); discriminate].
    destruct data as [| | | | | entries |]; try discriminate.
    intros H. apply clean_entries_from in H. destruct H as (new & -> & F).
    right. split; [exact Hne |]. exists entries. auto.
  - apply nonempty_false in N. intros H. inversion H. now left.
Qed.

(** *** What is stored *)

Lemma grows_valid_refl w : grows_valid w w.
Proof. exists []. rewrite app_nil_r. split; [reflexivity | constructor]. Qed.

Lemma grows_valid_trans w1 w2 w3 :
  grows_valid w1 w2 -> grows_valid w2 w3 -> grows_valid w1 w3.
Proof.
  intros (e1 & T1 & F1) (e2 & T2 & F2). exists (e1 ++ e2).
  split; [now rewrite T2, T1, app_assoc | now apply Forall_app].
Qed.

Lemma yields_ret {A : Type} (a : A) (Q : A -> Prop) : Q a -> yields (ret a) Q.
Proof.
  intros H w r w' E. inversion E; subst.
  split; [apply grows_valid_refl |]. intros b B. now inversion B; subst.
Qed.

Lemma yields_bind {A B : Type} (m : M A) (k : A -> M B) (P : A -> Prop) (Q : B -> Prop) :
  yields m P -> (forall a, P a -> yields (k a) Q) -> yields (bind m k) Q.
Proof.
  intros Hm Hk w r w'. unfold bind.
  destruct (m w) as [[a | e] w1] eqn:E; intros H.
  - destruct (Hm _ _ _ E) as (G1 & Pa).
    destruct (Hk a (Pa a eq_refl) _ _ _ H) as (G2 & Qb).
    split; [eapply grows_valid_trans; eauto | exact Qb].
  - inversion H; subst. destruct (Hm _ _ _ E) as (G1 & _).
    split; [exact G1 | discriminate].
Qed.

Lemma yields_weaken {A : Type} (m : M A) (P Q : A -> Prop) :
  yields m P -> (forall a, P a -> Q a) -> yields m Q.
Proof.
  intros Hm HPQ w r w' E. destruct (Hm _ _ _ E) as (G & Pa).
  split; [exact G | intros a Ha; apply HPQ; now apply Pa].
Qed.

Lemma console_events_valid (evs : list console_event) :
  Forall valid_event (map Console evs).
Proof. apply Forall_forall. intros e He. apply in_map_iff in He. now destruct He as (x & <- & _). Qed.

Lemma yields_console {A : Type} (f : console_fun A) (Q : A -> Prop) :
  (forall lines a rest evs, f lines = (Ok a, rest, evs) -> Q a) ->
  yields (console f) Q.
Proof.
  intros H w r w'. unfold console.
  destruct (f (stdin w)) as [[r0 rest] evs] eqn:E. intros X. inversion X; subst.
  split.
  - exists (map Console evs). split; [reflexivity | apply console_events_valid].
  - intros a ->. eapply H; eauto.
Qed.

Lemma yields_print s : yields (print s) (fun _ => True).
Proof.
  intros w r w' E. unfold print, emit in E. inversion E; subst.
  split; [| auto]. exists [Console (Print s)].
  split; [reflexivity | repeat constructor].
Qed.

Lemma yields_lift {A : Type} (x : result A) : yields (HandshakeOS.lift x) (fun _ => True).
Proof.
  intros w r w' E. inversion E; subst. split; [apply grows_valid_refl | auto].
Qed.

Lemma yields_insert r : valid_row r -> yields (execute_insert r) (fun _ => True).
Proof.
  intros V w res w'. unfold execute_insert.
  destruct (insert_row _ _ r) as [[id d'] | e]; intros H; inversion H; subst;
    (split; [| auto]).
  - exists [Store (Insert r id)]. split; [reflexivity | repeat constructor; exact V].
  - exists []. simpl. rewrite app_nil_r. split; [reflexivity | constructor].
Qed.

Lemma yields_for_each {A S : Type} (l : list A) (body : A -> S -> M S)
    (P : A -> Prop) (Inv : S -> Prop) :
  (forall x acc, P x -> Inv acc -> yields (body x acc) Inv) ->
  Forall P l -> forall acc, Inv acc -> yields (for_each l body acc) Inv.
Proof.
  intros Hb Hl. induction Hl as [| x l Px _ IH]; intros acc Ha; simpl.
  - now apply yields_ret.
  - eapply yields_bind; [apply Hb; eauto | exact IH].
Qed.

(** What the prompts of a field return. *)
Lemma yields_text label :
  yields (console (HandshakeOS._prompt_text label false)) text_ok.
Proof.
  apply yields_console. intros lines a rest evs H.
  unfold HandshakeOS._prompt_text in H.
  apply retry_ok in H. destruct H as (_ & line & _ & _ & Hb & _).
  rewrite orb_false_r in Hb.
  destruct (nonempty (strip line)) eqn:N; [| discriminate].
  inversion Hb; subst. split; [exact N | apply strip_twice].
Qed.

Lemma yields_unit label :
  yields (console (_prompt_float label float_zero float_one)) in_unit.
Proof.
  apply yields_console. intros lines a rest evs H.
  unfold HandshakeOS._prompt_float in H.
  apply retry_ok in H. destruct H as (_ & line & _ & _ & Hb & _).
  destruct (py_float (strip line)) as [x |]; [| discriminate].
  destruct (float_le float_zero x && float_le x float_one) eqn:E; [| discriminate].
  inversion Hb; subst. apply andb_true_iff in E. exact E.
Qed.

Lemma yields_choice label options :
  yields (console (HandshakeOS._prompt_choice label options)) (fun v => In v options).
Proof.
  apply yields_console. intros lines a rest evs H.
  unfold HandshakeOS._prompt_choice in H.
  apply retry_ok in H. destruct H as (_ & line & _ & _ & Hb & _).
  destruct (str_in (lower (strip line)) options) eqn:E; [| discriminate].
  inversion Hb; subst. unfold str_in in E. apply existsb_exists in E.
  destruct E as (x & Hx & E). apply String.eqb_eq in E. now subst.
Qed.

Lemma yields_any {A : Type} (f : console_fun A) : yields (console f) (fun _ => True).
Proof. apply yields_console. auto. Qed.

Ltac field Q := eapply yields_bind; [apply Q | cbv beta; intros ? ?].

Lemma capture_intent_valid : yields capture_intent (fun _ => True).
Proof.
  unfold HandshakeOS.capture_intent.
  do 3 field yields_text. field yields_unit.
  apply yields_insert. simpl. auto.
Qed.

Lemma capture_observation_valid i : yields (capture_observation i) (fun _ => True).
Proof.
  unfold HandshakeOS.capture_observation.
  field yields_text. field (@yields_any (list json)).
  apply yields_insert. simpl. auto.
Qed.

(** A collected hypothesis whose row will be valid. *)
Local Abbreviation valid_hypothesis :=
  (fun h => forall o, valid_row (HypothesisRow (hypothesis_row_of json_dumps o h))).

Lemma collect_hypothesis_valid i acc :
  Forall valid_hypothesis acc ->
  yields (collect_hypothesis i acc) (Forall valid_hypothesis).
Proof.
  intros Ha. unfold HandshakeOS.collect_hypothesis. cbv zeta.
  field yields_choice. field yields_unit. field yields_text.
  field (@yields_any (list json)).
  apply yields_ret. apply Forall_app. split; [exact Ha |].
  constructor; [| constructor]. intros o. simpl. auto.
Qed.

Lemma persist_hypothesis_valid o h acc :
  valid_hypothesis h -> yields (persist_hypothesis o h acc) (fun _ => True).
Proof.
  intros V. unfold HandshakeOS.persist_hypothesis.
  eapply yields_bind; [apply yields_insert; exact (V o) | intros id _].
  now apply yields_ret.
Qed.

Lemma capture_hypotheses_valid o : yields (capture_hypotheses o) (fun _ => True).
Proof.
  unfold HandshakeOS.capture_hypotheses.
  field (@yields_any Z).
  eapply yields_bind.
  { apply yields_for_each with (P := fun _ => True) (Inv := Forall valid_hypothesis).
    - intros x acc _ Ha. now apply collect_hypothesis_valid.
    - apply Forall_forall. auto.
    - constructor. }
  cbv beta. intros hyps Hh.
  eapply yields_bind.
  { apply yields_for_each with (P := valid_hypothesis) (Inv := fun _ => True).
    - intros x acc Hx _. now apply persist_hypothesis_valid.
    - exact Hh.
    - exact I. }
  cbv beta. intros ids _.
  field yields_print.
  eapply yields_bind.
  { apply yields_for_each with (P := fun _ => True) (Inv := fun _ => True).
    - intros [idx id] acc _ _. apply yields_print.
    - apply Forall_forall. auto.
    - exact I. }
  intros u _. now apply yields_ret.
Qed.

Lemma capture_test_valid ids : yields (capture_test ids) (fun _ => True).
Proof.
  unfold HandshakeOS.capture_test.
  field (@yields_any Z). do 3 field yields_text. field (@yields_lift Z).
  cbv zeta. eapply yields_bind; [apply yields_insert; simpl; auto | intros id _].
  now apply yields_ret.
Qed.

Lemma capture_outcome_valid o t id : yields (capture_outcome o t id) (fun _ => True).
Proof.
  unfold HandshakeOS.capture_outcome.
  field yields_print. field yields_text. field (@yields_any (list string)).
  cbv zeta. apply yields_insert. simpl. auto.
Qed.

Lemma capture_pattern_seed_valid o : yields (capture_pattern_seed o) (fun _ => True).
Proof.
  unfold HandshakeOS.capture_pattern_seed.
  field yields_print. do 4 field yields_text.
  field (@yields_any (list json)). field (@yields_any (list string)).
  cbv zeta. apply yields_insert. simpl. auto.
Qed.

Lemma capture_body_valid : yields capture_body (fun _ => True).
Proof.
  unfold HandshakeOS.capture_body.
  eapply yields_bind with (P := fun _ => True).
  { intros w r w' H. unfold HandshakeOS._ensure_schema, bind, pragma_foreign_keys_on,
      executescript_create_tables in H. inversion H; subst. cbn [trace].
    split; [| auto]. exists [Store PragmaForeignKeys; Store CreateTables].
    split; [now rewrite <- app_assoc | repeat constructor]. }
  intros _ _.
  eapply yields_bind; [apply capture_intent_valid | intros i _].
  eapply yields_bind; [apply capture_observation_valid | intros o _].
  eapply yields_bind; [apply capture_hypotheses_valid | intros hs _].
  eapply yields_bind; [apply capture_test_valid | intros [ti t] _].
  eapply yields_bind; [apply capture_outcome_valid | intros oc _].
  eapply yields_bind; [apply capture_pattern_seed_valid | intros p _].
  eapply yields_bind with (P := fun _ => True).
  { intros w r w' H. unfold commit in H. inversion H; subst. cbn [trace].
    split; [| auto]. exists [Store Commit]. split; [reflexivity | repeat constructor]. }
  intros _ _. now apply yields_ret.
Qed.

Lemma inserts_valid evs :
  Forall valid_event evs ->
  forall r id, In (r, id) (inserts_of evs) -> valid_row r.
Proof.
  induction 1 as [| e evs He _ IH]; intros r id Hin; [contradiction |].
  destruct e as [c | s]; simpl in Hin; [eauto |].
  destruct s; simpl in Hin; eauto.
  destruct Hin as [Hin | Hin]; [| eauto]. inversion Hin; subst. exact He.
Qed.

Lemma written_In ins t q : In q (written ins t) -> In (snd q, fst q) ins.
Proof.
  induction ins as [| [r id] ins IH]; simpl; [auto |].
  destruct (table_name_eqb (table_of r) t); simpl; intros H.
  - destruct H as [<- | H]; [now left | right; auto].
  - right; auto.
Qed.

(** X19.  What a session writes is what the prompts let through.  In
    every session, completed or not, each row inserted has texts that are
    not empty and have no white space at either end, a confidence or
    probability from 0.0 to 1.0 (no NaN), and for a hypothesis one of the
    four model types.  After a completed session every row of the file was
    there before or is such a row. *)
Theorem stored_fields_are_valid w r w' :
  capture w = (r, w') ->
  (exists evs,
      trace w' = trace w ++ evs
      /\ forall row id, In (row, id) (inserts_of evs) -> valid_row row)
  /\ (forall ids, r = Ok ids ->
        forall t q, In q (all_rows (disk w') t) ->
                    In q (all_rows (disk w) t) \/ valid_row (snd q)).
Proof.
  intros H.
  assert (G : exists evs, trace w' = trace w ++ evs /\ Forall valid_event evs).
  { unfold HandshakeOS.capture, finally_close in H.
    destruct (capture_body (connect w)) as [r0 wz] eqn:B.
    inversion H; subst; clear H.
    destruct (capture_body_valid _ _ _ B) as ((evs & T & F) & _).
    exists (evs ++ [Store Close]). cbn [trace close connect] in *.
    split; [now rewrite T, app_assoc |].
    apply Forall_app. split; [exact F | repeat constructor]. }
  destruct G as (evs & T & F).
  split; [exists evs; split; [exact T | now apply inserts_valid] |].
  intros ids ->. apply CaptureFacts.capture_ok in H.
  destruct H as (s & T' & D & _).
  rewrite T in T'. apply app_inv_head in T'. subst evs.
  intros t q Hq. rewrite D in Hq.
  rewrite all_rows_replay in Hq by (intros t'; apply present_create_tables).
  rewrite all_rows_create_tables in Hq.
  apply in_app_or in Hq. destruct Hq as [Hq | Hq]; [now left | right].
  apply written_In in Hq. eapply inserts_valid; eauto.
Qed.


(** X20.  A completed session only appends.  It leaves every row that
    was in the file where it was, and adds, at the end of each table, one
    intent, one observation, one hypothesis for each identifier of
    [hypothesis_ids] in that order, one test, one outcome and one pattern
    seed; the identifiers it returns are those of the rows added. *)
Theorem completed_session_only_appends w ids w' :
  capture w = (Ok ids, w') ->
  exists i o hs t c p pid,
    all_rows (disk w') Intents
    = all_rows (disk w) Intents ++ [(HandshakeOS.intent_id ids, IntentRow i)]
    /\ all_rows (disk w') Observations
       = all_rows (disk w) Observations
         ++ [(HandshakeOS.observation_id ids, ObservationRow o)]
    /\ all_rows (disk w') Hypotheses
       = all_rows (disk w) Hypotheses
         ++ map (fun q => (snd q, HypothesisRow (fst q)))
              (combine hs (HandshakeOS.hypothesis_ids ids))
    /\ List.length hs = List.length (HandshakeOS.hypothesis_ids ids)
    /\ all_rows (disk w') Tests
       = all_rows (disk w) Tests ++ [(HandshakeOS.test_id ids, TestRow t)]
    /\ all_rows (disk w') Outcomes
       = all_rows (disk w) Outcomes ++ [(HandshakeOS.outcome_id ids, OutcomeRow c)]
    /\ all_rows (disk w') PatternSeeds
       = all_rows (disk w) PatternSeeds ++ [(pid, PatternSeedRow p)].
Proof.
  intros H. apply CaptureFacts.capture_ok in H.
  destruct H as (s & _ & D & _ & Hok & _).
  exists (s_intent s), (s_observation s), (s_hypotheses s), (s_test s),
    (s_outcome s), (s_seed s), (s_seed_id s).
  rewrite D.
  rewrite !all_rows_replay by (intros t'; apply present_create_tables).
  rewrite !all_rows_create_tables, CaptureFacts.session_inserts.
  cbn [written table_of table_name_eqb]. rewrite !CaptureFacts.written_wrapped.
  cbn [written table_of table_name_eqb app]. rewrite !app_nil_r.
  repeat (split; [reflexivity |]).
  split; [exact (ok_rows _ _ _ _ _ Hok) |]. repeat split.
Qed.

(** *** The identifiers of the hypotheses *)

Lemma max_rowid_nonneg {R : Type} (l : list (Z * R)) : 0 <= max_rowid l.
Proof. induction l as [| q l IH]; simpl; lia. Qed.

Lemma max_rowid_app {R : Type} (l l' : list (Z * R)) :
  max_rowid (l ++ l') = Z.max (max_rowid l) (max_rowid l').
Proof.
  induction l as [| q l IH]; simpl.
  - pose proof (max_rowid_nonneg l'). lia.
  - rewrite IH. lia.
Qed.

Lemma next_rowid_insert {R : Type} (t : option (table R)) name (r : R) id t' :
  table_insert t name r = Ok (id, t') ->
  id = next_rowid t /\ next_rowid (Some t') = id + 1.
Proof.
  unfold table_insert, allocate. destruct t as [t |]; [| discriminate].
  destruct (rowid_max <=? _); [discriminate |].
  intros H. inversion H; subst; clear H. split; [reflexivity |].
  unfold next_rowid. cbn [sequence rows]. rewrite max_rowid_app. simpl.
  pose proof (max_rowid_nonneg (rows t)). lia.
Qed.

Lemma insert_hypothesis_next fk d x id d' :
  insert_row fk d (HypothesisRow x) = Ok (id, d') ->
  id = next_rowid (hypotheses d) /\ next_rowid (hypotheses d') = id + 1.
Proof.
  simpl. unfold and_then.
  destruct (table_insert (hypotheses d) "hypotheses" x) as [[id0 t'] |] eqn:T;
    [| discriminate].
  destruct (references fk (observations d) "observations" (h_observation_id x));
    [| discriminate].
  intros H. inversion H; subst; clear H. cbn [hypotheses].
  eapply next_rowid_insert; eauto.
Qed.

Lemma counting_next first n : counting first (S n) = first :: counting (first + 1) n.
Proof.
  unfold counting. simpl. rewrite Z.add_0_r. f_equal.
  rewrite <- seq_shift, map_map. apply map_ext. intros k. lia.
Qed.

Lemma persist_loop_ids o hyps acc w ids w' :
  for_each hyps (persist_hypothesis o) acc w = (Ok ids, w') ->
  ids = acc ++ counting (next_rowid (hypotheses (view w))) (List.length hyps).
Proof.
  revert acc w. induction hyps as [| h hyps IH]; intros acc w H; simpl in H.
  - inversion H; subst. now rewrite app_nil_r.
  - apply bind_ok in H. destruct H as (acc1 & w1 & Hp & H).
    unfold HandshakeOS.persist_hypothesis in Hp.
    apply bind_ok in Hp. destruct Hp as (id & w2 & Hi & Hr).
    inversion Hr; subst; clear Hr.
    apply execute_insert_ok in Hi. destruct Hi as (Hi & _).
    apply insert_hypothesis_next in Hi. destruct Hi as (-> & Hn).
    apply IH in H. rewrite H, Hn. cbn [List.length].
    now rewrite counting_next, <- app_assoc.
Qed.

Lemma hypotheses_put_row d r id :
  match r with HypothesisRow _ => False | _ => True end ->
  hypotheses (put_row d r id) = hypotheses d.
Proof. destruct r; simpl; intros H; (reflexivity || contradiction). Qed.

Lemma one_insert_hypotheses r id cevs w w' :
  one_insert r id cevs w w' ->
  match r with HypothesisRow _ => False | _ => True end ->
  hypotheses (view w') = hypotheses (view w).
Proof.
  intros ((_ & V & _) & _) N. rewrite V, inserts_of_app, inserts_of_console.
  simpl. unfold replay. simpl. now apply hypotheses_put_row.
Qed.

(** X21.  The hypotheses of a session get consecutive identifiers: the
    list [hypothesis_ids] that a completed session returns counts up by one
    from the identifier that was next in the table when the session began
    (1 on a new file). *)
Theorem hypothesis_ids_are_consecutive w ids w' :
  capture w = (Ok ids, w') ->
  HandshakeOS.hypothesis_ids ids
  = counting (next_rowid (hypotheses (disk w)))
      (List.length (HandshakeOS.hypothesis_ids ids)).
Proof.
  unfold HandshakeOS.capture, finally_close.
  destruct (capture_body (connect w)) as [r wz] eqn:B. intros H.
  inversion H; subst; clear H.
  unfold HandshakeOS.capture_body in B.
  apply bind_ok in B. destruct B as ([] & w1 & Hs & B).
  rewrite CaptureFacts.ensure_schema_run in Hs. inversion Hs as [Hw1]; clear Hs.
  apply bind_ok in B. destruct B as (i & w2 & H1 & B).
  apply bind_ok in B. destruct B as (o & w3 & H2 & B).
  apply bind_ok in B. destruct B as (hs & w4 & H3 & B).
  apply bind_ok in B. destruct B as ([ti t] & w5 & H4 & B).
  apply bind_ok in B. destruct B as (oc & w6 & H5 & B).
  apply bind_ok in B. destruct B as (p & w7 & H6 & B).
  apply bind_ok in B. destruct B as ([] & w8 & H7 & B).
  inversion B; subst; clear B. cbn [HandshakeOS.hypothesis_ids].
  apply CaptureFacts.capture_intent_ok in H1. destruct H1 as (c1 & r1 & H1).
  apply one_insert_hypotheses in H1; [| exact I].
  apply CaptureFacts.capture_observation_ok in H2. destruct H2 as (c2 & r2 & H2 & _).
  apply one_insert_hypotheses in H2; [| exact I].
  apply CaptureFacts.capture_hypotheses_phases in H3.
  destruct H3 as (hyps & wc & wp & asked & _ & Hc & Hp & He & _).
  destruct Hc as (_ & Vc & _). rewrite inserts_of_console in Vc.
  unfold replay in Vc. simpl in Vc.
  pose proof (persist_loop_ids _ _ _ _ _ _ Hp) as E. simpl in E.
  rewrite Vc, H2, H1 in E. cbn [view txn disk hypotheses create_tables] in E.
  assert (L : List.length hs = List.length hyps).
  { rewrite E. unfold counting. now rewrite length_map, length_seq. }
  rewrite L. rewrite E at 1. f_equal.
  destruct (hypotheses (disk w)); reflexivity.
Qed.


(** *** How a session can end early *)

Lemma retry_raise {A : Type} prompt (body : string -> step A) lines e rest evs :
  retry prompt body lines = (Raise e, rest, evs) ->
  e = EOFError \/ exists line, body line = Throw e.
Proof.
  revert rest evs. induction lines as [| l lines IH]; intros rest evs H; simpl in H.
  - inversion H. now left.
  - destruct (body l) as [a | msg | e0] eqn:B.
    + discriminate H.
    + destruct (retry prompt body lines) as [[r rest'] evs'] eqn:R.
      inversion H; subst. eapply IH; eauto.
    + inversion H; subst. right. eauto.
Qed.

Local Abbreviation ends_by := (Fields.ends_by json_loads).

Lemma prompt_text_raise label allow lines e rest evs :
  HandshakeOS._prompt_text label allow lines = (Raise e, rest, evs) -> ends_by e.
Proof.
  unfold HandshakeOS._prompt_text. intros H. apply retry_raise in H.
  destruct H as [-> | (line & H)]; [now left |].
  destruct (nonempty (strip line) || allow); discriminate H.
Qed.

Lemma prompt_float_raise label lo hi lines e rest evs :
  _prompt_float label lo hi lines = (Raise e, rest, evs) -> ends_by e.
Proof.
  unfold HandshakeOS._prompt_float. intros H. apply retry_raise in H.
  destruct H as [-> | (line & H)]; [now left |].
  destruct (py_float (strip line)) as [x |]; [| discriminate H].
  destruct (float_le lo x && float_le x hi); discriminate H.
Qed.

Lemma prompt_int_raise label lo hi lines e rest evs :
  HandshakeOS._prompt_int max_str_digits label lo hi lines = (Raise e, rest, evs) ->
  ends_by e.
Proof.
  unfold HandshakeOS._prompt_int. intros H. apply retry_raise in H.
  destruct H as [-> | (line & H)]; [now left |].
  destruct (py_int max_str_digits (strip line)) as [x |]; [| discriminate H].
  destruct ((lo <=? x) && (x <=? hi)); discriminate H.
Qed.

Lemma prompt_choice_raise label options lines e rest evs :
  HandshakeOS._prompt_choice label options lines = (Raise e, rest, evs) -> ends_by e.
Proof.
  unfold HandshakeOS._prompt_choice. intros H. apply retry_raise in H.
  destruct H as [-> | (line & H)]; [now left |].
  destruct (str_in (lower (strip line)) options); discriminate H.
Qed.

Lemma or_reprompt_throw {A : Type} (r : result A) e :
  HandshakeOS.or_reprompt r = Throw e -> r = Raise e /\ as_ValueError e = None.
Proof.
  destruct r as [a | e0]; simpl; [discriminate |].
  destruct (as_ValueError e0) eqn:V; [discriminate |].
  intros H. inversion H; subst. auto.
Qed.

Lemma float_of_int_raise n e :
  float_of_int n = Raise e -> e = OverflowError "int too large to convert to float".
Proof.
  unfold float_of_int. destruct (binary_normalize prec emax n 0 false);
    intros H; inversion H; reflexivity.
Qed.

Lemma clean_entry_raise entry e :
  HandshakeOS.clean_entry entry = Raise e ->
  as_ValueError e = None ->
  e = OverflowError "int too large to convert to float".
Proof.
  intros H V.
  assert (N : forall m, e <> ValueError m) by (intros m ->; discriminate V).
  destruct entry as [| | | | | | d]; simpl in H;
    try (inversion H; subst; now destruct (N _ eq_refl)).
  destruct (dict_get "domain" d) as [| | | | s | |];
    try (inversion H; subst; now destruct (N _ eq_refl)).
  destruct (nonempty s); [| inversion H; subst; now destruct (N _ eq_refl)].
  destruct (dict_get "weight" d) as [| b | n | x | | |]; simpl in H;
    try (inversion H; subst; now destruct (N _ eq_refl)).
  - destruct (float_of_int (if b then 1 else 0)) eqn:F; [discriminate |].
    inversion H; subst. eapply float_of_int_raise; eauto.
  - destruct (float_of_int n) eqn:F; [discriminate |].
    inversion H; subst. eapply float_of_int_raise; eauto.
Qed.

Lemma clean_entries_raise data acc e :
  HandshakeOS.clean_entries data acc = Raise e ->
  as_ValueError e = None ->
  e = OverflowError "int too large to convert to float".
Proof.
  revert acc. induction data as [| entry data IH]; intros acc H V; simpl in H;
    [discriminate |].
  destruct (HandshakeOS.clean_entry entry) as [c |] eqn:C; simpl in H.
  - eapply IH; eauto.
  - inversion H; subst. eapply clean_entry_raise; eauto.
Qed.

Lemma prompt_mixture_raise label lines e rest evs :
  HandshakeOS._prompt_mixture_vector json_loads label lines = (Raise e, rest, evs) ->
  ends_by e.
Proof.
  unfold HandshakeOS._prompt_mixture_vector. intros H. apply retry_raise in H.
  destruct H as [-> | (line & H)]; [now left |].
  apply or_reprompt_throw in H. destruct H as (H & V).
  unfold HandshakeOS._parse_mixture_vector in H.
  destruct (negb (nonempty (strip line))); [discriminate |].
  destruct (json_loads (strip line)) as [data | e0] eqn:J.
  - destruct data; try (inversion H; subst; discriminate V).
    right. right. left. eapply clean_entries_raise; eauto.
  - destruct (is_JSONDecodeError e0); inversion H; subst; [discriminate V |].
    right. left. eauto.
Qed.

Lemma prompt_refs_raise label lines e rest evs :
  HandshakeOS._prompt_evidence_refs json_loads label lines = (Raise e, rest, evs) ->
  ends_by e.
Proof.
  unfold HandshakeOS._prompt_evidence_refs. intros H. apply retry_raise in H.
  destruct H as [-> | (line & H)]; [now left |].
  apply or_reprompt_throw in H. destruct H as (H & V).
  unfold HandshakeOS._parse_evidence_refs in H.
  destruct (negb (nonempty (strip line))); [discriminate |].
  destruct (startswith (lstrip (strip line)) "["); [| discriminate].
  destruct (json_loads (strip line)) as [data | e0] eqn:J.
  - destruct data as [| | | | | items |]; try (inversion H; subst; discriminate V).
    destruct (HandshakeOS.all_str items); inversion H; subst; discriminate V.
  - destruct (is_JSONDecodeError e0); inversion H; subst; [discriminate V |].
    right. left. eauto.
Qed.

(** A console step inside a stage that raised: the step raised, or the
    rest of the stage did, from a world with the same view. *)
Lemma console_raise {A B : Type} (f : console_fun A) (k : A -> M B) w e w' :
  bind (console f) k w = (Raise e, w') ->
  (exists rest evs, f (stdin w) = (Raise e, rest, evs))
  \/ (exists a w1,
        view w1 = view w
        /\ (exists rest evs, f (stdin w) = (Ok a, rest, evs))
        /\ k a w1 = (Raise e, w')).
Proof.
  intros H. apply bind_raise in H. destruct H as [H | (a & w1 & H1 & H)].
  - left. apply console_run in H. destruct H as (rest & evs & H & _). eauto.
  - right. apply console_run in H1. destruct H1 as (rest & evs & Hf & _ & _ & He).
    apply CaptureFacts.extends_console_view in He. destruct He as (V & _).
    exists a, w1. eauto.
Qed.

Lemma print_raise {B : Type} s (k : unit -> M B) w e w' :
  bind (print s) k w = (Raise e, w') ->
  exists w1, view w1 = view w /\ k tt w1 = (Raise e, w').
Proof.
  intros H. apply bind_raise in H. destruct H as [H | ([] & w1 & H1 & H)].
  - apply print_run in H. destruct H as (H & _). discriminate H.
  - apply print_run in H1. destruct H1 as (_ & _ & _ & He).
    apply (CaptureFacts.extends_console_view [Print s]) in He. destruct He as (V & _).
    eauto.
Qed.

Lemma holds_rowid {R : Type} (t : table R) (wrap : R -> any_row) id :
  In id (map fst (map (fun p => (fst p, wrap (snd p))) (rows t))) ->
  has_rowid t id = true.
Proof.
  rewrite map_map. cbn [fst]. intros H. apply in_map_iff in H.
  destruct H as (q & <- & Hq). unfold has_rowid. apply existsb_exists.
  exists q. split; [exact Hq | apply Z.eqb_refl].
Qed.

Lemma table_insert_raise {R : Type} (t : table R) name (r : R) e :
  table_insert (Some t) name r = Raise e ->
  e = OperationalError "database or disk is full".
Proof.
  unfold table_insert, allocate. destruct (rowid_max <=? _); intros H; now inversion H.
Qed.

Lemma references_present {R : Type} fk (t : table R) name id :
  has_rowid t id = true -> references fk (Some t) name id = Ok tt.
Proof. unfold references. intros ->. now destruct fk. Qed.

(** An insert into a complete database whose row refers to rows that are
    there fails only for want of an identifier. *)
Lemma insert_row_raise fk d r e :
  insert_row fk d r = Raise e ->
  complete d ->
  (forall k, In k (foreign_keys_of r) -> holds d (fst k) (snd k)) ->
  e = OperationalError "database or disk is full".
Proof.
  intros H P K.
  assert (K1 : forall k, In k (foreign_keys_of r) ->
                         In (snd k) (map fst (all_rows d (fst k)))) by exact K.
  clear K.
  pose proof (P Intents) as Pi. pose proof (P Observations) as Po.
  pose proof (P Hypotheses) as Ph. pose proof (P Tests) as Pt.
  pose proof (P Outcomes) as Pc. pose proof (P PatternSeeds) as Pp.
  unfold present in *.
  destruct d as [ti to th tt0 tc tp]; cbn [intents observations hypotheses tests
    outcomes pattern_seeds] in *.
  destruct ti as [ti |]; [| discriminate Pi].
  destruct to as [to |]; [| discriminate Po].
  destruct th as [th |]; [| discriminate Ph].
  destruct tt0 as [tt0 |]; [| discriminate Pt].
  destruct tc as [tc |]; [| discriminate Pc].
  destruct tp as [tp |]; [| discriminate Pp].
  destruct r as [x | x | x | x | x | x];
    cbn [insert_row intents observations hypotheses tests outcomes pattern_seeds] in H;
    unfold and_then in H;
    match type of H with
    | match table_insert ?t ?n ?x with _ => _ end = _ =>
        destruct (table_insert t n x) as [[id t'] |] eqn:T;
        [| inversion H; subst; eapply table_insert_raise; eauto]
    end;
    try discriminate H.
  - rewrite references_present in H; [discriminate H |].
    apply holds_rowid with (wrap := IntentRow).
    apply (K1 (Intents, o_intent_id x)). now left.
  - rewrite references_present in H; [discriminate H |].
    apply holds_rowid with (wrap := ObservationRow).
    apply (K1 (Observations, h_observation_id x)). now left.
  - rewrite references_present in H; [discriminate H |].
    apply holds_rowid with (wrap := HypothesisRow).
    apply (K1 (Hypotheses, t_hypothesis_id x)). now left.
  - rewrite references_present in H.
    + rewrite references_present in H; [discriminate H |].
      apply holds_rowid with (wrap := HypothesisRow).
      apply (K1 (Hypotheses, c_hypothesis_id x)). right. now left.
    + apply holds_rowid with (wrap := ObservationRow).
      apply (K1 (Observations, c_observation_id x)). now left.
  - rewrite references_present in H; [discriminate H |].
    apply holds_rowid with (wrap := OutcomeRow).
    apply (K1 (Outcomes, p_outcome_id x)). now left.
Qed.

Lemma execute_insert_raise r w e w' :
  execute_insert r w = (Raise e, w') ->
  complete (view w) ->
  (forall k, In k (foreign_keys_of r) -> holds (view w) (fst k) (snd k)) ->
  ends_by e.
Proof.
  unfold execute_insert. fold (view w).
  destruct (insert_row (foreign_keys w) (view w) r) as [[id d'] |] eqn:E;
    intros H; inversion H; subst.
  intros P K. right. right. right. eapply insert_row_raise; eauto.
Qed.

(** What an insert that succeeded leaves in view. *)
Lemma put_row_keeps d r id :
  complete d ->
  complete (put_row d r id)
  /\ (forall t x, holds d t x -> holds (put_row d r id) t x)
  /\ holds (put_row d r id) (table_of r) id.
Proof.
  intros P. split; [| split].
  - intros t. rewrite present_put_row. apply P.
  - intros t x H. unfold holds in *. rewrite all_rows_put_row by apply P.
    rewrite map_app. apply in_or_app. now left.
  - unfold holds. rewrite all_rows_put_row by apply P.
    assert (E : table_name_eqb (table_of r) (table_of r) = true)
      by now destruct (table_of r).
    rewrite E, map_app. apply in_or_app. right. now left.
Qed.

Lemma one_insert_keeps r id cevs w w' :
  one_insert r id cevs w w' ->
  complete (view w) ->
  complete (view w')
  /\ (forall t x, holds (view w) t x -> holds (view w') t x)
  /\ holds (view w') (table_of r) id.
Proof.
  intros (_ & H) P. apply insert_row_ok in H. rewrite H. now apply put_row_keeps.
Qed.

Ltac raised H V :=
  let a := fresh "a" in
  let w1 := fresh "w" in
  let V1 := fresh "V" in
  apply console_raise in H;
  destruct H as [(? & ? & H) | (a & w1 & V1 & _ & H)];
  [first [ now apply prompt_text_raise in H
         | now apply prompt_float_raise in H
         | now apply prompt_int_raise in H
         | now apply prompt_choice_raise in H
         | now apply prompt_mixture_raise in H
         | now apply prompt_refs_raise in H ]
  | rewrite <- V1 in V; clear V1 ].

Ltac printed H V :=
  let w1 := fresh "w" in
  let V1 := fresh "V" in
  apply print_raise in H; destruct H as (w1 & V1 & H);
  rewrite <- V1 in V; clear V1.

Lemma capture_intent_raise w e w' :
  capture_intent w = (Raise e, w') -> complete (view w) -> ends_by e.
Proof.
  unfold HandshakeOS.capture_intent. intros H P.
  remember (view w) as d eqn:V.
  raised H V. raised H V. raised H V. raised H V.
  eapply execute_insert_raise; [exact H | now rewrite <- V | intros k []].
Qed.


Lemma capture_observation_raise i w e w' :
  capture_observation i w = (Raise e, w') ->
  complete (view w) -> holds (view w) Intents i -> ends_by e.
Proof.
  unfold HandshakeOS.capture_observation. intros H P K.
  remember (view w) as d eqn:V.
  raised H V. raised H V.
  eapply execute_insert_raise; [exact H | now rewrite <- V |].
  rewrite <- V. intros k [<- | []]. exact K.
Qed.

Lemma collect_loop_raise idxs acc w e w' :
  for_each idxs collect_hypothesis acc w = (Raise e, w') -> ends_by e.
Proof.
  revert acc w. induction idxs as [| i idxs IH]; intros acc w H; simpl in H;
    [discriminate H |].
  apply bind_raise in H. destruct H as [H | (acc1 & w1 & _ & H)]; [| eauto].
  unfold HandshakeOS.collect_hypothesis in H. cbv zeta in H.
  remember (view w) as d eqn:V.
  raised H V. raised H V. raised H V. raised H V.
  discriminate H.
Qed.

Lemma persist_loop_raise o hyps acc w e w' :
  for_each hyps (persist_hypothesis o) acc w = (Raise e, w') ->
  complete (view w) -> holds (view w) Observations o -> ends_by e.
Proof.
  revert acc w. induction hyps as [| h hyps IH]; intros acc w H P K; simpl in H;
    [discriminate H |].
  apply bind_raise in H. destruct H as [H | (acc1 & w1 & H1 & H)].
  - unfold HandshakeOS.persist_hypothesis in H. apply bind_raise in H.
    destruct H as [H | (id & w2 & _ & H)]; [| discriminate H].
    eapply execute_insert_raise; [exact H | exact P |].
    intros k [<- | []]. exact K.
  - unfold HandshakeOS.persist_hypothesis in H1. apply bind_ok in H1.
    destruct H1 as (id & w2 & Hi & Hr). inversion Hr; subst; clear Hr.
    apply CaptureFacts.one_insert_last in Hi.
    destruct (one_insert_keeps _ _ _ _ _ Hi P) as (P1 & K1 & _).
    eapply IH; eauto.
Qed.

Lemma listing_never_raises (l : list (Z * Z)) w e w' :
  for_each l
    (fun '(idx, hypothesis_id) _ =>
       print ("  " ++ str_of_int idx ++ ". hypothesis_id=" ++ str_of_int hypothesis_id)%string)
    tt w = (Raise e, w') -> False.
Proof.
  revert w. induction l as [| [idx id] l IH]; intros w H; simpl in H; [discriminate H |].
  apply bind_raise in H. destruct H as [H | ([] & w1 & _ & H)]; [discriminate H | eauto].
Qed.

Lemma capture_hypotheses_raise o w e w' :
  capture_hypotheses o w = (Raise e, w') ->
  complete (view w) -> holds (view w) Observations o -> ends_by e.
Proof.
  unfold HandshakeOS.capture_hypotheses. intros H P K.
  remember (view w) as d eqn:V.
  raised H V.
  apply bind_raise in H. destruct H as [H | (hyps & wc & Hc & H)];
    [eapply collect_loop_raise; eauto |].
  apply CaptureFacts.collect_loop in Hc. destruct Hc as (cevs & Hc & _).
  apply CaptureFacts.extends_console_view in Hc. destruct Hc as (Vc & _).
  rewrite <- Vc in V. clear Vc.
  apply bind_raise in H. destruct H as [H | (ids & wp & Hp & H)];
    [eapply persist_loop_raise; eauto; now rewrite <- V |].
  apply bind_raise in H. destruct H as [H | ([] & w2 & _ & H)]; [discriminate H |].
  apply bind_raise in H. destruct H as [H | ([] & w3 & _ & H)]; [| discriminate H].
  now apply listing_never_raises in H.
Qed.

(** The stage of the hypotheses keeps what was in view and leaves the
    rows of the identifiers it returns. *)
Lemma capture_hypotheses_keeps o w hs w' :
  capture_hypotheses o w = (Ok hs, w') ->
  complete (view w) ->
  complete (view w')
  /\ (forall t x, holds (view w) t x -> holds (view w') t x)
  /\ (forall h, In h hs -> holds (view w') Hypotheses h).
Proof.
  intros H P. apply CaptureFacts.capture_hypotheses_ok in H.
  destruct H as (c0 & nl & n & fields & hyps & prints & wc & _ & _ & _ & L & _ & _
                 & E1 & E2 & _).
  pose proof (ProcFacts.extends_trans _ _ _ _ _ E1 E2) as E.
  assert (A : forall t, all_rows (view w') t
                        = all_rows (view w) t
                          ++ written (inserts_of
                               (map Console (c0 ++ [Prompt count_prompt; Read nl] ++ fields)
                                ++ hypothesis_inserts
                                     (combine (map (hypothesis_row_of json_dumps o) hyps) hs)
                                ++ map Console prints)) t).
  { intros t. now apply CaptureFacts.all_rows_extends. }
  destruct E as (_ & Vw & _). split; [| split].
  - intros t. rewrite Vw. clear -P.
    generalize (inserts_of
      (map Console (c0 ++ [Prompt count_prompt; Read nl] ++ fields) ++
       hypothesis_inserts (combine (map (hypothesis_row_of json_dumps o) hyps) hs) ++
       map Console prints)).
    intros ins. revert P. generalize (view w). induction ins as [| [r id] ins IH];
      intros d P; [apply P |].
    unfold replay in *. simpl. apply IH. intros t'. rewrite present_put_row. apply P.
  - intros t x Hx. unfold holds in *. rewrite A, map_app. apply in_or_app. now left.
  - intros h Hh. unfold holds. rewrite A, map_app. apply in_or_app. right.
    rewrite !inserts_of_app, !inserts_of_console, inserts_of_hypotheses.
    cbn [app]. rewrite app_nil_r.
    rewrite <- (app_nil_r (map _ (combine _ hs))), CaptureFacts.written_wrapped.
    cbn [table_name_eqb written]. rewrite app_nil_r, map_map. cbn [fst].
    assert (S : map snd (combine (map (hypothesis_row_of json_dumps o) hyps) hs) = hs).
    { apply CaptureFacts.map_snd_combine. now rewrite length_map. }
    rewrite <- S in Hh. exact Hh.
Qed.

Lemma list_index_total {A : Type} (l : list A) i :
  0 <= i < Z.of_nat (List.length l) -> exists x, list_index l i = Ok x /\ In x l.
Proof.
  intros Hi. unfold list_index.
  destruct (i <? 0) eqn:E; [apply Z.ltb_lt in E; lia |].
  destruct ((0 <=? i) && (i <? Z.of_nat (List.length l))) eqn:B;
    [| apply andb_false_iff in B; destruct B as [B | B];
       [apply Z.leb_gt in B | apply Z.ltb_ge in B]; lia].
  destruct (nth_error l (Z.to_nat i)) as [x |] eqn:N.
  - exists x. split; [reflexivity |]. eapply nth_error_In; eauto.
  - apply nth_error_None in N. lia.
Qed.

Lemma capture_test_raise hs w e w' :
  capture_test hs w = (Raise e, w') ->
  complete (view w) -> (forall h, In h hs -> holds (view w) Hypotheses h) ->
  ends_by e.
Proof.
  unfold HandshakeOS.capture_test. intros H P K.
  remember (view w) as d eqn:V.
  apply console_raise in H.
  destruct H as [(? & ? & H) | (k & w1 & V1 & (rest & evs & Q) & H)];
    [now apply prompt_int_raise in H |].
  rewrite <- V1 in V. clear V1.
  apply CaptureFacts.prompt_int_ok in Q. destruct Q as (_ & _ & _ & _ & Hk).
  destruct (list_index_total hs (k - 1)) as (sel & Hsel & Hin); [lia |].
  raised H V. raised H V. raised H V.
  apply bind_raise in H. destruct H as [H | (sel' & w5 & Hs & H)].
  - unfold HandshakeOS.lift in H. rewrite Hsel in H. discriminate H.
  - unfold HandshakeOS.lift in Hs. rewrite Hsel in Hs. inversion Hs; subst; clear Hs.
    cbv zeta in H. apply bind_raise in H.
    destruct H as [H | (id & w6 & _ & H)]; [| discriminate H].
    eapply execute_insert_raise; [exact H | exact P |].
    intros q [<- | []]. cbn [fst snd TestInput.hypothesis_id t_hypothesis_id].
    now apply K.
Qed.

Lemma capture_outcome_raise o ti t w e w' :
  capture_outcome o ti t w = (Raise e, w') ->
  complete (view w) ->
  holds (view w) Observations o ->
  holds (view w) Hypotheses (TestInput.hypothesis_id ti) ->
  ends_by e.
Proof.
  unfold HandshakeOS.capture_outcome. intros H P Ko Kh.
  remember (view w) as d eqn:V.
  printed H V. raised H V. raised H V.
  cbv zeta in H.
  eapply execute_insert_raise; [exact H | now rewrite <- V |].
  rewrite <- V. intros q [<- | [<- | []]]; assumption.
Qed.

Lemma capture_pattern_seed_raise oc w e w' :
  capture_pattern_seed oc w = (Raise e, w') ->
  complete (view w) -> holds (view w) Outcomes oc -> ends_by e.
Proof.
  unfold HandshakeOS.capture_pattern_seed. intros H P K.
  remember (view w) as d eqn:V.
  printed H V. do 6 raised H V.
  cbv zeta in H.
  eapply execute_insert_raise; [exact H | now rewrite <- V |].
  rewrite <- V. intros q [<- | []]. exact K.
Qed.



End Fields.
End FieldFacts.


(** ** The schema of the observations log *)

Module EvezFacts.
Import Py Evez.
Local Open Scope list_scope.

(** On a file that records a version, [get_schema_version] reads it and
    writes nothing. *)
Lemma get_schema_version_recorded file v :
  recorded_version file = Some v ->
  get_schema_version (connect file) = (Ok v, connect file).
Proof.
  unfold recorded_version, get_schema_version, _ensure_schema_table, bind,
    execute_ddl, select_version, view, connect.
  destruct file as [[[| x r] |] obs i1 i2]; simpl; try discriminate.
  intros H. inversion H; subst. reflexivity.
Qed.

(** On a file that records no version, [get_schema_version] answers 0 and
    leaves the [schema_version] table, empty if it was absent. *)
Lemma get_schema_version_unrecorded file :
  recorded_version file = None ->
  get_schema_version (connect file)
  = (Ok 0,
     connect {| schema_version := Some [];
                observations := observations file;
                idx_observations_timestamp := idx_observations_timestamp file;
                idx_observations_location := idx_observations_location file |}).
Proof.
  unfold recorded_version, get_schema_version, _ensure_schema_table, bind,
    execute_ddl, select_version, view, connect.
  destruct file as [[[| x r] |] obs i1 i2]; simpl; try discriminate; reflexivity.
Qed.

Lemma migrate_from_zero file rows :
  schema_version file = Some rows ->
  with_connection (connect file)
    (bind (migrate 0 SCHEMA_VERSION) (fun _ => ret SCHEMA_VERSION))
  = (Ok SCHEMA_VERSION, migrated file).
Proof.
  destruct file as [sv obs i1 i2]. simpl. intros ->.
  unfold migrated; simpl.
  destruct obs, i1, i2; reflexivity.
Qed.

Lemma with_connection_bind {A B : Type} (m : M A) (k : A -> M B) c :
  with_connection c (bind m k)
  = match m c with
    | (Ok a, c') => with_connection c' (k a)
    | (Raise e, c') => (Raise e, disk c')
    end.
Proof.
  unfold with_connection, bind. destruct (m c) as [[a | e] c']; reflexivity.
Qed.

(** What [initialize_db] does, by the version the file records. *)
Lemma initialize_db_newer file v :
  recorded_version file = Some v -> SCHEMA_VERSION < v ->
  initialize_db file
  = (Raise (RuntimeError ("Database version " ++ str_of_int v
                          ++ " is newer than supported " ++ str_of_int SCHEMA_VERSION)%string),
     file).
Proof.
  intros Hv Hlt. unfold initialize_db. rewrite with_connection_bind.
  rewrite (get_schema_version_recorded _ _ Hv).
  apply Z.ltb_lt in Hlt. rewrite Hlt. reflexivity.
Qed.

Lemma initialize_db_current file :
  recorded_version file = Some SCHEMA_VERSION ->
  initialize_db file = (Ok SCHEMA_VERSION, file).
Proof.
  intros Hv. unfold initialize_db. rewrite with_connection_bind.
  rewrite (get_schema_version_recorded _ _ Hv). reflexivity.
Qed.

Lemma initialize_db_zero file :
  recorded_version file = Some 0 \/ recorded_version file = None ->
  initialize_db file = (Ok SCHEMA_VERSION, migrated file).
Proof.
  intros [Hv | Hv]; unfold initialize_db; rewrite with_connection_bind.
  - rewrite (get_schema_version_recorded _ _ Hv).
    change (SCHEMA_VERSION <? 0) with false. change (0 <? SCHEMA_VERSION) with true.
    cbv iota.
    unfold recorded_version in Hv.
    destruct (schema_version file) as [rows |] eqn:E; [| discriminate].
    apply (migrate_from_zero file rows E).
  - rewrite (get_schema_version_unrecorded _ Hv).
    change (SCHEMA_VERSION <? 0) with false. change (0 <? SCHEMA_VERSION) with true.
    cbv iota.
    erewrite migrate_from_zero by reflexivity. reflexivity.
Qed.

Lemma initialize_db_older file v :
  recorded_version file = Some v -> v < 0 ->
  exists msg, initialize_db file = (Raise (ValueError msg), file).
Proof.
  intros Hv Hlt. unfold initialize_db. rewrite with_connection_bind.
  rewrite (get_schema_version_recorded _ _ Hv).
  assert (E1 : (SCHEMA_VERSION <? v) = false) by (apply Z.ltb_ge; unfold SCHEMA_VERSION; lia).
  assert (E2 : (v <? SCHEMA_VERSION) = true) by (apply Z.ltb_lt; unfold SCHEMA_VERSION; lia).
  rewrite E1, E2. unfold migrate.
  destruct (Z.to_nat (SCHEMA_VERSION - v)) as [| n] eqn:F;
    [unfold SCHEMA_VERSION in F; lia |].
  simpl migrate_loop. rewrite E2. unfold migration_statements.
  assert (E3 : (v =? 0) = false) by (apply Z.eqb_neq; lia).
  rewrite E3. simpl. eexists. reflexivity.
Qed.

(** More rounds than needed do not change what the loop does. *)
Lemma migrate_loop_fuel fuel extra current to_version :
  (Z.to_nat (to_version - current) <= fuel)%nat ->
  migrate_loop (fuel + extra) current to_version = migrate_loop fuel current to_version.
Proof.
  revert current. induction fuel as [| fuel IH]; intros current H.
  - simpl. destruct extra; [reflexivity |]. simpl.
    destruct (current <? to_version) eqn:E; [apply Z.ltb_lt in E; lia | reflexivity].
  - simpl. destruct (current <? to_version) eqn:E; [| reflexivity].
    destruct (migration_statements current (current + 1)); [| reflexivity].
    apply Z.ltb_lt in E. rewrite IH by lia. reflexivity.
Qed.

(** C8.  Setting the schema up a second time changes nothing.  For the
    capture tool: after lines 143-199 have run, running them again, on the
    same connection or in a later session, leaves the file, the transaction
    state and the foreign-key switch as they are; the first run keeps every
    row and leaves the six tables.  For the observations log: when
    [initialize_db] has returned, running it again returns the same version
    and leaves the file as it is, and the first run kept the rows of
    [observations]. *)
Theorem schema_setup_twice :
  (forall w : Proc.world,
      let '(r1, w1) := HandshakeOS._ensure_schema (Proc.connect w) in
      let '(r2, w2) := HandshakeOS._ensure_schema w1 in
      let '(r3, w3) := HandshakeOS._ensure_schema (Proc.connect w1) in
      r1 = Ok tt /\ r2 = Ok tt /\ r3 = Ok tt
      /\ (Proc.disk w2 = Proc.disk w1 /\ Proc.txn w2 = Proc.txn w1
          /\ Proc.foreign_keys w2 = Proc.foreign_keys w1)
      /\ (Proc.disk w3 = Proc.disk w1 /\ Proc.txn w3 = Proc.txn w1
          /\ Proc.foreign_keys w3 = Proc.foreign_keys w1)
      /\ (forall t, Session.present (Proc.disk w1) t = true)
      /\ (forall t, Session.all_rows (Proc.disk w1) t = Session.all_rows (Proc.disk w) t))
  /\ (forall file v file1,
         initialize_db file = (Ok v, file1) ->
         initialize_db file1 = (Ok v, file1)
         /\ Session.rows_of (observations file1) = Session.rows_of (observations file)
         /\ (idx_observations_timestamp file = true -> idx_observations_timestamp file1 = true)
         /\ (idx_observations_location file = true -> idx_observations_location file1 = true)).
Proof.
  split; [exact CaptureFacts.ensure_schema_twice |].
  intros file v file1 H.
  destruct (recorded_version file) as [cv |] eqn:Hv.
  - destruct (Z.lt_trichotomy cv 0) as [Hlt | [-> | Hgt]].
    + destruct (initialize_db_older _ _ Hv Hlt) as (msg & E). congruence.
    + rewrite (initialize_db_zero file (or_introl Hv)) in H. inversion H; subst.
      split; [apply initialize_db_current; reflexivity |].
      split; [| auto]. simpl. now destruct (observations file).
    + destruct (Z.eq_dec cv SCHEMA_VERSION) as [-> | Hne].
      * rewrite (initialize_db_current _ Hv) in H. inversion H; subst.
        split; [now apply initialize_db_current |]. auto.
      * rewrite (initialize_db_newer _ _ Hv) in H by (unfold SCHEMA_VERSION in *; lia).
        discriminate H.
  - rewrite (initialize_db_zero file (or_intror Hv)) in H. inversion H; subst.
    split; [apply initialize_db_current; reflexivity |].
    split; [| auto]. simpl. now destruct (observations file).
Qed.

(** C9.  A file that records a schema version above [SCHEMA_VERSION] is
    refused: [initialize_db] raises [RuntimeError], the [init] command
    exits with status 1, and the file is left as it was. *)
Theorem newer_schema_version_is_refused path file v :
  recorded_version file = Some v ->
  SCHEMA_VERSION < v ->
  initialize_db file
  = (Raise (RuntimeError ("Database version " ++ str_of_int v
                          ++ " is newer than supported " ++ str_of_int SCHEMA_VERSION)%string),
     file)
  /\ main_init path file = (1, file).
Proof.
  intros Hv Hlt. pose proof (initialize_db_newer _ _ Hv Hlt) as E.
  split; [exact E |]. unfold main_init, run_init. now rewrite E.
Qed.

End EvezFacts.


(** ** The statements on the observations table *)

Module SqliteFacts.
Import Py Evez Sqlite Log.
Local Open Scope list_scope.

Lemma sqlite_int_fits n : fits n -> sqlite_int n = Ok n.
Proof.
  unfold fits, sqlite_int. intros H.
  destruct (- 9223372036854775808 <=? n) eqn:A; [| apply Z.leb_gt in A; lia].
  destruct (n <=? 9223372036854775807) eqn:B; [reflexivity | apply Z.leb_gt in B; lia].
Qed.

Lemma sqlite_int_ok n m : sqlite_int n = Ok m -> m = n /\ fits n.
Proof.
  unfold fits, sqlite_int.
  destruct (- 9223372036854775808 <=? n) eqn:A; [| discriminate].
  destruct (n <=? 9223372036854775807) eqn:B; [| discriminate].
  apply Z.leb_le in A. apply Z.leb_le in B. simpl. intros H. inversion H. lia.
Qed.

Lemma sqlite_int_overflow n :
  ~ fits n ->
  sqlite_int n = Raise (OverflowError "Python int too large to convert to SQLite INTEGER").
Proof.
  intros H. unfold sqlite_int.
  destruct (- 9223372036854775808 <=? n) eqn:A;
    destruct (n <=? 9223372036854775807) eqn:B; try reflexivity.
  apply Z.leb_le in A. apply Z.leb_le in B. exfalso. apply H. unfold fits. lia.
Qed.

(** *** What [initialize_db] leaves *)

Lemma rows_migrated f : rows (migrated f) = rows f.
Proof. unfold rows, migrated. simpl. now destruct (observations f). Qed.

Lemma sequence_migrated f : sequence (migrated f) = sequence f.
Proof. unfold sequence, migrated. simpl. now destruct (observations f). Qed.

Lemma initialize_db_cases f :
  (exists e, initialize_db f = (Raise e, f))
  \/ (initialize_db f = (Ok SCHEMA_VERSION, f)
      /\ recorded_version f = Some SCHEMA_VERSION)
  \/ (initialize_db f = (Ok SCHEMA_VERSION, migrated f)
      /\ (recorded_version f = Some 0 \/ recorded_version f = None)).
Proof.
  destruct (recorded_version f) as [v |] eqn:Hv.
  - destruct (Z.lt_trichotomy v 0) as [Hlt | [-> | Hgt]].
    + left. destruct (EvezFacts.initialize_db_older _ _ Hv Hlt) as (msg & E). eauto.
    + right. right. split; [| now left].
      apply EvezFacts.initialize_db_zero. now left.
    + destruct (Z.eq_dec v SCHEMA_VERSION) as [-> | Hne].
      * right. left. split; [now apply EvezFacts.initialize_db_current | reflexivity].
      * left. eexists. apply EvezFacts.initialize_db_newer with (v := v); [exact Hv |].
        unfold SCHEMA_VERSION in *. lia.
  - right. right. split; [| now right].
    apply EvezFacts.initialize_db_zero. now right.
Qed.

Lemma initialize_db_keeps f r f' :
  initialize_db f = (r, f') -> rows f' = rows f /\ sequence f' = sequence f.
Proof.
  intros H.
  destruct (initialize_db_cases f) as [(e & E) | [(E & _) | (E & _)]];
    rewrite E in H; inversion H; subst; auto using rows_migrated, sequence_migrated.
Qed.

Lemma recorded_version_migrated f : recorded_version (migrated f) = Some 1.
Proof. reflexivity. Qed.

(** A file that [initialize_db] has taken is taken again as it is. *)
Lemma initialize_db_again f v f' :
  initialize_db f = (Ok v, f') ->
  v = SCHEMA_VERSION /\ recorded_version f' = Some SCHEMA_VERSION
  /\ initialize_db f' = (Ok SCHEMA_VERSION, f').
Proof.
  intros H.
  destruct (initialize_db_cases f) as [(e & E) | [(E & R) | (E & _)]];
    rewrite E in H; inversion H; subst.
  - auto.
  - split; [reflexivity |]. split; [reflexivity |].
    now apply EvezFacts.initialize_db_current.
Qed.

(** *** The statements inside [with connect(db_path) as connection] *)

Lemma insert_run f ts content tags location :
  Commands.in_connection (execute_insert ts content tags location) f
  = match observations f with
    | None => (Raise no_such_table, f)
    | Some t =>
        match sqlite_int ts with
        | Raise e => (Raise e, f)
        | Ok ts' =>
            match Store.table_insert (Some t) "observations"
                    {| timestamp := ts'; content := content;
                       tags := tags; location := location |} with
            | Raise e => (Raise e, f)
            | Ok (id, t') => (Ok id, with_observations t' f)
            end
        end
    end.
Proof.
  unfold Commands.in_connection, with_connection, execute_insert, connect, view.
  cbn [txn disk].
  destruct (observations f) as [t |]; [| reflexivity].
  destruct (sqlite_int ts) as [ts' | e]; [| reflexivity].
  destruct (Store.table_insert (Some t) "observations" _) as [[id t'] | e]; reflexivity.
Qed.

Lemma select_run f limit offset :
  Commands.in_connection (execute_select limit offset) f
  = match observations f with
    | None => (Raise no_such_table, f)
    | Some t =>
        match sqlite_int limit with
        | Raise e => (Raise e, f)
        | Ok lim =>
            match sqlite_int offset with
            | Raise e => (Raise e, f)
            | Ok off =>
                (Ok (map columns (limit_offset lim off (order_by (Store.rows t)))), f)
            end
        end
    end.
Proof.
  unfold Commands.in_connection, with_connection, execute_select, connect, view. simpl.
  destruct (observations f) as [t |]; [| reflexivity].
  destruct (sqlite_int limit) as [lim | e]; [| reflexivity].
  destruct (sqlite_int offset) as [off | e]; reflexivity.
Qed.

Lemma count_zero {A : Type} (h : A -> bool) (l : list A) :
  (Z.of_nat (List.length (filter h l)) =? 0) = negb (existsb h l).
Proof.
  induction l as [| a l IH]; [reflexivity |]. simpl.
  destruct (h a); simpl; [reflexivity | exact IH].
Qed.

Lemma delete_run f id :
  Commands.in_connection (checked (execute_delete id) id) f
  = match observations f with
    | None => (Raise no_such_table, f)
    | Some t =>
        match sqlite_int id with
        | Raise e => (Raise e, f)
        | Ok i =>
            if existsb (has_id i) (Store.rows t) then
              (Ok tt,
               with_observations
                 {| Store.sequence := Store.sequence t;
                    Store.rows := filter (fun p => negb (has_id i p)) (Store.rows t) |} f)
            else (Raise (Commands.not_found id), f)
        end
    end.
Proof.
  unfold Commands.in_connection, with_connection, checked, bind, execute_delete, connect, view.
  simpl.
  destruct (observations f) as [t |]; [| reflexivity].
  destruct (sqlite_int id) as [i | e]; [| reflexivity].
  rewrite count_zero. destruct (existsb (has_id i) (Store.rows t)); reflexivity.
Qed.

Lemma update_run f p l id :
  Commands.in_connection (checked (execute_update (p :: l) id) id) f
  = match observations f with
    | None => (Raise no_such_table, f)
    | Some t =>
        match and_then (bind_pairs (p :: l)) (fun l' =>
              and_then (sqlite_int id) (fun i => Ok (l', i))) with
        | Raise e => (Raise e, f)
        | Ok (l', i) =>
            if existsb (has_id i) (Store.rows t) then
              (Ok tt,
               with_observations
                 {| Store.sequence := Store.sequence t;
                    Store.rows :=
                      map (fun q => if has_id i q
                                    then (fst q, fold_left assign l' (snd q)) else q)
                        (Store.rows t) |} f)
            else (Raise (Commands.not_found id), f)
        end
    end.
Proof.
  unfold Commands.in_connection, with_connection, checked, bind, execute_update, connect, view.
  cbn [txn disk].
  destruct (observations f) as [t |]; [| reflexivity].
  destruct (and_then (bind_pairs (p :: l)) _) as [[l' i] | e]; [| reflexivity].
  rewrite count_zero. destruct (existsb (has_id i) (Store.rows t)); reflexivity.
Qed.

End SqliteFacts.

(** ** The commands on observations *)

Module CommandFacts.
Import Py Tool Evez Sqlite Commands Log SqliteFacts.
Import Proc(Prompt, Read, Print).
Local Open Scope list_scope.

Lemma printing_printing a b p : printing b (printing a p) = printing (a ++ b) p.
Proof. unfold printing. simpl. now rewrite app_assoc. Qed.

Lemma for_each_print (l : list string) p :
  Tool.for_each l (fun s => print s) p = (Ok tt, printing (map Print l) p).
Proof.
  revert p. induction l as [| s l IH]; intros p; simpl.
  - unfold Tool.ret, printing. rewrite app_nil_r. now destruct p.
  - unfold Tool.bind, print at 1. rewrite IH. unfold printing. simpl.
    now rewrite <- app_assoc.
Qed.

Lemma for_each_map {A B : Type} (f : A -> B) (l : list A) (body : B -> Tool.M unit) :
  Tool.for_each (map f l) body = Tool.for_each l (fun a => body (f a)).
Proof. induction l as [| a l IH]; simpl; [reflexivity | now rewrite IH]. Qed.

(** What [run_add] does, step by step. *)
Lemma run_add_run content tags location timestamp p :
  run_add content tags location timestamp p
  = match initialize_db (file p) with
    | (Raise e, f) => (Raise e, with_file f p)
    | (Ok _, f) =>
        match match timestamp with
              | Some t => Ok t
              | None => int_of_float (clock p)
              end with
        | Raise e => (Raise e, with_file f p)
        | Ok ts =>
            match in_connection (execute_insert ts content tags location) f with
            | (Raise e, f') => (Raise e, with_file f' p)
            | (Ok id, f') =>
                (Ok tt,
                 printing [Print ("Added observation " ++ str_of_int id ++ " at "
                                  ++ str_of_int ts ++ ".")%string]
                   (with_file f' p))
            end
        end
    end.
Proof.
  unfold run_add, with_connect, Tool.bind, on_file, time, lift, Tool.ret, print,
    with_file, printing.
  destruct (initialize_db (file p)) as [[v | e] f]; [| reflexivity].
  destruct timestamp as [t |]; cbn [file clock stdin console].
  - destruct (in_connection _ f) as [[id | e] f']; reflexivity.
  - destruct (int_of_float (clock p)) as [ts | e]; [| reflexivity].
    cbn [file clock stdin console].
    destruct (in_connection _ f) as [[id | e] f']; reflexivity.
Qed.

Lemma run_list_run limit offset p :
  run_list limit offset p
  = match initialize_db (file p) with
    | (Raise e, f) => (Raise e, with_file f p)
    | (Ok _, f) =>
        match in_connection (execute_select limit offset) f with
        | (Raise e, f') => (Raise e, with_file f' p)
        | (Ok [], f') =>
            (Ok tt, printing [Print "No observations found."] (with_file f' p))
        | (Ok rows, f') =>
            (Ok tt,
             printing (map (fun r => Print (line_of (_row_to_observation r))) rows)
               (with_file f' p))
        end
    end.
Proof.
  unfold run_list, with_connect, Tool.bind, on_file.
  destruct (initialize_db (file p)) as [[v | e] f]; [| reflexivity].
  cbn [file clock stdin console].
  destruct (in_connection _ f) as [[rows | e] f']; [| reflexivity].
  destruct rows as [| r rows]; [reflexivity |].
  cbn [map]. rewrite <- map_cons.
  change (_row_to_observation r :: map _row_to_observation rows)
    with (map _row_to_observation (r :: rows)).
  rewrite for_each_map.
  rewrite <- (for_each_map (fun r => line_of (_row_to_observation r)) (r :: rows)
                (fun s => print s)).
  rewrite for_each_print, map_map. reflexivity.
Qed.

Lemma run_update_run id content tags location timestamp p :
  run_update id content tags location timestamp p
  = match initialize_db (file p) with
    | (Raise e, f) => (Raise e, with_file f p)
    | (Ok _, f) =>
        match _build_update_pairs content tags location timestamp with
        | [] => (Raise (ValueError "No fields provided for update."), with_file f p)
        | u :: l =>
            match in_connection (checked (execute_update (u :: l) id) id) f with
            | (Raise e, f') => (Raise e, with_file f' p)
            | (Ok _, f') =>
                (Ok tt,
                 printing [Print ("Updated observation " ++ str_of_int id ++ ".")%string]
                   (with_file f' p))
            end
        end
    end.
Proof.
  unfold run_update, with_connect, Tool.bind, on_file, Tool.raise, print,
    with_file, printing.
  destruct (initialize_db (file p)) as [[v | e] f]; [| reflexivity].
  cbn [file clock stdin console].
  destruct (_build_update_pairs content tags location timestamp) as [| u l];
    [reflexivity |].
  cbn [file clock stdin console].
  fold (checked (execute_update (u :: l) id) id).
  destruct (in_connection _ f) as [[[] | e] f']; reflexivity.
Qed.

Lemma delete_unfold id p :
  delete id p
  = match in_connection (checked (execute_delete id) id) (file p) with
    | (Raise e, f') => (Raise e, with_file f' p)
    | (Ok _, f') =>
        (Ok tt,
         printing [Print ("Deleted observation " ++ str_of_int id ++ ".")%string]
           (with_file f' p))
    end.
Proof.
  unfold delete, with_connect, Tool.bind, on_file, print, with_file, printing.
  fold (checked (execute_delete id) id).
  destruct (in_connection _ (file p)) as [[[] | e] f']; reflexivity.
Qed.

Lemma run_delete_run id force p :
  run_delete id force p
  = match initialize_db (file p) with
    | (Raise e, f) => (Raise e, with_file f p)
    | (Ok _, f) =>
        if force then delete id (with_file f p)
        else
          let prompt := ("Delete observation " ++ str_of_int id
                         ++ "? Type 'yes' to confirm: ")%string in
          match stdin p with
          | [] =>
              (Raise EOFError,
               {| file := f; clock := clock p; stdin := [];
                  console := console p ++ [Prompt prompt] |})
          | answer :: rest =>
              let p1 := {| file := f; clock := clock p; stdin := rest;
                           console := console p ++ [Prompt prompt; Read answer] |} in
              if String.eqb (lower (strip answer)) "yes" then delete id p1
              else (Ok tt, printing [Print "Delete cancelled."] p1)
          end
    end.
Proof.
  unfold run_delete, Tool.bind, on_file at 1, with_file.
  destruct (initialize_db (file p)) as [[v | e] f]; [| reflexivity].
  destruct force; cbn [negb]; [reflexivity |].
  unfold input. cbn [file clock stdin console].
  destruct (stdin p) as [| answer rest]; [reflexivity |].
  cbn zeta. destruct (String.eqb (lower (strip answer)) "yes"); reflexivity.
Qed.


Lemma table_insert_sequence {R : Type} (t : Store.table R) name (r : R) id t' :
  Store.table_insert (Some t) name r = Ok (id, t') ->
  Store.sequence t < id
  /\ Store.sequence t' = id
  /\ Store.rows t' = Store.rows t ++ [(id, r)]
  /\ (forall q, In q (Store.rows t) -> fst q < id).
Proof.
  intros H. pose proof (ProcFacts.table_insert_ok _ _ _ _ _ H) as (_ & F & _).
  unfold Store.table_insert, Store.allocate in H.
  destruct (Store.rowid_max <=? _) eqn:E; [discriminate |].
  inversion H; subst; clear H. simpl. repeat split; auto. lia.
Qed.

(** *** Adding *)

(** X1.  When [run_add] returns, the log holds one more row, after those
    it held, which are kept: the content, tags and location given, under
    the timestamp given, or the integral part of the clock's reading when
    none is.  The identifier is above every identifier in the table and
    above the table's entry in [sqlite_sequence], which it replaces.  One
    line tells the identifier and the timestamp. *)
Theorem add_appends_one_row content tags location timestamp p p' :
  run_add content tags location timestamp p = (Ok tt, p') ->
  exists id ts,
    match timestamp with
    | Some t => ts = t
    | None => int_of_float (clock p) = Ok ts
    end
    /\ fits ts
    /\ rows (file p')
       = rows (file p)
         ++ [(id, {| Evez.timestamp := ts; Evez.content := content;
                     Evez.tags := tags; Evez.location := location |})]
    /\ (forall q, In q (rows (file p)) -> fst q < id)
    /\ sequence (file p) < id
    /\ sequence (file p') = id
    /\ recorded_version (file p') = Some SCHEMA_VERSION
    /\ console p'
       = console p ++ [Print ("Added observation " ++ str_of_int id ++ " at "
                              ++ str_of_int ts ++ ".")%string]
    /\ stdin p' = stdin p.
Proof.
  rewrite run_add_run.
  destruct (initialize_db (file p)) as [[v | e] f] eqn:I; [| discriminate].
  destruct (initialize_db_keeps _ _ _ I) as (Hr & Hs).
  destruct (initialize_db_again _ _ _ I) as (_ & Hv & _).
  destruct (match timestamp with Some t => Ok t | None => int_of_float (clock p) end)
    as [ts | e] eqn:T; [| discriminate].
  rewrite insert_run.
  destruct (observations f) as [t |] eqn:O; [| discriminate].
  destruct (sqlite_int ts) as [ts' | e] eqn:S; [| discriminate].
  apply sqlite_int_ok in S. destruct S as (-> & Hf).
  destruct (Store.table_insert (Some t) "observations" _) as [[id t'] | e] eqn:N;
    [| discriminate].
  intros H. inversion H; subst; clear H.
  apply table_insert_sequence in N. destruct N as (N1 & N2 & N3 & N4).
  exists id, ts. cbn [file console stdin printing with_file].
  assert (Rf : rows f = Store.rows t) by (unfold rows; now rewrite O).
  assert (Sf : sequence f = Store.sequence t) by (unfold sequence; now rewrite O).
  split; [destruct timestamp; [now inversion T | exact T] |].
  split; [exact Hf |].
  split; [unfold rows at 1; cbn; now rewrite N3, <- Hr, Rf |].
  split; [intros q Hq; apply N4; now rewrite <- Rf, Hr |].
  split; [rewrite <- Hs, Sf; exact N1 |].
  split; [unfold sequence; cbn; exact N2 |].
  split; [exact Hv |]. split; reflexivity.
Qed.


(** *** What a command does to the rows *)

Lemma change_after_init f r f1 f' :
  initialize_db f = (r, f1) -> change f1 f' -> change f f'.
Proof.
  intros I C. destruct (initialize_db_keeps _ _ _ I) as (Hr & Hs).
  destruct C as [A B | id o A B C D | g A B | h A B].
  - apply Same; congruence.
  - apply Grown with (id := id) (r := o); rewrite <- ?Hr, <- ?Hs; auto.
  - apply Rewritten with (g := g); congruence.
  - apply Shrunk with (h := h); congruence.
Qed.

Lemma change_refl f : change f f.
Proof. now apply Same. Qed.

Lemma rows_with_observations t f : rows (with_observations t f) = Store.rows t.
Proof. reflexivity. Qed.

Lemma sequence_with_observations t f :
  sequence (with_observations t f) = Store.sequence t.
Proof. reflexivity. Qed.

Lemma rows_present f t : observations f = Some t -> rows f = Store.rows t.
Proof. unfold rows. now intros ->. Qed.

Lemma sequence_present f t : observations f = Some t -> sequence f = Store.sequence t.
Proof. unfold sequence. now intros ->. Qed.

Lemma insert_change f ts content tags location r f' :
  in_connection (execute_insert ts content tags location) f = (r, f') ->
  change f f' /\ (forall e, r = Raise e -> f' = f).
Proof.
  rewrite insert_run.
  destruct (observations f) as [t |] eqn:O;
    [| intros H; inversion H; subst; split; [apply change_refl | auto]].
  destruct (sqlite_int ts) as [ts' | e];
    [| intros H; inversion H; subst; split; [apply change_refl | auto]].
  destruct (Store.table_insert (Some t) "observations" _) as [[id t'] | e] eqn:N;
    intros H; inversion H; subst; clear H;
    [| split; [apply change_refl | auto]].
  apply table_insert_sequence in N. destruct N as (N1 & N2 & N3 & N4).
  split; [| discriminate].
  eapply Grown with (id := id);
    rewrite ?rows_with_observations, ?sequence_with_observations,
      ?(rows_present _ _ O), ?(sequence_present _ _ O); eauto.
Qed.

Lemma select_keeps f limit offset r f' :
  in_connection (execute_select limit offset) f = (r, f') -> f' = f.
Proof.
  rewrite select_run.
  destruct (observations f) as [t |]; [| now intros H; inversion H].
  destruct (sqlite_int limit); [| now intros H; inversion H].
  destruct (sqlite_int offset); now intros H; inversion H.
Qed.

Lemma update_change f u l id r f' :
  in_connection (checked (execute_update (u :: l) id) id) f = (r, f') ->
  change f f' /\ (forall e, r = Raise e -> f' = f).
Proof.
  rewrite update_run.
  destruct (observations f) as [t |] eqn:O;
    [| intros H; inversion H; subst; split; [apply change_refl | auto]].
  destruct (and_then (bind_pairs (u :: l)) _) as [[l' i] | e];
    [| intros H; inversion H; subst; split; [apply change_refl | auto]].
  destruct (existsb (has_id i) (Store.rows t));
    intros H; inversion H; subst; clear H;
    [| split; [apply change_refl | auto]].
  split; [| discriminate].
  apply Rewritten
    with (g := fun q => if has_id i q then fold_left assign l' (snd q) else snd q).
  - rewrite rows_with_observations, (rows_present _ _ O). cbn [Store.rows].
    apply map_ext. intros [a b]. now destruct (has_id i (a, b)).
  - now rewrite sequence_with_observations, (sequence_present _ _ O).
Qed.

Lemma delete_change f id r f' :
  in_connection (checked (execute_delete id) id) f = (r, f') ->
  change f f' /\ (forall e, r = Raise e -> f' = f).
Proof.
  rewrite delete_run.
  destruct (observations f) as [t |] eqn:O;
    [| intros H; inversion H; subst; split; [apply change_refl | auto]].
  destruct (sqlite_int id) as [i | e];
    [| intros H; inversion H; subst; split; [apply change_refl | auto]].
  destruct (existsb (has_id i) (Store.rows t));
    intros H; inversion H; subst; clear H;
    [| split; [apply change_refl | auto]].
  split; [| discriminate].
  apply Shrunk with (h := fun q => negb (has_id i q)).
  - now rewrite rows_with_observations, (rows_present _ _ O).
  - now rewrite sequence_with_observations, (sequence_present _ _ O).
Qed.

(** After a command the file is the file [initialize_db] left, changed by
    at most one statement; when the command raised, not even that. *)
Lemma run_add_change content tags location timestamp p r p' :
  run_add content tags location timestamp p = (r, p') ->
  change (file p) (file p')
  /\ (forall e, r = Raise e -> file p' = snd (initialize_db (file p))).
Proof.
  rewrite run_add_run.
  destruct (initialize_db (file p)) as [[v | e] f] eqn:I;
    [| intros H; inversion H; subst; simpl;
       split; [eapply change_after_init; [exact I | apply change_refl] | auto]].
  destruct (match timestamp with Some t => Ok t | None => int_of_float (clock p) end)
    as [ts | e];
    [| intros H; inversion H; subst; simpl;
       split; [eapply change_after_init; [exact I | apply change_refl] | auto]].
  destruct (in_connection _ f) as [[id | e] f'] eqn:C;
    apply insert_change in C; destruct C as (C1 & C2);
    intros H; inversion H; subst; simpl;
    (split; [eapply change_after_init; eauto |]).
  - discriminate.
  - intros e0 _. eauto.
Qed.

Lemma run_list_keeps limit offset p r p' :
  run_list limit offset p = (r, p') ->
  file p' = snd (initialize_db (file p)).
Proof.
  rewrite run_list_run.
  destruct (initialize_db (file p)) as [[v | e] f] eqn:I;
    [| now intros H; inversion H].
  destruct (in_connection _ f) as [[rs | e] f'] eqn:C;
    apply select_keeps in C; subst f';
    [destruct rs |]; now intros H; inversion H.
Qed.

Lemma run_update_change id content tags location timestamp p r p' :
  run_update id content tags location timestamp p = (r, p') ->
  change (file p) (file p')
  /\ (forall e, r = Raise e -> file p' = snd (initialize_db (file p))).
Proof.
  rewrite run_update_run.
  destruct (initialize_db (file p)) as [[v | e] f] eqn:I;
    [| intros H; inversion H; subst; simpl;
       split; [eapply change_after_init; [exact I | apply change_refl] | auto]].
  destruct (_build_update_pairs content tags location timestamp) as [| u l];
    [intros H; inversion H; subst; simpl;
     split; [eapply change_after_init; [exact I | apply change_refl] | auto] |].
  destruct (in_connection _ f) as [[[] | e] f'] eqn:C;
    apply update_change in C; destruct C as (C1 & C2);
    intros H; inversion H; subst; simpl;
    (split; [eapply change_after_init; eauto |]).
  - discriminate.
  - intros e0 _. eauto.
Qed.

Lemma delete_keeps id p r p' :
  delete id p = (r, p') ->
  change (file p) (file p') /\ (forall e, r = Raise e -> file p' = file p).
Proof.
  rewrite delete_unfold.
  destruct (in_connection _ (file p)) as [[[] | e] f'] eqn:C;
    apply delete_change in C; destruct C as (C1 & C2);
    intros H; inversion H; subst; simpl; (split; [exact C1 |]).
  - discriminate.
  - intros e0 _. eauto.
Qed.

Lemma run_delete_change id force p r p' :
  run_delete id force p = (r, p') ->
  change (file p) (file p')
  /\ (forall e, r = Raise e -> file p' = snd (initialize_db (file p))).
Proof.
  rewrite run_delete_run.
  destruct (initialize_db (file p)) as [[v | e] f] eqn:I;
    [| intros H; inversion H; subst; simpl;
       split; [eapply change_after_init; [exact I | apply change_refl] | auto]].
  destruct force.
  - intros H. apply delete_keeps in H. destruct H as (C1 & C2). simpl in *.
    split; [eapply change_after_init; eauto | exact C2].
  - destruct (stdin p) as [| answer rest];
      [intros H; inversion H; subst; simpl;
       split; [eapply change_after_init; [exact I | apply change_refl] | auto] |].
    cbn zeta. destruct (String.eqb (lower (strip answer)) "yes").
    + intros H. apply delete_keeps in H. destruct H as (C1 & C2). simpl in *.
      split; [eapply change_after_init; eauto | exact C2].
    + intros H; inversion H; subst; simpl.
      split; [eapply change_after_init; [exact I | apply change_refl] | discriminate].
Qed.

(** *** Listing *)

Lemma precedes_spec a b : precedes a b = true <-> newest_first a b.
Proof.
  unfold precedes, newest_first. rewrite orb_true_iff, andb_true_iff.
  rewrite Z.ltb_lt, Z.eqb_eq, Z.leb_le. tauto.
Qed.

Lemma newest_first_total a b : newest_first a b \/ newest_first b a.
Proof. unfold newest_first. lia. Qed.

Lemma newest_first_trans a b c :
  newest_first a b -> newest_first b c -> newest_first a c.
Proof. unfold newest_first. lia. Qed.

Lemma place_perm a l : Permutation (a :: l) (place a l).
Proof.
  induction l as [| b l IH]; simpl; [reflexivity |].
  destruct (precedes a b); [reflexivity |].
  rewrite perm_swap. now apply perm_skip.
Qed.

Lemma place_sorted a l :
  StronglySorted newest_first l -> StronglySorted newest_first (place a l).
Proof.
  induction l as [| b l IH]; intros S; simpl.
  - constructor; constructor.
  - inversion S as [| b' l' Sl Fb]; subst.
    destruct (precedes a b) eqn:E.
    + apply precedes_spec in E. constructor; [exact S |].
      constructor; [exact E |].
      eapply Forall_impl; [| exact Fb]. intros c Hc.
      eapply newest_first_trans; eauto.
    + constructor; [now apply IH |].
      assert (Hba : newest_first b a).
      { destruct (newest_first_total a b) as [H | H]; [| exact H].
        apply precedes_spec in H. congruence. }
      eapply Permutation_Forall; [apply place_perm |].
      constructor; assumption.
Qed.

Lemma order_by_perm l : Permutation (order_by l) l.
Proof.
  induction l as [| a l IH]; simpl; [reflexivity |].
  rewrite <- place_perm. now apply perm_skip.
Qed.

Lemma order_by_sorted l : StronglySorted newest_first (order_by l).
Proof.
  induction l as [| a l IH]; simpl; [constructor | now apply place_sorted].
Qed.

Lemma skipn_sorted {A : Type} (R : A -> A -> Prop) n l :
  StronglySorted R l -> StronglySorted R (skipn n l).
Proof.
  revert l. induction n as [| n IH]; intros l S; [exact S |].
  destruct l as [| a l]; [exact S |]. simpl. apply IH. now inversion S.
Qed.

Lemma firstn_subset {A : Type} n (l : list A) x : In x (firstn n l) -> In x l.
Proof.
  intros H. rewrite <- (firstn_skipn n l). apply in_or_app. now left.
Qed.

Lemma skipn_subset {A : Type} n (l : list A) x : In x (skipn n l) -> In x l.
Proof.
  intros H. rewrite <- (firstn_skipn n l). apply in_or_app. now right.
Qed.

Lemma firstn_sorted {A : Type} (R : A -> A -> Prop) n l :
  StronglySorted R l -> StronglySorted R (firstn n l).
Proof.
  revert l. induction n as [| n IH]; intros l S; [constructor |].
  destruct l as [| a l]; [constructor |]. simpl.
  inversion S as [| a' l' Sl Fa]; subst. constructor; [now apply IH |].
  apply Forall_forall. intros x Hx. apply firstn_subset in Hx.
  revert x Hx. now apply Forall_forall.
Qed.

Lemma limit_offset_sorted {A : Type} (R : A -> A -> Prop) limit offset l :
  StronglySorted R l -> StronglySorted R (limit_offset limit offset l).
Proof.
  intros S. unfold limit_offset.
  destruct (limit <? 0); [| apply firstn_sorted]; now apply skipn_sorted.
Qed.

Lemma limit_offset_subset {A : Type} limit offset (l : list A) x :
  In x (limit_offset limit offset l) -> In x l.
Proof.
  unfold limit_offset. destruct (limit <? 0); intros H.
  - eapply skipn_subset; eauto.
  - eapply skipn_subset. eapply firstn_subset. eauto.
Qed.

Lemma listing_columns (page : list (Z * observation)) :
  match map columns page with
  | [] => [Print "No observations found."]
  | _ :: _ => map (fun r => Print (line_of (_row_to_observation r))) (map columns page)
  end = listing page.
Proof.
  destruct page as [| q page]; [reflexivity |].
  unfold listing, line. now rewrite map_map.
Qed.

(** What a [run_list] that returns has done. *)
Lemma run_list_ok limit offset p p' :
  run_list limit offset p = (Ok tt, p') ->
  exists v f t,
    initialize_db (file p) = (Ok v, f)
    /\ observations f = Some t
    /\ fits limit /\ fits offset
    /\ p' = printing (listing (limit_offset limit offset (order_by (Store.rows t))))
              (with_file f p).
Proof.
  rewrite run_list_run.
  destruct (initialize_db (file p)) as [[v | e] f] eqn:I; [| discriminate].
  rewrite select_run.
  destruct (observations f) as [t |] eqn:O; [| discriminate].
  destruct (sqlite_int limit) as [lim | e] eqn:L; [| discriminate].
  destruct (sqlite_int offset) as [off | e] eqn:F; [| discriminate].
  apply sqlite_int_ok in L. destruct L as (-> & L).
  apply sqlite_int_ok in F. destruct F as (-> & F).
  intros H. exists v, f, t. repeat (split; [assumption || reflexivity |]).
  rewrite <- listing_columns.
  destruct (map columns _) as [| r rs]; now inversion H.
Qed.

(** X5.  When [run_list] returns, it has printed a page of the log put in
    order, the later timestamp first and the larger identifier first among
    equal timestamps: the rows after the first [offset] ones (a negative
    offset counts as 0), and of these at most [limit] (a negative limit is
    no limit); for an empty page it prints that no observation was found.
    The log keeps its rows. *)
Theorem list_prints_a_page_newest_first limit offset p p' :
  run_list limit offset p = (Ok tt, p') ->
  exists sorted,
    Permutation sorted (rows (file p))
    /\ StronglySorted newest_first sorted
    /\ console p' = console p ++ listing (limit_offset limit offset sorted)
    /\ (0 <= limit ->
        Z.of_nat (List.length (limit_offset limit offset sorted)) <= limit)
    /\ (limit < 0 -> offset <= 0 -> limit_offset limit offset sorted = sorted)
    /\ rows (file p') = rows (file p)
    /\ stdin p' = stdin p.
Proof.
  intros H. apply run_list_ok in H.
  destruct H as (v & f & t & I & O & _ & _ & ->).
  destruct (initialize_db_keeps _ _ _ I) as (Hr & _).
  rewrite (rows_present _ _ O) in Hr.
  exists (order_by (Store.rows t)). cbn [file console stdin printing with_file].
  split; [rewrite <- Hr; apply order_by_perm |].
  split; [apply order_by_sorted |].
  split; [reflexivity |].
  split; [| split; [| split; [now rewrite (rows_present _ _ O) | reflexivity]]].
  - intros L. unfold limit_offset.
    destruct (limit <? 0) eqn:E; [apply Z.ltb_lt in E; lia |].
    pose proof (firstn_le_length (Z.to_nat limit)
                  (skipn (Z.to_nat offset) (order_by (Store.rows t)))). lia.
  - intros L F. unfold limit_offset.
    apply Z.ltb_lt in L. rewrite L.
    replace (Z.to_nat offset) with 0%nat by lia. reflexivity.
Qed.


(** *** Adding, then listing *)

(** What a [run_add] that returns has done. *)
Lemma run_add_ok content tags location timestamp p p' :
  run_add content tags location timestamp p = (Ok tt, p') ->
  exists v f t ts id t',
    initialize_db (file p) = (Ok v, f)
    /\ observations f = Some t
    /\ match timestamp with
       | Some n => ts = n
       | None => int_of_float (clock p) = Ok ts
       end
    /\ fits ts
    /\ Store.table_insert (Some t) "observations"
         {| Evez.timestamp := ts; Evez.content := content;
            Evez.tags := tags; Evez.location := location |} = Ok (id, t')
    /\ p' = printing [Print ("Added observation " ++ str_of_int id ++ " at "
                             ++ str_of_int ts ++ ".")%string]
              (with_file (with_observations t' f) p).
Proof.
  rewrite run_add_run.
  destruct (initialize_db (file p)) as [[v | e] f] eqn:I; [| discriminate].
  destruct (match timestamp with Some t => Ok t | None => int_of_float (clock p) end)
    as [ts | e] eqn:T; [| discriminate].
  rewrite insert_run.
  destruct (observations f) as [t |] eqn:O; [| discriminate].
  destruct (sqlite_int ts) as [ts' | e] eqn:S; [| discriminate].
  apply sqlite_int_ok in S. destruct S as (-> & Hf).
  destruct (Store.table_insert (Some t) "observations" _) as [[id t'] | e] eqn:N;
    [| discriminate].
  intros H. inversion H; subst; clear H.
  exists v, f, t, ts, id, t'.
  split; [reflexivity |]. split; [exact O |].
  split; [destruct timestamp; [now inversion T | exact T] |].
  split; [exact Hf |]. split; [exact N | reflexivity].
Qed.

Lemma with_file_same p : with_file (file p) p = p.
Proof. now destruct p. Qed.

Lemma listing_In q page : In q page -> In (Print (line q)) (listing page).
Proof.
  intros H. destruct page as [| a page]; [contradiction |].
  unfold listing. now apply (in_map (fun q => Print (line q))).
Qed.

(** X6.  An observation that was added is listed: after [run_add] has
    told the identifier and the timestamp, [run_list] without a limit
    prints the line of that identifier, with that timestamp and the
    content, tags and location that were given. *)
Theorem added_observation_is_listed content tags location timestamp p p1 :
  run_add content tags location timestamp p = (Ok tt, p1) ->
  exists id ts out,
    console p1
    = console p ++ [Print ("Added observation " ++ str_of_int id ++ " at "
                           ++ str_of_int ts ++ ".")%string]
    /\ run_list (-1) 0 p1 = (Ok tt, printing out p1)
    /\ In (Print (line (id, {| Evez.timestamp := ts; Evez.content := content;
                               Evez.tags := tags; Evez.location := location |})))
          out.
Proof.
  intros H. apply run_add_ok in H.
  destruct H as (v & f & t & ts & id & t' & I & O & _ & _ & N & ->).
  exists id, ts, (listing (order_by (Store.rows t'))).
  split; [reflexivity |].
  destruct (initialize_db_again _ _ _ I) as (_ & Hv & _).
  assert (I1 : initialize_db (with_observations t' f)
               = (Ok SCHEMA_VERSION, with_observations t' f)).
  { apply EvezFacts.initialize_db_current. exact Hv. }
  split.
  - rewrite run_list_run. cbn [file printing with_file]. rewrite I1, select_run.
    cbn [observations with_observations].
    change (sqlite_int (-1)) with (@Ok Z (-1)). change (sqlite_int 0) with (@Ok Z 0).
    cbv iota. rewrite <- listing_columns.
    change (limit_offset (-1) 0 (order_by (Store.rows t')))
      with (order_by (Store.rows t')).
    destruct (map columns (order_by (Store.rows t'))); reflexivity.
  - apply listing_In. apply (Permutation_in _ (Permutation_sym (order_by_perm _))).
    apply table_insert_sequence in N. destruct N as (_ & _ & -> & _).
    apply in_or_app. right. now left.
Qed.

(** X7.  Pages follow one another: on a file that opens, with [a], [b] and
    [k] not negative, the page of [a] rows after the first [k] and the page
    of [b] rows after the first [k + a] make up, one after the other, the
    page of [a + b] rows after the first [k]. *)
Theorem pages_follow_one_another a b k p f :
  opens (file p) f ->
  0 <= a -> 0 <= b -> 0 <= k ->
  fits (a + b) -> fits (k + a) ->
  exists first second,
    run_list a k p = (Ok tt, printing (listing first) (with_file f p))
    /\ run_list b (k + a) p = (Ok tt, printing (listing second) (with_file f p))
    /\ run_list (a + b) k p
       = (Ok tt, printing (listing (first ++ second)) (with_file f p)).
Proof.
  intros (v & t & I & O) Ha Hb Hk Fab Fka.
  assert (P : forall lim off, fits lim -> fits off ->
            run_list lim off p
            = (Ok tt, printing (listing (limit_offset lim off (order_by (Store.rows t))))
                        (with_file f p))).
  { intros lim off Fl Fo. rewrite run_list_run, I, select_run, O.
    rewrite (sqlite_int_fits _ Fl), (sqlite_int_fits _ Fo).
    rewrite <- listing_columns.
    destruct (map columns _); reflexivity. }
  unfold fits in *.
  exists (limit_offset a k (order_by (Store.rows t))),
         (limit_offset b (k + a) (order_by (Store.rows t))).
  split; [apply P; unfold fits; lia |].
  split; [apply P; unfold fits; lia |].
  rewrite P by (unfold fits; lia). do 3 f_equal.
  unfold limit_offset.
  destruct (a <? 0) eqn:E1; [apply Z.ltb_lt in E1; lia |].
  destruct (b <? 0) eqn:E2; [apply Z.ltb_lt in E2; lia |].
  destruct (a + b <? 0) eqn:E3; [apply Z.ltb_lt in E3; lia |].
  replace (Z.to_nat (k + a)) with (Z.to_nat a + Z.to_nat k)%nat by lia.
  replace (Z.to_nat (a + b)) with (Z.to_nat a + Z.to_nat b)%nat by lia.
  rewrite <- skipn_skipn.
  generalize (skipn (Z.to_nat k) (order_by (Store.rows t))) as l.
  generalize (Z.to_nat b) as m. generalize (Z.to_nat a) as n.
  induction n as [| n IH]; intros m l; [reflexivity |].
  destruct l as [| x l]; simpl.
  - now rewrite firstn_nil.
  - now rewrite IH.
Qed.


(** *** Updating *)

Lemma bind_pairs_ok l l' :
  bind_pairs l = Ok l' -> l' = l.
Proof.
  revert l'. induction l as [| u l IH]; intros l' H; simpl in H.
  - now inversion H.
  - destruct u as [s | s | s | n]; simpl in H;
      try (destruct (bind_pairs l) as [l0 |]; [| discriminate];
           inversion H; subst; now rewrite (IH l0 eq_refl)).
    destruct (sqlite_int n) as [n' |] eqn:S; [| discriminate]. simpl in H.
    apply sqlite_int_ok in S. destruct S as (-> & _).
    destruct (bind_pairs l) as [l0 |]; [| discriminate].
    inversion H; subst. now rewrite (IH l0 eq_refl).
Qed.

Lemma bind_pairs_raise l e :
  bind_pairs l = Raise e ->
  e = OverflowError "Python int too large to convert to SQLite INTEGER".
Proof.
  induction l as [| u l IH]; simpl; [discriminate |].
  destruct u as [s | s | s | n]; simpl;
    try (destruct (bind_pairs l); [discriminate | intros H; inversion H; subst; auto]).
  unfold sqlite_int.
  destruct ((_ <=? n) && (n <=? _)); simpl.
  - destruct (bind_pairs l); [discriminate | intros H; inversion H; subst; auto].
  - intros H. now inversion H.
Qed.

Lemma bind_pairs_fits content tags location timestamp :
  (forall n, timestamp = Some n -> fits n) ->
  bind_pairs (_build_update_pairs content tags location timestamp)
  = Ok (_build_update_pairs content tags location timestamp).
Proof.
  intros F. unfold _build_update_pairs.
  destruct timestamp as [n |];
    [pose proof (sqlite_int_fits n (F n eq_refl)) as S |];
    destruct content, tags, location; simpl; rewrite ?S; reflexivity.
Qed.

(** The assignments of a statement, one after the other, put the given
    fields in place. *)
Lemma assign_updated content tags location timestamp o :
  fold_left assign (_build_update_pairs content tags location timestamp) o
  = updated content tags location timestamp o.
Proof.
  destruct o. destruct content, tags, location, timestamp; reflexivity.
Qed.

Lemma has_id_exists id (l : list (Z * observation)) :
  existsb (has_id id) l = true <-> In id (map fst l).
Proof.
  rewrite existsb_exists, in_map_iff. unfold has_id.
  split; intros (q & A & B); exists q.
  - apply Z.eqb_eq in B. tauto.
  - split; [tauto | now apply Z.eqb_eq].
Qed.

(** X8.  When [run_update] returns, the observation of that identifier
    was in the log, and it has the fields that were given in place of its
    own; its other fields, its identifier and its place are kept, and so is
    every other row.  A field cannot be cleared: tags and location that
    were set stay set. *)
Theorem update_replaces_the_given_fields id content tags location timestamp p p' :
  run_update id content tags location timestamp p = (Ok tt, p') ->
  In id (map fst (rows (file p)))
  /\ rows (file p')
     = map (fun q => if fst q =? id
                     then (fst q, updated content tags location timestamp (snd q))
                     else q)
         (rows (file p))
  /\ map fst (rows (file p')) = map fst (rows (file p))
  /\ Forall2 (fun q q' =>
                (Evez.tags (snd q) <> None -> Evez.tags (snd q') <> None)
                /\ (Evez.location (snd q) <> None -> Evez.location (snd q') <> None))
       (rows (file p)) (rows (file p'))
  /\ sequence (file p') = sequence (file p)
  /\ console p'
     = console p ++ [Print ("Updated observation " ++ str_of_int id ++ ".")%string].
Proof.
  rewrite run_update_run.
  destruct (initialize_db (file p)) as [[v | e] f] eqn:I; [| discriminate].
  destruct (initialize_db_keeps _ _ _ I) as (Hr & Hs).
  destruct (_build_update_pairs content tags location timestamp) as [| u l] eqn:B;
    [discriminate |].
  rewrite update_run.
  destruct (observations f) as [t |] eqn:O; [| discriminate].
  rewrite (rows_present _ _ O) in Hr. rewrite (sequence_present _ _ O) in Hs.
  destruct (bind_pairs (u :: l)) as [l' |] eqn:P; [| discriminate].
  apply bind_pairs_ok in P. subst l'. cbn [and_then].
  destruct (sqlite_int id) as [i |] eqn:S; [| discriminate].
  apply sqlite_int_ok in S. destruct S as (-> & _). cbn [and_then].
  destruct (existsb (has_id id) (Store.rows t)) eqn:X; [| discriminate].
  intros H. inversion H; subst; clear H.
  cbn [file console printing with_file].
  rewrite rows_with_observations, sequence_with_observations. cbn [Store.rows Store.sequence].
  rewrite <- Hr.
  assert (E : map (fun q => if has_id id q then (fst q, fold_left assign (u :: l) (snd q))
                            else q) (Store.rows t)
              = map (fun q => if fst q =? id
                              then (fst q, updated content tags location timestamp (snd q))
                              else q) (Store.rows t)).
  { apply map_ext. intros q. unfold has_id. rewrite <- B, assign_updated. reflexivity. }
  cbn [fold_left] in E. rewrite E.
  split; [now apply has_id_exists |]. split; [reflexivity |].
  split; [| split; [| split; [exact Hs | reflexivity]]].
  - rewrite map_map. apply map_ext. intros q. now destruct (fst q =? id).
  - clear. induction (Store.rows t) as [| q l IH]; simpl; constructor; [| exact IH].
    destruct (fst q =? id); [| tauto]. simpl.
    destruct tags, location; split; intros H; try discriminate; exact H.
Qed.

(** X9.  An update that names no field is refused: [run_update] with no
    content, tags, location or timestamp never returns.  The schema is set
    up all the same: the file is as [initialize_db] leaves it, and unless
    that raised, the error is the [ValueError] that no field was given.
    Nothing is printed. *)
Theorem update_without_fields_is_refused id p r p' :
  run_update id None None None None p = (r, p') ->
  (exists e, r = Raise e)
  /\ (fst (initialize_db (file p)) = Ok SCHEMA_VERSION ->
      r = Raise (ValueError "No fields provided for update."))
  /\ p' = with_file (snd (initialize_db (file p))) p
  /\ rows (file p') = rows (file p).
Proof.
  rewrite run_update_run. cbn [_build_update_pairs app].
  destruct (initialize_db (file p)) as [[v | e] f] eqn:I;
    intros H; inversion H; subst; clear H; cbn [fst snd file with_file].
  - split; [eauto |]. split; [reflexivity |]. split; [reflexivity |].
    exact (proj1 (initialize_db_keeps _ _ _ I)).
  - split; [eauto |]. split; [discriminate |]. split; [reflexivity |].
    exact (proj1 (initialize_db_keeps _ _ _ I)).
Qed.

(** *** Deleting *)

Lemma not_in_rows id (l : list (Z * observation)) :
  ~ In id (map fst l) -> existsb (has_id id) l = false.
Proof.
  intros H. destruct (existsb (has_id id) l) eqn:E; [| reflexivity].
  apply has_id_exists in E. contradiction.
Qed.

(** X10.  An identifier that is not in the log is reported: on a file
    that opens, [run_delete] (forced) and [run_update] (with a field to
    set) raise the [ValueError] that the observation was not found, print
    nothing and leave the file as [initialize_db] left it. *)
Theorem unknown_identifier_is_reported id p f :
  opens (file p) f ->
  fits id ->
  ~ In id (map fst (rows (file p))) ->
  run_delete id true p = (Raise (not_found id), with_file f p)
  /\ (forall content tags location timestamp,
         _build_update_pairs content tags location timestamp <> [] ->
         (forall n, timestamp = Some n -> fits n) ->
         run_update id content tags location timestamp p
         = (Raise (not_found id), with_file f p)).
Proof.
  intros (v & t & I & O) F N.
  destruct (initialize_db_keeps _ _ _ I) as (Hr & _).
  rewrite <- Hr, (rows_present _ _ O) in N. apply not_in_rows in N.
  split.
  - rewrite run_delete_run, I, delete_unfold. cbn [file with_file].
    rewrite delete_run, O, (sqlite_int_fits _ F), N. reflexivity.
  - intros content tags location timestamp B T.
    rewrite run_update_run, I.
    pose proof (bind_pairs_fits content tags location timestamp T) as P.
    destruct (_build_update_pairs content tags location timestamp) as [| u l];
      [contradiction |].
    rewrite update_run, O, P. cbn [and_then].
    rewrite (sqlite_int_fits _ F). cbn [and_then]. rewrite N. reflexivity.
Qed.

(** X11.  An integer that does not fit 64 bits is refused before any row
    is touched: as the timestamp of [run_add], as the identifier of
    [run_delete] or of [run_update], it makes the command raise
    [OverflowError], print nothing and leave the file as [initialize_db]
    left it. *)
Theorem integer_beyond_64_bits_is_refused n p f :
  opens (file p) f ->
  ~ fits n ->
  let overflow := OverflowError "Python int too large to convert to SQLite INTEGER" in
  (forall content tags location,
      run_add content tags location (Some n) p = (Raise overflow, with_file f p))
  /\ run_delete n true p = (Raise overflow, with_file f p)
  /\ (forall content tags location timestamp,
         _build_update_pairs content tags location timestamp <> [] ->
         run_update n content tags location timestamp p
         = (Raise overflow, with_file f p)).
Proof.
  intros (v & t & I & O) F overflow.
  pose proof (sqlite_int_overflow _ F) as S. fold overflow in S.
  split; [| split].
  - intros content tags location.
    rewrite run_add_run, I, insert_run, O, S. reflexivity.
  - rewrite run_delete_run, I, delete_unfold. cbn [file with_file].
    rewrite delete_run, O, S. reflexivity.
  - intros content tags location timestamp B.
    rewrite run_update_run, I.
    destruct (_build_update_pairs content tags location timestamp) as [| u l];
      [contradiction |].
    rewrite update_run, O.
    destruct (bind_pairs (u :: l)) as [l' | e] eqn:P; cbn [and_then].
    + rewrite S. reflexivity.
    + apply bind_pairs_raise in P. subst e. reflexivity.
Qed.

(** X12.  Nothing is deleted without a yes.  Unless forced, [run_delete]
    changes the rows only when the line read at its question, without the
    white space around it and in lower case, is [yes]; it then returns.
    Any other answer is no error: the command says that the deletion was
    cancelled, returns, and leaves the file as [initialize_db] left it. *)
Theorem nothing_is_deleted_without_a_yes id p r p' :
  run_delete id false p = (r, p') ->
  (rows (file p') <> rows (file p) ->
   exists answer rest,
     stdin p = answer :: rest /\ lower (strip answer) = "yes"%string /\ r = Ok tt)
  /\ (forall answer rest v f,
         stdin p = answer :: rest ->
         lower (strip answer) <> "yes"%string ->
         initialize_db (file p) = (Ok v, f) ->
         r = Ok tt
         /\ file p' = f /\ stdin p' = rest
         /\ console p'
            = console p
              ++ [Prompt ("Delete observation " ++ str_of_int id
                          ++ "? Type 'yes' to confirm: ")%string;
                  Read answer; Print "Delete cancelled."]).
Proof.
  rewrite run_delete_run.
  destruct (initialize_db (file p)) as [[v | e] f] eqn:I.
  - destruct (initialize_db_keeps _ _ _ I) as (Hr & _).
    destruct (stdin p) as [| answer rest] eqn:L.
    + intros H; inversion H; subst; clear H. cbn [file].
      split; [congruence | discriminate].
    + cbn zeta. destruct (String.eqb (lower (strip answer)) "yes") eqn:Y.
      * apply String.eqb_eq in Y. intros H. split.
        -- intros D. exists answer, rest. split; [reflexivity |]. split; [exact Y |].
           destruct r as [[] | e]; [reflexivity |].
           apply delete_keeps in H. destruct H as (_ & H).
           rewrite (H e eq_refl) in D. cbn [file] in D. congruence.
        -- intros a b v0 f0 E N. inversion E; subst. contradiction.
      * intros H; inversion H; subst; clear H. cbn [file stdin console printing].
        split; [congruence |].
        intros a b v0 f0 E N J. inversion E; subst. inversion J; subst.
        rewrite <- app_assoc. auto.
  - intros H; inversion H; subst; clear H. cbn [file].
    split; [| discriminate].
    intros D. exfalso. apply D. exact (proj1 (initialize_db_keeps _ _ _ I)).
Qed.

(** X13.  When a forced [run_delete] returns, the observation of that
    identifier was in the log and is no longer; the other rows are kept in
    their order, and so is the table's entry in [sqlite_sequence].  A
    second deletion of the same identifier raises the [ValueError] that
    the observation was not found. *)
Theorem delete_removes_the_observation id p p' :
  run_delete id true p = (Ok tt, p') ->
  In id (map fst (rows (file p)))
  /\ rows (file p') = filter (fun q => negb (fst q =? id)) (rows (file p))
  /\ ~ In id (map fst (rows (file p')))
  /\ sequence (file p') = sequence (file p)
  /\ console p'
     = console p ++ [Print ("Deleted observation " ++ str_of_int id ++ ".")%string]
  /\ run_delete id true p' = (Raise (not_found id), p').
Proof.
  rewrite run_delete_run.
  destruct (initialize_db (file p)) as [[v | e] f] eqn:I; [| discriminate].
  destruct (initialize_db_keeps _ _ _ I) as (Hr & Hs).
  destruct (initialize_db_again _ _ _ I) as (_ & Hv & _).
  rewrite delete_unfold. cbn [file with_file]. rewrite delete_run.
  destruct (observations f) as [t |] eqn:O; [| discriminate].
  rewrite (rows_present _ _ O) in Hr. rewrite (sequence_present _ _ O) in Hs.
  destruct (sqlite_int id) as [i |] eqn:S; [| discriminate].
  apply sqlite_int_ok in S. destruct S as (-> & F).
  destruct (existsb (has_id id) (Store.rows t)) eqn:X; [| discriminate].
  intros H. inversion H; subst; clear H.
  cbn [file console printing with_file clock stdin].
  rewrite rows_with_observations, sequence_with_observations.
  cbn [Store.rows Store.sequence]. rewrite <- Hr.
  assert (G : ~ In id (map fst (filter (fun q => negb (has_id id q)) (Store.rows t)))).
  { intros C. apply in_map_iff in C. destruct C as (q & <- & C).
    apply filter_In in C. destruct C as (_ & C). unfold has_id in C.
    rewrite Z.eqb_refl in C. discriminate C. }
  split; [now apply has_id_exists |]. split; [reflexivity |].
  split; [exact G |]. split; [exact Hs |]. split; [reflexivity |].
  rewrite run_delete_run. cbn [file].
  rewrite EvezFacts.initialize_db_current by exact Hv.
  rewrite delete_unfold. cbn [file with_file printing]. rewrite delete_run.
  cbn [observations with_observations]. rewrite (sqlite_int_fits _ F).
  cbn [Store.rows]. rewrite (not_in_rows _ _ G). reflexivity.
Qed.


(** *** Commands one after the other *)

(** What a [run_update] that returns has done. *)
Lemma run_update_ok id content tags location timestamp p p' :
  run_update id content tags location timestamp p = (Ok tt, p') ->
  exists v f t,
    initialize_db (file p) = (Ok v, f)
    /\ observations f = Some t
    /\ _build_update_pairs content tags location timestamp <> []
    /\ bind_pairs (_build_update_pairs content tags location timestamp)
       = Ok (_build_update_pairs content tags location timestamp)
    /\ fits id
    /\ existsb (has_id id) (Store.rows t) = true
    /\ p' = printing [Print ("Updated observation " ++ str_of_int id ++ ".")%string]
              (with_file
                 (with_observations
                    {| Store.sequence := Store.sequence t;
                       Store.rows :=
                         map (fun q => if has_id id q
                                       then (fst q,
                                             updated content tags location timestamp (snd q))
                                       else q)
                           (Store.rows t) |} f) p).
Proof.
  rewrite run_update_run.
  destruct (initialize_db (file p)) as [[v | e] f] eqn:I; [| discriminate].
  destruct (_build_update_pairs content tags location timestamp) as [| u l] eqn:B;
    [discriminate |].
  rewrite update_run.
  destruct (observations f) as [t |] eqn:O; [| discriminate].
  destruct (bind_pairs (u :: l)) as [l' |] eqn:P; [| discriminate].
  pose proof (bind_pairs_ok _ _ P) as ->. cbn [and_then].
  destruct (sqlite_int id) as [i |] eqn:S; [| discriminate].
  apply sqlite_int_ok in S. destruct S as (-> & F). cbn [and_then].
  destruct (existsb (has_id id) (Store.rows t)) eqn:X; [| discriminate].
  assert (E : map (fun q => if has_id id q then (fst q, fold_left assign (u :: l) (snd q))
                            else q) (Store.rows t)
              = map (fun q => if has_id id q
                              then (fst q, updated content tags location timestamp (snd q))
                              else q) (Store.rows t)).
  { apply map_ext. intros q. rewrite <- B, assign_updated. reflexivity. }
  rewrite E. intros H. exists v, f, t.
  split; [reflexivity |]. split; [exact O |]. split; [discriminate |].
  split; [reflexivity |]. split; [exact F |]. split; [exact X |].
  now inversion H.
Qed.

Lemma updated_twice content tags location timestamp o :
  updated content tags location timestamp (updated content tags location timestamp o)
  = updated content tags location timestamp o.
Proof. destruct o, content, tags, location, timestamp; reflexivity. Qed.

(** X22.  An update done twice is an update done once: after [run_update]
    has returned, the same command returns again and leaves the file as the
    first one left it. *)
Theorem update_twice_is_update_once id content tags location timestamp p p1 :
  run_update id content tags location timestamp p = (Ok tt, p1) ->
  exists p2,
    run_update id content tags location timestamp p1 = (Ok tt, p2)
    /\ file p2 = file p1.
Proof.
  intros H. apply run_update_ok in H.
  destruct H as (v & f & t & I & O & B & P & F & X & ->).
  destruct (initialize_db_again _ _ _ I) as (_ & Hv & _).
  rewrite run_update_run. cbn [file printing with_file].
  rewrite EvezFacts.initialize_db_current by exact Hv.
  destruct (_build_update_pairs content tags location timestamp) as [| u l] eqn:E;
    [contradiction |].
  rewrite update_run. cbn [observations with_observations].
  rewrite P. cbn [and_then]. rewrite (sqlite_int_fits _ F). cbn [and_then Store.rows].
  assert (X' : existsb (has_id id)
                 (map (fun q => if has_id id q
                                then (fst q, updated content tags location timestamp (snd q))
                                else q) (Store.rows t)) = true).
  { apply has_id_exists. apply has_id_exists in X. rewrite map_map.
    erewrite map_ext; [exact X |]. intros q. now destruct (has_id id q). }
  rewrite X'. eexists. split; [reflexivity |].
  cbn [file printing with_file]. unfold with_observations.
  cbn [schema_version observations idx_observations_timestamp idx_observations_location
       Store.sequence Store.rows].
  do 3 f_equal. rewrite map_map. apply map_ext. intros q.
  destruct (has_id id q) eqn:Q.
  - unfold has_id in *. cbn [fst snd]. rewrite Q.
    rewrite <- E, assign_updated, updated_twice. reflexivity.
  - now rewrite Q.
Qed.

Lemma max_rowid_least {R : Type} (l : list (Z * R)) : 0 <= Store.max_rowid l.
Proof. unfold Store.max_rowid. induction l as [| q l IH]; simpl; lia. Qed.

Lemma table_insert_fits {R : Type} (t : Store.table R) name (r : R) id t' :
  Store.table_insert (Some t) name r = Ok (id, t') -> fits id.
Proof.
  unfold Store.table_insert, Store.allocate.
  destruct (Store.rowid_max <=? _) eqn:E; [discriminate |].
  intros H. inversion H; subst; clear H. apply Z.leb_gt in E.
  pose proof (max_rowid_least (Store.rows t)).
  unfold fits, Store.rowid_max in *. lia.
Qed.

(** X23.  An observation added and then deleted leaves the rows as they
    were, but not its identifier free: after [run_add], the forced
    [run_delete] of the identifier it gave returns and the log has the rows
    it had before the two commands, while the table's entry in
    [sqlite_sequence] stays at that identifier, above what it was. *)
Theorem add_then_delete_restores_the_rows content tags location timestamp p p1 :
  run_add content tags location timestamp p = (Ok tt, p1) ->
  exists id p2,
    sequence (file p1) = id
    /\ run_delete id true p1 = (Ok tt, p2)
    /\ rows (file p2) = rows (file p)
    /\ sequence (file p2) = id
    /\ sequence (file p) < id.
Proof.
  intros H. apply run_add_ok in H.
  destruct H as (v & f & t & ts & id & t' & I & O & _ & _ & N & ->).
  destruct (initialize_db_keeps _ _ _ I) as (Hr & Hs).
  destruct (initialize_db_again _ _ _ I) as (_ & Hv & _).
  pose proof (table_insert_fits _ _ _ _ _ N) as F.
  apply table_insert_sequence in N. destruct N as (N1 & N2 & N3 & N4).
  exists id. eexists. cbn [file printing with_file].
  split; [exact N2 |].
  rewrite run_delete_run. cbn [file printing with_file].
  rewrite EvezFacts.initialize_db_current by exact Hv.
  rewrite delete_unfold. cbn [file with_file]. rewrite delete_run.
  cbn [observations with_observations]. rewrite (sqlite_int_fits _ F).
  assert (X : existsb (has_id id) (Store.rows t') = true).
  { apply has_id_exists. rewrite N3, map_app. apply in_or_app. right. now left. }
  rewrite X. split; [reflexivity |]. cbn [file printing with_file].
  rewrite rows_with_observations, sequence_with_observations. cbn [Store.rows Store.sequence].
  split; [| split; [exact N2 | rewrite <- Hs, (sequence_present _ _ O); exact N1]].
  rewrite <- Hr, (rows_present _ _ O), N3, filter_app. cbn [filter].
  unfold has_id at 2. cbn [fst]. rewrite Z.eqb_refl. cbn [negb]. rewrite app_nil_r.
  clear -N4. induction (Store.rows t) as [| q l IH]; [reflexivity |]. simpl.
  assert (Q : has_id id q = false).
  { unfold has_id. apply Z.eqb_neq. specialize (N4 q (or_introl eq_refl)). lia. }
  rewrite Q. cbn [negb]. f_equal. apply IH. intros x Hx. apply N4. now right.
Qed.


End CommandFacts.

(** ** The command line *)

Module CliFacts.
Import Py Tool Evez Sqlite Commands Log SqliteFacts CommandFacts.
Import Proc(Prompt, Read, Print).
Local Open Scope list_scope.

Section Texts.
Variable OWNER INTENT PROVENANCE IMPRINT_BLOCK __version__ : string.

Local Abbreviation run_about := (EvezCli.run_about OWNER INTENT PROVENANCE __version__).
Local Abbreviation run_imprint := (EvezCli.run_imprint IMPRINT_BLOCK).
Local Abbreviation dispatch :=
  (EvezCli.dispatch OWNER INTENT PROVENANCE IMPRINT_BLOCK __version__).
Local Abbreviation main :=
  (EvezCli.main OWNER INTENT PROVENANCE IMPRINT_BLOCK __version__).

Lemma run_about_run path p :
  run_about path p
  = (Ok tt,
     printing [Print ("Owner:     " ++ OWNER)%string;
               Print ("Intent:    " ++ INTENT)%string;
               Print ("Version:   " ++ __version__)%string;
               Print ("Database:  " ++ path)%string] p).
Proof.
  unfold EvezCli.run_about, Tool.bind, print, printing. simpl.
  now rewrite <- !app_assoc.
Qed.

Lemma run_imprint_run p :
  run_imprint p = (Ok tt, printing [Print IMPRINT_BLOCK] p).
Proof. reflexivity. Qed.

Lemma run_init_run path p :
  EvezCli.run_init path p
  = match initialize_db (file p) with
    | (Ok version, f) =>
        (Ok tt,
         printing [Print ("Initialized database at " ++ path ++ " (schema v"
                          ++ str_of_int version ++ ").")%string]
           (with_file f p))
    | (Raise e, f) => (Raise e, with_file f p)
    end.
Proof.
  unfold EvezCli.run_init, Tool.bind, on_file, Evez.run_init, print, printing, with_file.
  destruct (initialize_db (file p)) as [[v | e] f]; reflexivity.
Qed.

(** Whatever the command, the file afterwards is the file before, changed
    in one of the four ways; when the command raised, its rows and its
    entry in [sqlite_sequence] are those before. *)
Lemma dispatch_change path args p r p' :
  dispatch path args p = (r, p') ->
  change (file p) (file p')
  /\ (forall e, r = Raise e ->
                rows (file p') = rows (file p) /\ sequence (file p') = sequence (file p)).
Proof.
  assert (K : forall f, f = snd (initialize_db (file p)) ->
                        rows f = rows (file p) /\ sequence f = sequence (file p)).
  { intros f ->. destruct (initialize_db (file p)) as [r0 f0] eqn:I.
    exact (initialize_db_keeps _ _ _ I). }
  destruct args as [| | | content tags location timestamp | limit offset
                    | id content tags location timestamp | id force];
    cbn [EvezCli.dispatch]; intros H.
  - rewrite run_about_run in H. inversion H; subst.
    split; [apply change_refl | discriminate].
  - rewrite run_imprint_run in H. inversion H; subst.
    split; [apply change_refl | discriminate].
  - rewrite run_init_run in H.
    destruct (initialize_db (file p)) as [[v | e] f] eqn:I;
      inversion H; subst; simpl;
      (split; [eapply change_after_init; [exact I | apply change_refl] |]).
    + discriminate.
    + intros _ _. exact (initialize_db_keeps _ _ _ I).
  - apply run_add_change in H. destruct H as (C & E). split; [exact C |].
    intros e He. apply K. eauto.
  - apply run_list_keeps in H. destruct (K _ H) as (A & B).
    split; [now apply Same | auto].
  - apply run_update_change in H. destruct H as (C & E). split; [exact C |].
    intros e He. apply K. eauto.
  - apply run_delete_change in H. destruct H as (C & E). split; [exact C |].
    intros e He. apply K. eauto.
Qed.

Lemma main_dispatch path args p status p' :
  main path args p = (status, p') ->
  exists r, dispatch path args p = (r, p')
            /\ (status = 0 /\ r = Ok tt \/ status = 1 /\ exists e, r = Raise e).
Proof.
  unfold EvezCli.main.
  destruct (dispatch path args p) as [[[] | e] p0]; intros H; inversion H; subst;
    eexists; (split; [reflexivity |]); eauto.
Qed.

(** X2.  A command that ends with status 1 has changed no row of the log,
    whatever made it fail; and [about], [imprint], [init] and [list] change
    no row however they end ([about] and [imprint] do not touch the file at
    all). *)
Theorem rows_change_only_on_success path args p status p' :
  main path args p = (status, p') ->
  (status = 0 \/ status = 1)
  /\ (status = 1 -> rows (file p') = rows (file p))
  /\ match args with
     | About | Imprint => file p' = file p
     | Init | List_ _ _ => rows (file p') = rows (file p)
     | _ => True
     end.
Proof.
  intros H. apply main_dispatch in H. destruct H as (r & D & S).
  split; [tauto |]. split.
  - intros ->. destruct S as [(S & _) | (_ & e & ->)]; [discriminate |].
    apply dispatch_change in D. destruct D as (_ & D). now apply (D e).
  - destruct args; cbn [EvezCli.dispatch] in D; auto.
    + rewrite run_about_run in D. now inversion D.
    + rewrite run_imprint_run in D. now inversion D.
    + rewrite run_init_run in D.
      destruct (initialize_db (file p)) as [[v | e] f] eqn:I;
        inversion D; subst; simpl; exact (proj1 (initialize_db_keeps _ _ _ I)).
    + apply run_list_keeps in D. rewrite D.
      destruct (initialize_db (file p)) as [r0 f0] eqn:I.
      exact (proj1 (initialize_db_keeps _ _ _ I)).
Qed.

(** X3.  Identifiers are not given twice.  In a file where no row is
    above the table's entry in [sqlite_sequence], that stays so after any
    command; the entry never goes down; and a row whose identifier was not
    in the table before the command has an identifier above the entry of
    before, so above every identifier the table ever held. *)
Theorem identifiers_are_never_reused path args p status p' :
  sequence_covers (file p) ->
  main path args p = (status, p') ->
  sequence_covers (file p')
  /\ sequence (file p) <= sequence (file p')
  /\ (forall q, In q (rows (file p')) ->
                In (fst q) (map fst (rows (file p))) \/ sequence (file p) < fst q).
Proof.
  intros W H. apply main_dispatch in H. destruct H as (r & D & _).
  apply dispatch_change in D. destruct D as (C & _).
  unfold sequence_covers in *.
  destruct C as [A B | id o A B C D | g A B | h A B]; rewrite A.
  - rewrite B. split; [exact W |]. split; [lia |].
    intros q Hq. left. now apply in_map.
  - rewrite D. split; [| split; [lia |]].
    + intros q Hq. apply in_app_or in Hq. destruct Hq as [Hq | [<- | []]].
      * specialize (W q Hq). lia.
      * simpl. lia.
    + intros q Hq. apply in_app_or in Hq. destruct Hq as [Hq | [<- | []]].
      * left. now apply in_map.
      * right. exact B.
  - rewrite B. split; [| split; [lia |]].
    + intros q Hq. apply in_map_iff in Hq. destruct Hq as (q0 & <- & Hq).
      exact (W q0 Hq).
    + intros q Hq. apply in_map_iff in Hq. destruct Hq as (q0 & <- & Hq).
      left. simpl. now apply in_map.
  - rewrite B. split; [| split; [lia |]].
    + intros q Hq. apply filter_In in Hq. exact (W q (proj1 Hq)).
    + intros q Hq. apply filter_In in Hq. left. apply in_map. tauto.
Qed.

(** X4.  A file that records a schema version above the supported one
    stops every command that uses the database: it ends with status 1,
    prints nothing and leaves the file as it was.  [about] and [imprint]
    do not open the file and end with status 0. *)
Theorem newer_schema_stops_every_command path args p v :
  recorded_version (file p) = Some v ->
  SCHEMA_VERSION < v ->
  match args with
  | About | Imprint =>
      exists out, main path args p = (0, printing out p)
  | _ => main path args p = (1, p)
  end.
Proof.
  intros Hv Hlt. pose proof (EvezFacts.initialize_db_newer _ _ Hv Hlt) as E.
  assert (P : with_file (file p) p = p) by now destruct p.
  unfold EvezCli.main.
  destruct args; cbn [EvezCli.dispatch].
  - rewrite run_about_run. eauto.
  - rewrite run_imprint_run. eauto.
  - rewrite run_init_run, E, P. reflexivity.
  - rewrite run_add_run, E, P. reflexivity.
  - rewrite run_list_run, E, P. reflexivity.
  - rewrite run_update_run, E, P. reflexivity.
  - rewrite run_delete_run, E, P. reflexivity.
Qed.

End Texts.
End CliFacts.

(** ** The schema version *)

Module SchemaFacts.
Import Py Evez Log SqliteFacts.
Local Open Scope list_scope.


Lemma initialize_db_negative file v :
  recorded_version file = Some v -> v < 0 ->
  initialize_db file
  = (Raise (ValueError ("Unsupported migration path " ++ str_of_int v ++ " -> "
                        ++ str_of_int (v + 1))%string),
     file).
Proof.
  intros Hv Hlt. unfold initialize_db. rewrite EvezFacts.with_connection_bind.
  rewrite (EvezFacts.get_schema_version_recorded _ _ Hv).
  assert (E1 : (SCHEMA_VERSION <? v) = false) by (apply Z.ltb_ge; unfold SCHEMA_VERSION; lia).
  assert (E2 : (v <? SCHEMA_VERSION) = true) by (apply Z.ltb_lt; unfold SCHEMA_VERSION; lia).
  rewrite E1, E2. unfold migrate.
  destruct (Z.to_nat (SCHEMA_VERSION - v)) as [| n] eqn:F;
    [unfold SCHEMA_VERSION in F; lia |].
  cbn [migrate_loop]. rewrite E2. unfold migration_statements.
  assert (E3 : (v =? 0) = false) by (apply Z.eqb_neq; lia).
  rewrite E3. reflexivity.
Qed.


End SchemaFacts.


(** ** The scenario, run *)

Module Runs.
Import Py Store Proc Session.
Local Open Scope list_scope.

Lemma scenario_completes : Scenario.capture Scenario.fresh = (Ok Scenario.ids, Scenario.final).
Proof. vm_compute. reflexivity. Qed.

(** The expectations of the scenario: six tables written, the outcome's
    references are the operator's followed by the token of the test. *)
Example scenario_outcome_refs :
  stored_row (disk Scenario.final) Outcomes 1
  = Some (OutcomeRow
            {| c_observation_id := 1; c_hypothesis_id := 2;
               c_summary := "root cause found";
               c_evidence_refs := Ref.dq "['log:1234', 'test:1']" |}).
Proof. vm_compute. reflexivity. Qed.

Example scenario_row_counts :
  map (fun t => List.length (all_rows (disk Scenario.final) t))
    [Intents; Observations; Hypotheses; Tests; Outcomes; PatternSeeds]
  = [1; 1; 3; 1; 1; 1]%nat.
Proof. vm_compute. reflexivity. Qed.

(** The mixture vector of the specification's round trip, as stored. *)
Example scenario_mixture_vector :
  option_map (fun r => match r with
                       | HypothesisRow x => h_domain_signature x
                       | _ => EmptyString
                       end)
    (stored_row (disk Scenario.final) Hypotheses 2)
  = Some (Ref.dq "[{'domain': 'ops', 'weight': 0.6}, {'domain': 'risk', 'weight': 0.4}]").
Proof. vm_compute. reflexivity. Qed.

(** A store error in the middle of a session: the insert of the test is
    refused, the five rows inserted before it are rolled back, and the file
    is as it was. *)
Example store_error_rolls_back :
  let '(r, w') := Scenario.capture (start Scenario.lines Scenario.tests_full) in
  r = Raise (OperationalError "database or disk is full")
  /\ List.length (inserts_of (trace w')) = 5%nat
  /\ disk w' = Scenario.tests_full.
Proof. vm_compute. repeat split. Qed.

Lemma capture_keys_point_backward_witness :
  Scenario.capture Scenario.fresh = (Ok Scenario.ids, Scenario.final)
  /\ exists evs,
       trace Scenario.final = trace Scenario.fresh ++ evs
       /\ map (fun p => table_of (fst p)) (inserts_of evs)
          = stage_order (List.length (HandshakeOS.hypothesis_ids Scenario.ids))
       /\ refs_backward [] (inserts_of evs) = true
       /\ disk Scenario.final
          = replay (inserts_of evs) (create_tables (disk Scenario.fresh)).
Proof.
  split; [vm_compute; reflexivity |].
  apply (CaptureFacts.capture_keys_point_backward Scenario.max_str_digits Ref.py_float
           Ref.float_repr (Ref.json_loads Scenario.max_str_digits) Ref.json_dumps
           Scenario.fresh Scenario.ids Scenario.final).
  vm_compute; reflexivity.
Defined.


Lemma hypothesis_count_is_the_choice_witness :
  Scenario.capture Scenario.fresh = (Ok Scenario.ids, Scenario.final)
  /\ exists evs line n,
       trace Scenario.final = trace Scenario.fresh ++ evs
       /\ infix [Console (Prompt count_prompt); Console (Read line);
                 Console (Prompt (hypothesis_prompt 1))] evs
       /\ py_int Scenario.max_str_digits (strip line) = Some n
       /\ 3 <= n <= 7
       /\ Z.of_nat (List.length (HandshakeOS.hypothesis_ids Scenario.ids)) = n
       /\ Z.of_nat (List.length (written (inserts_of evs) Hypotheses)) = n
       /\ all_rows (disk Scenario.final) Hypotheses
          = all_rows (disk Scenario.fresh) Hypotheses ++ written (inserts_of evs) Hypotheses.
Proof.
  split; [vm_compute; reflexivity |].
  apply (proj1 (CaptureFacts.hypothesis_count_is_the_choice Scenario.max_str_digits
                  Ref.py_float Ref.float_repr (Ref.json_loads Scenario.max_str_digits)
                  Ref.json_dumps)
           Scenario.fresh Scenario.ids Scenario.final).
  vm_compute; reflexivity.
Defined.

(** C3, as stated for every session, fails when the session ends early:
    the operator answers 3, leaves after the first hypothesis, and no
    hypothesis row is inserted. *)
Lemma count_not_kept_when_cut_short :
  ~ count_kept_in_every_session Scenario.max_str_digits Scenario.capture.
Proof.
  intros H.
  specialize (H Scenario.cut_short (Raise EOFError) Scenario.cut_final
                (trace Scenario.cut_final) "3"%string 3).
  assert (E : Z.of_nat (List.length (written (inserts_of (trace Scenario.cut_final))
                                       Hypotheses)) = 3).
  { apply H.
    - vm_compute; reflexivity.
    - reflexivity.
    - exists (firstn 16 (trace Scenario.cut_final)), (skipn 19 (trace Scenario.cut_final)).
      vm_compute; reflexivity.
    - reflexivity. }
  vm_compute in E. discriminate E.
Qed.

Lemma early_end_leaves_no_row_witness :
  Scenario.capture Scenario.cut_short = (Raise EOFError, Scenario.cut_final)
  /\ (disk Scenario.cut_final = create_tables (disk Scenario.cut_short)
      /\ txn Scenario.cut_final = None
      /\ (forall t, all_rows (disk Scenario.cut_final) t = all_rows (disk Scenario.cut_short) t)
      /\ ((forall t, present (disk Scenario.cut_short) t = true) ->
          disk Scenario.cut_final = disk Scenario.cut_short)
      /\ exists evs,
           trace Scenario.cut_final = trace Scenario.cut_short ++ evs
           /\ ~ In (Store Commit) evs).
Proof.
  split; [vm_compute; reflexivity |].
  apply (CaptureFacts.early_end_leaves_no_row Scenario.max_str_digits Ref.py_float
           Ref.float_repr (Ref.json_loads Scenario.max_str_digits) Ref.json_dumps
           Scenario.cut_short EOFError Scenario.cut_final).
  vm_compute; reflexivity.
Defined.

(** C4, as stated, fails on a file that does not exist yet: the session
    ends at the first question and the six tables are there afterwards. *)
Lemma early_end_changes_a_new_file : ~ leaves_file_untouched Scenario.capture.
Proof.
  intros H.
  specialize (H Scenario.closed_at_once EOFError
                (snd (Scenario.capture Scenario.closed_at_once))).
  assert (E : Scenario.capture Scenario.closed_at_once
              = (Raise EOFError, snd (Scenario.capture Scenario.closed_at_once)))
    by (vm_compute; reflexivity).
  specialize (H E). vm_compute in H. discriminate H.
Qed.

Lemma outcome_concludes_the_test_witness :
  Scenario.capture Scenario.fresh = (Ok Scenario.ids, Scenario.final)
  /\ exists evs trow orow obs line k,
       trace Scenario.final = trace Scenario.fresh ++ evs
       /\ In (Store (Insert (ObservationRow obs) (HandshakeOS.observation_id Scenario.ids))) evs
       /\ infix [Console (Prompt (index_prompt
                                    (List.length (HandshakeOS.hypothesis_ids Scenario.ids))));
                 Console (Read line);
                 Console (Prompt "Test description: ")] evs
       /\ py_int Scenario.max_str_digits (strip line) = Some k
       /\ nth_error (HandshakeOS.hypothesis_ids Scenario.ids) (Z.to_nat (k - 1))
          = Some (t_hypothesis_id trow)
       /\ stored_row (disk Scenario.final) Tests (HandshakeOS.test_id Scenario.ids)
          = Some (TestRow trow)
       /\ stored_row (disk Scenario.final) Outcomes (HandshakeOS.outcome_id Scenario.ids)
          = Some (OutcomeRow orow)
       /\ c_hypothesis_id orow = t_hypothesis_id trow
       /\ c_observation_id orow = HandshakeOS.observation_id Scenario.ids.
Proof.
  split; [vm_compute; reflexivity |].
  apply (CaptureFacts.outcome_concludes_the_test Scenario.max_str_digits Ref.py_float
           Ref.float_repr (Ref.json_loads Scenario.max_str_digits) Ref.json_dumps
           Scenario.fresh Scenario.ids Scenario.final).
  vm_compute; reflexivity.
Defined.

Lemma hypotheses_stored_after_all_collected_witness :
  Scenario.capture Scenario.fresh = (Ok Scenario.ids, Scenario.final)
  /\ exists before fields rows after,
       trace Scenario.final
       = trace Scenario.fresh ++ before ++ map Console fields
         ++ hypothesis_inserts (combine rows (HandshakeOS.hypothesis_ids Scenario.ids))
         ++ after
       /\ List.length rows = List.length (HandshakeOS.hypothesis_ids Scenario.ids)
       /\ (forall i,
              1 <= i <= Z.of_nat (List.length (HandshakeOS.hypothesis_ids Scenario.ids)) ->
              In (Prompt (hypothesis_prompt i)) fields)
       /\ filter is_hypothesis_insert (before ++ after) = [].
Proof.
  split; [vm_compute; reflexivity |].
  apply (proj1 (CaptureFacts.hypotheses_stored_after_all_collected Scenario.max_str_digits
                  Ref.py_float Ref.float_repr (Ref.json_loads Scenario.max_str_digits)
                  Ref.json_dumps)
           Scenario.fresh Scenario.ids Scenario.final).
  vm_compute; reflexivity.
Defined.

(** C6, as stated, fails in the scenario: when the question for the second
    hypothesis is put, no hypothesis row has been inserted yet. *)
Lemma second_hypothesis_asked_before_first_stored :
  ~ stored_before_next (trace Scenario.final).
Proof.
  intros H.
  specialize (H (firstn 26 (trace Scenario.final)) (skipn 27 (trace Scenario.final)) 1).
  assert (E : trace Scenario.final
              = firstn 26 (trace Scenario.final)
                ++ Console (Prompt (hypothesis_prompt (1 + 1)))
                   :: skipn 27 (trace Scenario.final))
    by (vm_compute; reflexivity).
  specialize (H (Z.le_refl 1) E). vm_compute in H. apply H. reflexivity.
Qed.

(** C7: where the collector departs from it.  A JSON boolean for a weight
    is taken for a number: the line is accepted, no message is printed, and
    the weight becomes 1.0.  An integer weight too large for a float makes
    [float] raise [OverflowError], which the loop does not catch: the
    exception leaves the collector, and the entry after it, whose weight is
    the string "high", is never reported. *)
Theorem mixture_collector_slips :
  HandshakeOS._prompt_mixture_vector (Ref.json_loads Scenario.max_str_digits)
    "Observation domain signature mixture" [Scenario.boolean_line]
  = (Ok [JDict [("domain", JStr "ops"); ("weight", JFloat Scenario.six_tenths)];
         JDict [("domain", JStr "risk"); ("weight", JFloat float_one)]],
     [],
     [Prompt "Observation domain signature mixture (JSON list of {domain, weight}, empty for []): ";
      Read Scenario.boolean_line])
  /\ HandshakeOS._prompt_mixture_vector (Ref.json_loads Scenario.max_str_digits)
       "Observation domain signature mixture" [Scenario.huge_line; "[]"]
     = (Raise (OverflowError "int too large to convert to float"),
        ["[]"],
        [Prompt "Observation domain signature mixture (JSON list of {domain, weight}, empty for []): ";
         Read Scenario.huge_line]).
Proof. split; vm_compute; reflexivity. Qed.

(** The entry the specification names, with the weight "high", is turned
    down when nothing before it stops the loop. *)
Example weight_high_is_turned_down :
  HandshakeOS._prompt_mixture_vector (Ref.json_loads Scenario.max_str_digits)
    "Observation domain signature mixture"
    [Ref.dq "[{'domain':'ops','weight':'high'}]"; "[]"]
  = (Ok [], [],
     [Prompt "Observation domain signature mixture (JSON list of {domain, weight}, empty for []): ";
      Read (Ref.dq "[{'domain':'ops','weight':'high'}]");
      Print "Each mixture entry needs a numeric 'weight'.";
      Prompt "Observation domain signature mixture (JSON list of {domain, weight}, empty for []): ";
      Read "[]"]).
Proof. vm_compute. reflexivity. Qed.

Lemma boolean_weight_is_coerced_witness :
  nonempty Scenario.boolean_line = true
  /\ Ref.json_loads Scenario.max_str_digits Scenario.boolean_line
     = Ok (JList ([JDict [("domain", JStr "ops"); ("weight", JFloat Scenario.six_tenths)]]
                  ++ JDict [("domain", JStr "risk"); ("weight", JBool true)] :: []))
  /\ HandshakeOS.clean_entries
       [JDict [("domain", JStr "ops"); ("weight", JFloat Scenario.six_tenths)]] []
     = Ok [JDict [("domain", JStr "ops"); ("weight", JFloat Scenario.six_tenths)]]
  /\ (HandshakeOS.is_int_or_float
        (dict_get "weight" [("domain", JStr "risk"); ("weight", JBool true)]) = true
      /\ HandshakeOS.float_of_number
           (dict_get "weight" [("domain", JStr "risk"); ("weight", JBool true)])
         = Ok float_one
      /\ HandshakeOS.clean_entry (JDict [("domain", JStr "risk"); ("weight", JBool true)])
         = Ok (JDict [("domain", JStr "risk"); ("weight", JFloat float_one)])
      /\ HandshakeOS._parse_mixture_vector (Ref.json_loads Scenario.max_str_digits)
           Scenario.boolean_line
         = and_then (HandshakeOS.clean_entries [] []) (fun rest =>
           Ok ([JDict [("domain", JStr "ops"); ("weight", JFloat Scenario.six_tenths)]]
               ++ JDict [("domain", JStr "risk"); ("weight", JFloat float_one)] :: rest))).
Proof.
  split; [reflexivity |]. split; [vm_compute; reflexivity |]. split; [reflexivity |].
  apply (CaptureFacts.boolean_weight_is_coerced (Ref.json_loads Scenario.max_str_digits)
           Scenario.boolean_line
           [JDict [("domain", JStr "ops"); ("weight", JFloat Scenario.six_tenths)]]
           [("domain", JStr "risk"); ("weight", JBool true)] "risk" true []
           [JDict [("domain", JStr "ops"); ("weight", JFloat Scenario.six_tenths)]]);
    vm_compute; reflexivity.
Defined.

Lemma schema_setup_twice_witness :
  Evez.initialize_db Evez.empty_db = (Ok 1, Evez.migrated Evez.empty_db)
  /\ (Evez.initialize_db (Evez.migrated Evez.empty_db)
      = (Ok 1, Evez.migrated Evez.empty_db)
      /\ rows_of (Evez.observations (Evez.migrated Evez.empty_db))
         = rows_of (Evez.observations Evez.empty_db)
      /\ (Evez.idx_observations_timestamp Evez.empty_db = true ->
          Evez.idx_observations_timestamp (Evez.migrated Evez.empty_db) = true)
      /\ (Evez.idx_observations_location Evez.empty_db = true ->
          Evez.idx_observations_location (Evez.migrated Evez.empty_db) = true)).
Proof.
  split; [reflexivity |].
  apply (proj2 EvezFacts.schema_setup_twice Evez.empty_db 1 (Evez.migrated Evez.empty_db)).
  reflexivity.
Defined.

Lemma newer_schema_version_is_refused_witness :
  Evez.recorded_version Scenario.newer_file = Some 2
  /\ Evez.SCHEMA_VERSION < 2
  /\ (Evez.initialize_db Scenario.newer_file
      = (Raise (RuntimeError "Database version 2 is newer than supported 1"),
         Scenario.newer_file)
      /\ Evez.main_init "evez.sqlite3" Scenario.newer_file = (1, Scenario.newer_file)).
Proof.
  split; [reflexivity |]. split; [reflexivity |].
  apply (EvezFacts.newer_schema_version_is_refused "evez.sqlite3" Scenario.newer_file 2);
    reflexivity.
Defined.

End Runs.


(** ** The commands of the log, run *)

Module LogRuns.
Import Py Tool Evez Sqlite Commands Log LogScenario.
Import Proc(Prompt, Read, Print).
Local Open Scope list_scope.

(** The fourth observation gets the identifier 6 and the integral part of
    the clock's reading. *)
Example add_fourth_runs :
  console (after add_fourth at_start) = [Print "Added observation 6 at 1700000000."]
  /\ rows (file (after add_fourth at_start))
     = rows log
       ++ [(6, {| timestamp := 1700000000; content := "fourth";
                  tags := Some "x"; location := None |})].
Proof. vm_compute. split; reflexivity. Qed.

(** The listing of the log: newest first, [-] for tags and locations that
    are absent or empty. *)
Example list_runs :
  console (after (run_list 20 0) at_start)
  = [Print "2 | 300 | second | tags=- | location=lab";
     Print "4 | 200 | third | tags=- | location=-";
     Print "1 | 100 | first | tags=a,b | location=-"].
Proof. vm_compute. reflexivity. Qed.

Lemma add_appends_one_row_witness :
  add_fourth at_start = (Ok tt, after add_fourth at_start)
  /\ exists id ts,
       int_of_float (clock at_start) = Ok ts
       /\ fits ts
       /\ rows (file (after add_fourth at_start))
          = rows (file at_start)
            ++ [(id, {| Evez.timestamp := ts; Evez.content := "fourth";
                        Evez.tags := Some "x"; Evez.location := None |})]
       /\ (forall q, In q (rows (file at_start)) -> fst q < id)
       /\ sequence (file at_start) < id
       /\ sequence (file (after add_fourth at_start)) = id
       /\ recorded_version (file (after add_fourth at_start)) = Some SCHEMA_VERSION
       /\ console (after add_fourth at_start)
          = console at_start
            ++ [Print ("Added observation " ++ str_of_int id ++ " at "
                       ++ str_of_int ts ++ ".")%string]
       /\ stdin (after add_fourth at_start) = stdin at_start.
Proof.
  split; [vm_compute; reflexivity |].
  apply (CommandFacts.add_appends_one_row "fourth" (Some "x") None None at_start
           (after add_fourth at_start)).
  vm_compute; reflexivity.
Defined.

Lemma rows_change_only_on_success_witness :
  LogScenario.main path (Update 9 (Some "x") None None None) at_start
  = (1, snd (LogScenario.main path (Update 9 (Some "x") None None None) at_start))
  /\ ((1 = 0 \/ 1 = 1)
      /\ (1 = 1 ->
          rows (file (snd (LogScenario.main path (Update 9 (Some "x") None None None)
                             at_start)))
          = rows (file at_start))
      /\ True).
Proof.
  split; [vm_compute; reflexivity |].
  apply (CliFacts.rows_change_only_on_success owner intent provenance imprint version
           path (Update 9 (Some "x") None None None) at_start 1
           (snd (LogScenario.main path (Update 9 (Some "x") None None None) at_start))).
  vm_compute; reflexivity.
Defined.

Lemma log_sequence_covers : sequence_covers log.
Proof.
  intros q H. vm_compute in H.
  destruct H as [<- | [<- | [<- | []]]]; vm_compute; discriminate.
Defined.

Lemma identifiers_are_never_reused_witness :
  sequence_covers (file at_start)
  /\ LogScenario.main path (Add "fourth" (Some "x") None None) at_start
     = (0, after add_fourth at_start)
  /\ (sequence_covers (file (after add_fourth at_start))
      /\ sequence (file at_start) <= sequence (file (after add_fourth at_start))
      /\ (forall q, In q (rows (file (after add_fourth at_start))) ->
                    In (fst q) (map fst (rows (file at_start)))
                    \/ sequence (file at_start) < fst q)).
Proof.
  split; [exact log_sequence_covers |].
  split; [vm_compute; reflexivity |].
  apply (CliFacts.identifiers_are_never_reused owner intent provenance imprint version
           path (Add "fourth" (Some "x") None None) at_start 0
           (after add_fourth at_start)).
  - exact log_sequence_covers.
  - vm_compute; reflexivity.
Defined.

Lemma newer_schema_stops_every_command_witness :
  recorded_version (file on_newer_file) = Some 2
  /\ SCHEMA_VERSION < 2
  /\ LogScenario.main path (Add "fourth" (Some "x") None None) on_newer_file
     = (1, on_newer_file).
Proof.
  split; [reflexivity |]. split; [reflexivity |].
  apply (CliFacts.newer_schema_stops_every_command owner intent provenance imprint
           version path (Add "fourth" (Some "x") None None) on_newer_file 2);
    reflexivity.
Defined.

Lemma list_prints_a_page_newest_first_witness :
  run_list 2 1 at_start = (Ok tt, after (run_list 2 1) at_start)
  /\ exists sorted,
       Permutation sorted (rows (file at_start))
       /\ StronglySorted newest_first sorted
       /\ console (after (run_list 2 1) at_start)
          = console at_start ++ listing (limit_offset 2 1 sorted)
       /\ (0 <= 2 -> Z.of_nat (List.length (limit_offset 2 1 sorted)) <= 2)
       /\ (2 < 0 -> 1 <= 0 -> limit_offset 2 1 sorted = sorted)
       /\ rows (file (after (run_list 2 1) at_start)) = rows (file at_start)
       /\ stdin (after (run_list 2 1) at_start) = stdin at_start.
Proof.
  split; [vm_compute; reflexivity |].
  apply (CommandFacts.list_prints_a_page_newest_first 2 1 at_start
           (after (run_list 2 1) at_start)).
  vm_compute; reflexivity.
Defined.

Lemma added_observation_is_listed_witness :
  add_fourth at_start = (Ok tt, after add_fourth at_start)
  /\ exists id ts out,
       console (after add_fourth at_start)
       = console at_start
         ++ [Print ("Added observation " ++ str_of_int id ++ " at "
                    ++ str_of_int ts ++ ".")%string]
       /\ run_list (-1) 0 (after add_fourth at_start)
          = (Ok tt, printing out (after add_fourth at_start))
       /\ In (Print (line (id, {| Evez.timestamp := ts; Evez.content := "fourth";
                                  Evez.tags := Some "x"; Evez.location := None |})))
             out.
Proof.
  split; [vm_compute; reflexivity |].
  apply (CommandFacts.added_observation_is_listed "fourth" (Some "x") None None
           at_start (after add_fourth at_start)).
  vm_compute; reflexivity.
Defined.

Lemma log_opens : opens (file at_start) log.
Proof.
  exists 1, {| Store.sequence := 5; Store.rows := rows log |}.
  split; vm_compute; reflexivity.
Defined.

Lemma pages_follow_one_another_witness :
  opens (file at_start) log
  /\ exists first second,
       run_list 1 1 at_start = (Ok tt, printing (listing first) (with_file log at_start))
       /\ run_list 1 (1 + 1) at_start
          = (Ok tt, printing (listing second) (with_file log at_start))
       /\ run_list (1 + 1) 1 at_start
          = (Ok tt, printing (listing (first ++ second)) (with_file log at_start)).
Proof.
  split; [exact log_opens |].
  apply (CommandFacts.pages_follow_one_another 1 1 1 at_start log log_opens);
    unfold fits; lia.
Defined.

Lemma update_replaces_the_given_fields_witness :
  revise_second at_start = (Ok tt, after revise_second at_start)
  /\ (In 2 (map fst (rows (file at_start)))
      /\ rows (file (after revise_second at_start))
         = map (fun q => if fst q =? 2
                         then (fst q,
                               updated (Some "second, revised"%string) None
                                 (Some "roof"%string) None (snd q))
                         else q)
             (rows (file at_start))
      /\ map fst (rows (file (after revise_second at_start)))
         = map fst (rows (file at_start))
      /\ Forall2 (fun q q' =>
                    (Evez.tags (snd q) <> None -> Evez.tags (snd q') <> None)
                    /\ (Evez.location (snd q) <> None -> Evez.location (snd q') <> None))
           (rows (file at_start)) (rows (file (after revise_second at_start)))
      /\ sequence (file (after revise_second at_start)) = sequence (file at_start)
      /\ console (after revise_second at_start)
         = console at_start ++ [Print ("Updated observation " ++ str_of_int 2 ++ ".")%string]).
Proof.
  split; [vm_compute; reflexivity |].
  apply (CommandFacts.update_replaces_the_given_fields 2 (Some "second, revised"%string)
           None (Some "roof"%string) None at_start (after revise_second at_start)).
  vm_compute; reflexivity.
Defined.

Lemma update_without_fields_is_refused_witness :
  run_update 2 None None None None on_new_file
  = (Raise (ValueError "No fields provided for update."),
     with_file (migrated empty_db) on_new_file)
  /\ ((exists e, Raise (ValueError "No fields provided for update.") = @Raise unit e)
      /\ (fst (initialize_db (file on_new_file)) = Ok SCHEMA_VERSION ->
          @Raise unit (ValueError "No fields provided for update.")
          = Raise (ValueError "No fields provided for update."))
      /\ with_file (migrated empty_db) on_new_file
         = with_file (snd (initialize_db (file on_new_file))) on_new_file
      /\ rows (file (with_file (migrated empty_db) on_new_file))
         = rows (file on_new_file)).
Proof.
  split; [vm_compute; reflexivity |].
  apply (CommandFacts.update_without_fields_is_refused 2 on_new_file
           (Raise (ValueError "No fields provided for update."))
           (with_file (migrated empty_db) on_new_file)).
  vm_compute; reflexivity.
Defined.

Lemma three_is_gone : ~ In 3 (map fst (rows (file at_start))).
Proof.
  vm_compute. intros [H | [H | [H | []]]]; discriminate H.
Defined.

Lemma three_fits : fits 3.
Proof. unfold fits. lia. Defined.

Lemma unknown_identifier_is_reported_witness :
  opens (file at_start) log
  /\ fits 3
  /\ ~ In 3 (map fst (rows (file at_start)))
  /\ (run_delete 3 true at_start = (Raise (not_found 3), with_file log at_start)
      /\ (forall content tags location timestamp,
             _build_update_pairs content tags location timestamp <> [] ->
             (forall n, timestamp = Some n -> fits n) ->
             run_update 3 content tags location timestamp at_start
             = (Raise (not_found 3), with_file log at_start))).
Proof.
  split; [exact log_opens |]. split; [exact three_fits |].
  split; [exact three_is_gone |].
  exact (CommandFacts.unknown_identifier_is_reported 3 at_start log log_opens
           three_fits three_is_gone).
Defined.

Lemma two_to_the_63_does_not_fit : ~ fits 9223372036854775808.
Proof. unfold fits. lia. Defined.

Lemma integer_beyond_64_bits_is_refused_witness :
  opens (file at_start) log
  /\ ~ fits 9223372036854775808
  /\ (let overflow := OverflowError "Python int too large to convert to SQLite INTEGER" in
      (forall content tags location,
          run_add content tags location (Some 9223372036854775808) at_start
          = (Raise overflow, with_file log at_start))
      /\ run_delete 9223372036854775808 true at_start
         = (Raise overflow, with_file log at_start)
      /\ (forall content tags location timestamp,
             _build_update_pairs content tags location timestamp <> [] ->
             run_update 9223372036854775808 content tags location timestamp at_start
             = (Raise overflow, with_file log at_start))).
Proof.
  split; [exact log_opens |]. split; [exact two_to_the_63_does_not_fit |].
  exact (CommandFacts.integer_beyond_64_bits_is_refused 9223372036854775808 at_start log
           log_opens two_to_the_63_does_not_fit).
Defined.

Lemma nothing_is_deleted_without_a_yes_witness :
  run_delete 2 false (answering ["y"]) = (Ok tt, after (run_delete 2 false) (answering ["y"]))
  /\ ((rows (file (after (run_delete 2 false) (answering ["y"])))
       <> rows (file (answering ["y"])) ->
       exists answer rest,
         stdin (answering ["y"]) = answer :: rest
         /\ lower (strip answer) = "yes"%string /\ Ok tt = Ok tt)
      /\ (forall answer rest v f,
             stdin (answering ["y"]) = answer :: rest ->
             lower (strip answer) <> "yes"%string ->
             initialize_db (file (answering ["y"])) = (Ok v, f) ->
             Ok tt = Ok tt
             /\ file (after (run_delete 2 false) (answering ["y"])) = f
             /\ stdin (after (run_delete 2 false) (answering ["y"])) = rest
             /\ console (after (run_delete 2 false) (answering ["y"]))
                = console (answering ["y"])
                  ++ [Prompt ("Delete observation " ++ str_of_int 2
                              ++ "? Type 'yes' to confirm: ")%string;
                      Read answer; Print "Delete cancelled."])).
Proof.
  split; [vm_compute; reflexivity |].
  apply (CommandFacts.nothing_is_deleted_without_a_yes 2 (answering ["y"]) (Ok tt)
           (after (run_delete 2 false) (answering ["y"]))).
  vm_compute; reflexivity.
Defined.

Lemma delete_removes_the_observation_witness :
  run_delete 2 true at_start = (Ok tt, after (run_delete 2 true) at_start)
  /\ (In 2 (map fst (rows (file at_start)))
      /\ rows (file (after (run_delete 2 true) at_start))
         = filter (fun q => negb (fst q =? 2)) (rows (file at_start))
      /\ ~ In 2 (map fst (rows (file (after (run_delete 2 true) at_start))))
      /\ sequence (file (after (run_delete 2 true) at_start)) = sequence (file at_start)
      /\ console (after (run_delete 2 true) at_start)
         = console at_start ++ [Print ("Deleted observation " ++ str_of_int 2 ++ ".")%string]
      /\ run_delete 2 true (after (run_delete 2 true) at_start)
         = (Raise (not_found 2), after (run_delete 2 true) at_start)).
Proof.
  split; [vm_compute; reflexivity |].
  apply (CommandFacts.delete_removes_the_observation 2 at_start
           (after (run_delete 2 true) at_start)).
  vm_compute; reflexivity.
Defined.


Lemma update_twice_is_update_once_witness :
  revise_second at_start = (Ok tt, after revise_second at_start)
  /\ exists p2,
       revise_second (after revise_second at_start) = (Ok tt, p2)
       /\ file p2 = file (after revise_second at_start).
Proof.
  split; [vm_compute; reflexivity |].
  apply (CommandFacts.update_twice_is_update_once 2 (Some "second, revised"%string)
           None (Some "roof"%string) None at_start (after revise_second at_start)).
  vm_compute; reflexivity.
Defined.

Lemma add_then_delete_restores_the_rows_witness :
  add_fourth at_start = (Ok tt, after add_fourth at_start)
  /\ exists id p2,
       sequence (file (after add_fourth at_start)) = id
       /\ run_delete id true (after add_fourth at_start) = (Ok tt, p2)
       /\ rows (file p2) = rows (file at_start)
       /\ sequence (file p2) = id
       /\ sequence (file at_start) < id.
Proof.
  split; [vm_compute; reflexivity |].
  apply (CommandFacts.add_then_delete_restores_the_rows "fourth" (Some "x") None None
           at_start (after add_fourth at_start)).
  vm_compute; reflexivity.
Defined.

End LogRuns.

(** ** The prompts and the fields of the capture tool, run *)

Module FieldRuns.
Import Py Store Proc Session Fields.
Local Open Scope list_scope.

Lemma prompt_text_returns_a_stripped_line_witness :
  HandshakeOS._prompt_text "Intent goal" false ["  "; " reduce latency "; "next"]
  = (Ok "reduce latency"%string, ["next"%string],
     [Prompt "Intent goal: "; Read "  "; Print "Please provide a value.";
      Prompt "Intent goal: "; Read " reduce latency "])
  /\ (text_ok "reduce latency"
      /\ exists blank line,
           ["  "%string; " reduce latency "%string; "next"%string]
           = blank ++ line :: ["next"%string]
           /\ "reduce latency"%string = strip line
           /\ Forall (fun l => strip l = EmptyString) blank
           /\ [Prompt "Intent goal: "; Read "  "; Print "Please provide a value.";
               Prompt "Intent goal: "; Read " reduce latency "]
              = rejections ("Intent goal" ++ ": ") (map blank_round blank)
                ++ [Prompt ("Intent goal" ++ ": ")%string; Read line]).
Proof.
  split; [vm_compute; reflexivity |].
  apply (proj1 (FieldFacts.prompt_text_returns_a_stripped_line "Intent goal")
           ["  "%string; " reduce latency "%string; "next"%string]
           "reduce latency"%string ["next"%string]).
  vm_compute; reflexivity.
Defined.

Lemma evidence_refs_are_clean_witness :
  HandshakeOS._parse_evidence_refs (Ref.json_loads Scenario.max_str_digits)
    "log:1 , ,test:2" = Ok ["log:1"%string; "test:2"%string]
  /\ (Forall text_ok ["log:1"%string; "test:2"%string]
      /\ ("log:1 , ,test:2"%string = EmptyString -> ["log:1"%string; "test:2"%string] = [])
      /\ ("log:1 , ,test:2"%string <> EmptyString ->
          startswith (lstrip "log:1 , ,test:2") "[" = false ->
          ["log:1"%string; "test:2"%string]
          = filter nonempty (map strip (split "," "log:1 , ,test:2")))
      /\ ("log:1 , ,test:2"%string <> EmptyString ->
          startswith (lstrip "log:1 , ,test:2") "[" = true ->
          exists items,
            Ref.json_loads Scenario.max_str_digits "log:1 , ,test:2"
            = Ok (JList (map JStr items))
            /\ ["log:1"%string; "test:2"%string] = filter nonempty (map strip items))).
Proof.
  split; [vm_compute; reflexivity |].
  apply (FieldFacts.evidence_refs_are_clean (Ref.json_loads Scenario.max_str_digits)
           "log:1 , ,test:2" ["log:1"%string; "test:2"%string]).
  vm_compute; reflexivity.
Defined.

Lemma mixture_vector_is_cleaned_witness :
  HandshakeOS._parse_mixture_vector (Ref.json_loads Scenario.max_str_digits)
    (Ref.dq "[{'domain':'ops','weight':1,'note':'x'}]")
  = Ok [JDict [("domain"%string, JStr "ops"); ("weight"%string, JFloat float_one)]]
  /\ ((Ref.dq "[{'domain':'ops','weight':1,'note':'x'}]" = EmptyString
       /\ [JDict [("domain"%string, JStr "ops"); ("weight"%string, JFloat float_one)]] = [])
      \/ (Ref.dq "[{'domain':'ops','weight':1,'note':'x'}]" <> EmptyString
          /\ exists entries,
               Ref.json_loads Scenario.max_str_digits
                 (Ref.dq "[{'domain':'ops','weight':1,'note':'x'}]")
               = Ok (JList entries)
               /\ Forall2 cleaned_from entries
                    [JDict [("domain"%string, JStr "ops");
                            ("weight"%string, JFloat float_one)]])).
Proof.
  split; [vm_compute; reflexivity |].
  apply (FieldFacts.mixture_vector_is_cleaned (Ref.json_loads Scenario.max_str_digits)
           (Ref.dq "[{'domain':'ops','weight':1,'note':'x'}]")
           [JDict [("domain"%string, JStr "ops"); ("weight"%string, JFloat float_one)]]).
  vm_compute; reflexivity.
Defined.

Lemma stored_fields_are_valid_witness :
  Scenario.capture Scenario.fresh = (Ok Scenario.ids, Scenario.final)
  /\ ((exists evs,
          trace Scenario.final = trace Scenario.fresh ++ evs
          /\ forall row id, In (row, id) (inserts_of evs) -> valid_row row)
      /\ (forall ids, Ok Scenario.ids = Ok ids ->
            forall t q, In q (all_rows (disk Scenario.final) t) ->
                        In q (all_rows (disk Scenario.fresh) t) \/ valid_row (snd q))).
Proof.
  split; [vm_compute; reflexivity |].
  apply (FieldFacts.stored_fields_are_valid Scenario.max_str_digits Ref.py_float
           Ref.float_repr (Ref.json_loads Scenario.max_str_digits) Ref.json_dumps
           Scenario.fresh (Ok Scenario.ids) Scenario.final).
  vm_compute; reflexivity.
Defined.

Lemma completed_session_only_appends_witness :
  Scenario.capture Scenario.fresh = (Ok Scenario.ids, Scenario.final)
  /\ exists i o hs t c p pid,
       all_rows (disk Scenario.final) Intents
       = all_rows (disk Scenario.fresh) Intents
         ++ [(HandshakeOS.intent_id Scenario.ids, IntentRow i)]
       /\ all_rows (disk Scenario.final) Observations
          = all_rows (disk Scenario.fresh) Observations
            ++ [(HandshakeOS.observation_id Scenario.ids, ObservationRow o)]
       /\ all_rows (disk Scenario.final) Hypotheses
          = all_rows (disk Scenario.fresh) Hypotheses
            ++ map (fun q => (snd q, HypothesisRow (fst q)))
                 (combine hs (HandshakeOS.hypothesis_ids Scenario.ids))
       /\ List.length hs = List.length (HandshakeOS.hypothesis_ids Scenario.ids)
       /\ all_rows (disk Scenario.final) Tests
          = all_rows (disk Scenario.fresh) Tests
            ++ [(HandshakeOS.test_id Scenario.ids, TestRow t)]
       /\ all_rows (disk Scenario.final) Outcomes
          = all_rows (disk Scenario.fresh) Outcomes
            ++ [(HandshakeOS.outcome_id Scenario.ids, OutcomeRow c)]
       /\ all_rows (disk Scenario.final) PatternSeeds
          = all_rows (disk Scenario.fresh) PatternSeeds ++ [(pid, PatternSeedRow p)].
Proof.
  split; [vm_compute; reflexivity |].
  apply (FieldFacts.completed_session_only_appends Scenario.max_str_digits Ref.py_float
           Ref.float_repr (Ref.json_loads Scenario.max_str_digits) Ref.json_dumps
           Scenario.fresh Scenario.ids Scenario.final).
  vm_compute; reflexivity.
Defined.

Lemma hypothesis_ids_are_consecutive_witness :
  Scenario.capture Scenario.fresh = (Ok Scenario.ids, Scenario.final)
  /\ HandshakeOS.hypothesis_ids Scenario.ids
     = counting (next_rowid (hypotheses (disk Scenario.fresh)))
         (List.length (HandshakeOS.hypothesis_ids Scenario.ids)).
Proof.
  split; [vm_compute; reflexivity |].
  apply (FieldFacts.hypothesis_ids_are_consecutive Scenario.max_str_digits Ref.py_float
           Ref.float_repr (Ref.json_loads Scenario.max_str_digits) Ref.json_dumps
           Scenario.fresh Scenario.ids Scenario.final).
  vm_compute; reflexivity.
Defined.


Lemma choice_and_number_prompts_take_the_first_fit_witness :
  HandshakeOS._prompt_choice "Hypothesis 1 model type" model_types ["us"; " WE "; "x"]
  = (Ok "we"%string, ["x"%string],
     [Prompt "Hypothesis 1 model type (me/we/they/system): "; Read "us";
      Print "Please choose one of: me/we/they/system.";
      Prompt "Hypothesis 1 model type (me/we/they/system): "; Read " WE "])
  /\ (let prompt :=
        ("Hypothesis 1 model type" ++ " (" ++ String.concat "/" model_types ++ "): ")%string in
      let again :=
        ("Please choose one of: " ++ String.concat "/" model_types ++ ".")%string in
      In "we"%string model_types
      /\ exists skipped line,
           ["us"%string; " WE "%string; "x"%string] = skipped ++ line :: ["x"%string]
           /\ "we"%string = lower (strip line)
           /\ Forall (fun l => ~ In (lower (strip l)) model_types) skipped
           /\ [Prompt "Hypothesis 1 model type (me/we/they/system): "; Read "us";
               Print "Please choose one of: me/we/they/system.";
               Prompt "Hypothesis 1 model type (me/we/they/system): "; Read " WE "]
              = rejections prompt (map (fun l => (l, again)) skipped)
                ++ [Prompt prompt; Read line]).
Proof.
  split; [vm_compute; reflexivity |].
  apply (proj1 (FieldFacts.choice_and_number_prompts_take_the_first_fit
                  Ref.py_float Ref.float_repr)
           "Hypothesis 1 model type"%string model_types
           ["us"%string; " WE "%string; "x"%string] "we"%string ["x"%string]).
  vm_compute; reflexivity.
Defined.


End FieldRuns.
